(** * BigD congestion forecasting: the prediction code and its properties

    A shallow embedding of
      - ml-service/traffic_model.py      (TrafficPredictionModel.predict),
      - server/app/core/cache.py         (get_cache, set_cache),
      - server/app/services/ml_service.py (MLService.prepare_features,
        MLService.predict_congestion_xgboost),
    followed by the theorems about them.

    Numbers.  Python floats are modelled as exact rationals [Q]: every finite
    float is a rational, and the rounding of each float operation and the
    special values (nan, inf) are outside the model.  Python ints are [Z]. *)

From Stdlib Require Import ZArith QArith Qabs Qminmax Qround Lqa Lia Sorted.
From stdpp Require Import gmap strings list fin_maps.

Local Open Scope Q_scope.

(** ** Python exceptions and results *)

Module Py.

Inductive exn : Type :=
| ValueError (msg : string)
| TypeError (msg : string)
| AttributeError (msg : string)
| KeyError (key : string)
| IndexError (msg : string)
| ConnectionError (msg : string)
| OverflowError (msg : string)
| OtherError (msg : string).

(** A call either raises ([inl]) or returns ([inr]). *)
Definition result (A : Type) : Type := (exn + A)%type.

Definition raise {A} (e : exn) : result A := inl e.
Definition ret {A} (x : A) : result A := inr x.
Definition bind {A B} (c : result A) (k : A -> result B) : result B :=
  match c with
  | inl e => inl e
  | inr x => k x
  end.

Definition returns {A} (c : result A) : bool :=
  match c with inl _ => false | inr _ => true end.

(** The value returned, if any. *)
Definition returned {A} (c : result A) : option A :=
  match c with inl _ => None | inr x => Some x end.

(** Builtin [max(a, b)]: the first argument unless the second is greater. *)
Definition max (a b : Q) : Q := if Qle_bool b a then a else b.

(** Builtin [min(a, b)]: the first argument unless the second is smaller. *)
Definition min (a b : Q) : Q := if Qle_bool a b then a else b.

(** [np.clip(x, lo, hi)] is [minimum(maximum(x, lo), hi)]. *)
Definition np_clip (x lo hi : Q) : Q := Qmin (Qmax x lo) hi.

(** [round(x)] on an exact value: nearest integer, ties to even. *)
Definition round_half_even (x : Q) : Z :=
  let f := Qfloor x in
  let d := x - inject_Z f in
  match Qcompare d (1 # 2) with
  | Lt => f
  | Gt => (f + 1)%Z
  | Eq => if Z.even f then f else (f + 1)%Z
  end.

(** [round(x, 2)] on an exact value. *)
Definition round2 (x : Q) : Q := inject_Z (round_half_even (x * 100)) / 100.

End Py.

Notation "'let!' x ':=' c 'in' k" := (Py.bind c (fun x => k))
  (at level 10, x name, c at level 100, k at level 200).

(** The interval clamp the specification writes [clamp(x, lo, hi)]. *)
Definition clamp (x lo hi : Q) : Q := Qmax lo (Qmin x hi).

(** ** ml-service/traffic_model.py *)

Module TrafficModel.

(** A fitted sklearn regressor: [predict] on one scaled row. *)
Record Regressor := { reg_predict : list Q -> Py.result Q }.

(** [StandardScaler]: [transform] on one row. *)
Record Scaler := { transform : list Q -> Py.result (list Q) }.

(** [self.model] is [None] or the dict [{'rf': ..., 'gb': ...}]. *)
Record ModelPair := { rf : Regressor; gb : Regressor }.

Record TrafficPredictionModel := {
  model : option ModelPair;
  scaler : Scaler
}.

(** The dict [predict] returns. *)
Record Prediction := {
  congestion : Q;
  confidence : Q;
  current_speed : Q;
  free_flow_speed : Q;
  speed_reduction_percent : Q
}.

Definition in_list (x : Z) (l : list Z) : bool := existsb (Z.eqb x) l.

Definition int_of_bool (b : bool) : Z := if b then 1%Z else 0%Z.

Definition historical_avg_of (hour : Z) (is_rush_hour is_weekend : Z) : Q :=
  let base :=
    if negb (is_rush_hour =? 0)%Z then 70
    else if ((11 <=? hour) && (hour <=? 14))%Z then 40
    else if ((22 <=? hour) || (hour <=? 5))%Z then 15
    else 35 in
  if negb (is_weekend =? 0)%Z then base * (7 # 10) else base.

(** The feature row of [predict], in the order of [feature_names]. *)
Definition predict_features (hour day_of_week : Z) (lat lon ffs : Q) : list Q :=
  let is_weekend := int_of_bool (in_list day_of_week [5; 6]%Z) in
  let is_rush_hour := int_of_bool (in_list hour [7; 8; 9; 17; 18; 19]%Z) in
  let historical_avg := historical_avg_of hour is_rush_hour is_weekend in
  [inject_Z hour; inject_Z day_of_week; inject_Z is_weekend;
   inject_Z is_rush_hour; lat; lon; ffs; historical_avg].

Definition not_trained : Py.exn :=
  Py.ValueError "Model not trained. Call train() first.".

Definition predict (self : TrafficPredictionModel)
    (hour day_of_week : Z) (lat lon ffs : Q) : Py.result Prediction :=
  match model self with
  | None => Py.raise not_trained
  | Some m =>
      let features := predict_features hour day_of_week lat lon ffs in
      let! features_scaled := transform (scaler self) features in
      let! rf_pred := reg_predict (rf m) features_scaled in
      let! gb_pred := reg_predict (gb m) features_scaled in
      let congestion := (rf_pred + gb_pred) / 2 in
      let congestion := Py.np_clip congestion 0 100 in
      let prediction_variance := Qabs (rf_pred - gb_pred) in
      let confidence := Py.max 70 (Py.min 95 (95 - prediction_variance)) in
      let speed_reduction := (congestion / 100) * (6 # 10) in
      let current_speed := ffs * (1 - speed_reduction) in
      Py.ret {| congestion := congestion;
                confidence := confidence;
                current_speed := current_speed;
                free_flow_speed := ffs;
                speed_reduction_percent := speed_reduction * 100 |}
  end.

End TrafficModel.

(** ** Instants

    A [datetime] is the number of seconds since 1970-01-01T00:00:00 UTC
    (sub-second parts play no role in the code modelled here). *)

Module Datetime.

Local Open Scope Z_scope.

Definition hour (t : Z) : Z := (t / 3600) mod 24.

(** [weekday()]: Monday is 0; 1970-01-01 was a Thursday. *)
Definition weekday (t : Z) : Z := (t / 86400 + 3) mod 7.

Definition timedelta_hours (h : Z) : Z := 3600 * h.

(** [datetime.min] and [datetime.max] to the second: 0001-01-01T00:00:00
    and 9999-12-31T23:59:59. *)
Definition datetime_min : Z := -62135596800.
Definition datetime_max : Z := 253402300799.

(** [timedelta(hours=h)], in seconds.  A timedelta is normalised to days
    and seconds of the day, and holds at most 999999999 days either way
    (the text Python raises with also names the day count). *)
Definition timedelta (hours : Z) : Py.result Z :=
  if Z.abs (hours / 24) <=? 999999999 then Py.ret (timedelta_hours hours)
  else Py.raise (Py.OverflowError "days must have magnitude <= 999999999").

(** [t + delta] on a datetime [t]: the sum has to be a datetime. *)
Definition add (t delta : Z) : Py.result Z :=
  let sum := t + delta in
  if (datetime_min <=? sum) && (sum <=? datetime_max) then Py.ret sum
  else Py.raise (Py.OverflowError "date value out of range").

(** [t + timedelta(hours=h)]. *)
Definition plus_hours (t h : Z) : Py.result Z :=
  let! delta := timedelta h in add t delta.

(** Year, month and day of a day count since 1970-01-01 (proleptic
    Gregorian calendar). *)
Definition civil_from_days (days : Z) : Z * Z * Z :=
  let z := days + 719468 in
  let era := z / 146097 in
  let doe := z - era * 146097 in
  let yoe := (doe - doe / 1460 + doe / 36524 - doe / 146096) / 365 in
  let y := yoe + era * 400 in
  let doy := doe - (365 * yoe + yoe / 4 - yoe / 100) in
  let mp := (5 * doy + 2) / 153 in
  let d := doy - (153 * mp + 2) / 5 + 1 in
  let m := if mp <? 10 then mp + 3 else mp - 9 in
  (if m <=? 2 then y + 1 else y, m, d).

Definition digit (n : Z) : Ascii.ascii :=
  Ascii.ascii_of_nat (48 + Z.to_nat (n mod 10)).

(** [n] in decimal, zero-padded to [width] digits. *)
Fixpoint decimal (width : nat) (n : Z) : string :=
  match width with
  | O => EmptyString
  | S w => decimal w (n / 10) +:+ String (digit n) EmptyString
  end.

(** [strftime('%Y%m%d%H')] of the hour numbered [bucket] since the epoch. *)
Definition format_hour (bucket : Z) : string :=
  let '(y, m, d) := civil_from_days (bucket / 24) in
  decimal 4 y +:+ decimal 2 m +:+ decimal 2 d +:+ decimal 2 (bucket mod 24).

(** The hour an instant falls in. *)
Definition hour_bucket (t : Z) : Z := t / 3600.

Definition strftime_YmdH (t : Z) : string := format_hour (hour_bucket t).

End Datetime.

(** ** server/app/core/cache.py

    The Redis server is a store of entries with an expiry instant; a
    connection that is down raises on every command.  The JSON text held
    under a key is represented by the Python value it encodes, of type [V]:
    [json.dumps] raises on a value it cannot serialise and [json.loads]
    inverts it on the others, and a JSON text is never the empty string.
    The server keeps an entry until the clock has passed its expiry
    instant: it is still served at that instant itself. *)

Module Cache.

(** Which values of the payload type [json.dumps] accepts. *)
Class Json (V : Type) := { serialisable : V -> bool }.

Section WithPayload.

Context {V : Type} {json : Json V}.

Record Redis := {
  reachable : bool;
  db : gmap string (Z * V)   (* key |-> (expiry instant, text) *)
}.

(** The process state the coroutines share: the wall clock and the module
    global [redis_client] ([None] until [init_redis] has succeeded). *)
Record World := {
  clock : Z;
  redis_client : option Redis
}.

Definition REDIS_CACHE_TTL : Z := 3600.

(** The client exists and its connection is up. *)
Definition available (w : World) : bool :=
  match redis_client w with
  | Some r => reachable r
  | None => false
  end.

(** The state [dt] seconds later. *)
Definition advance (dt : Z) (w : World) : World :=
  {| clock := (clock w + dt)%Z; redis_client := redis_client w |}.

Definition json_dumps (v : V) : Py.result V :=
  if serialisable v then Py.ret v
  else Py.raise (Py.TypeError "Object is not JSON serializable").
Definition json_loads (text : V) : Py.result V := Py.ret text.

(** [redis_client.get(key)] at instant [now]. *)
Definition redis_get (client : option Redis) (key : string) (now : Z)
  : Py.result (option V) :=
  match client with
  | None => Py.raise (Py.AttributeError "'NoneType' object has no attribute 'get'")
  | Some r =>
      if reachable r then
        match db r !! key with
        | Some (expiry, text) =>
            if (now <=? expiry)%Z then Py.ret (Some text) else Py.ret None
        | None => Py.ret None
        end
      else Py.raise (Py.ConnectionError "Error connecting to Redis")
  end.

(** [redis_client.setex(key, ttl, text)] at instant [now]. *)
Definition redis_setex (client : option Redis) (key : string) (ttl : Z)
    (text : V) (now : Z) : Py.result Redis :=
  match client with
  | None => Py.raise (Py.AttributeError "'NoneType' object has no attribute 'setex'")
  | Some r =>
      if reachable r then
        if (0 <? ttl)%Z then
          Py.ret {| reachable := true;
                    db := <[key := ((now + ttl)%Z, text)]> (db r) |}
        else Py.raise (Py.OtherError "invalid expire time in setex")
      else Py.raise (Py.ConnectionError "Error connecting to Redis")
  end.

(** [get_cache(key)]: every exception is logged and turned into [None]. *)
Definition get_cache (key : string) (w : World) : option V :=
  let attempt :=
    let! value := redis_get (redis_client w) key (clock w) in
    match value with
    | Some text => let! v := json_loads text in Py.ret (Some v)
    | None => Py.ret None
    end in
  match attempt with
  | inr r => r
  | inl _ => None
  end.

(** [set_cache(key, value, ttl)]: every exception is logged and turned
    into [False].  [ttl or settings.REDIS_CACHE_TTL] replaces a missing or
    zero [ttl]. *)
Definition set_cache (key : string) (value : V) (ttl : option Z) (w : World)
  : bool * World :=
  let ttl := match ttl with
             | Some t => if (t =? 0)%Z then REDIS_CACHE_TTL else t
             | None => REDIS_CACHE_TTL
             end in
  let attempt :=
    let! serialized := json_dumps value in
    redis_setex (redis_client w) key ttl serialized (clock w) in
  match attempt with
  | inr r' => (true, {| clock := clock w; redis_client := Some r' |})
  | inl _ => (false, w)
  end.

(** The key holds an entry that has not expired at [now]. *)
Definition live (now : Z) (r : Redis) (key : string) : bool :=
  match db r !! key with
  | Some (expiry, _) => (now <=? expiry)%Z
  | None => false
  end.

(** [redis_client.delete] of [keys] at instant [now]: removes the keys and
    answers with the number of them that held a live entry. *)
Definition redis_delete (client : option Redis) (keys : list string) (now : Z)
  : Py.result (Redis * Z) :=
  match client with
  | None => Py.raise (Py.AttributeError "'NoneType' object has no attribute 'delete'")
  | Some r =>
      if reachable r then
        Py.ret ({| reachable := true;
                   db := foldr (fun k m => base.delete k m) (db r) keys |},
                Z.of_nat (length (List.filter (live now r) keys)))
      else Py.raise (Py.ConnectionError "Error connecting to Redis")
  end.

(** [delete_cache(key)]. *)
Definition delete_cache (key : string) (w : World) : bool * World :=
  match redis_delete (redis_client w) [key] (clock w) with
  | inr (r', _) => (true, {| clock := clock w; redis_client := Some r' |})
  | inl _ => (false, w)
  end.

(** How the server matches a key against a glob pattern; the matcher is
    the server's, not part of this repository. *)
Variable glob : string -> string -> bool.

(** [redis_client.keys(pattern)]: the live keys the pattern matches. *)
Definition redis_keys (client : option Redis) (pattern : string) (now : Z)
  : Py.result (list string) :=
  match client with
  | None => Py.raise (Py.AttributeError "'NoneType' object has no attribute 'keys'")
  | Some r =>
      if reachable r then
        Py.ret (List.filter (fun k => glob pattern k && live now r k)
                            (fst <$> map_to_list (db r)))
      else Py.raise (Py.ConnectionError "Error connecting to Redis")
  end.

(** [clear_pattern(pattern)]: the number of keys deleted, 0 on any
    exception. *)
Definition clear_pattern (pattern : string) (w : World) : Z * World :=
  let attempt :=
    let! keys := redis_keys (redis_client w) pattern (clock w) in
    match keys with
    | _ :: _ =>
        let! deleted := redis_delete (redis_client w) keys (clock w) in
        Py.ret (snd deleted, {| clock := clock w; redis_client := Some (fst deleted) |})
    | [] => Py.ret (0%Z, w)
    end in
  match attempt with
  | inr r => r
  | inl _ => (0%Z, w)
  end.

End WithPayload.

Arguments Redis : clear implicits.
Arguments World : clear implicits.

End Cache.

(** ** server/app/services/ml_service.py *)

Module MLService.

(** The values a request dict or a DataFrame cell holds here: a number or a
    [datetime]. *)
Inductive pyval : Type :=
| VNum (q : Q)
| VTime (t : Z).

(** A dict with string keys; a DataFrame row ([Series]) is read the same
    way, through [.get(key, default)]. *)
Abbreviation pydict := (gmap string pyval).

(** [xgb.Booster]: building the [DMatrix] from the feature row and the
    feature names and taking [predict(dmatrix)[0]], as one opaque call. *)
Record Booster := {
  dmatrix_predict : option (list string) -> list pyval -> Py.result Q
}.

Record MLService := {
  xgboost_model : option Booster;
  feature_columns : option (list string)
}.

(** The list [load_models] assigns to [self.feature_columns]. *)
Definition loaded_feature_columns : list string :=
  ["hour_of_day"; "day_of_week"; "is_weekend"; "is_holiday";
   "temperature"; "precipitation"; "visibility";
   "vehicle_count"; "average_speed"; "incident_reported";
   "event_nearby"; "congestion_lag_1h"; "congestion_lag_3h";
   "congestion_lag_24h"; "speed_lag_1h"].

(** [d.get(key, dflt)]. *)
Definition get (d : pydict) (key : string) (dflt : pyval) : pyval :=
  default dflt (d !! key).

(** [timestamp.hour] and [timestamp.weekday()]. *)
Definition attr_hour (v : pyval) : Py.result Z :=
  match v with
  | VTime t => Py.ret (Datetime.hour t)
  | VNum _ => Py.raise (Py.AttributeError "object has no attribute 'hour'")
  end.

Definition attr_weekday (v : pyval) : Py.result Z :=
  match v with
  | VTime t => Py.ret (Datetime.weekday t)
  | VNum _ => Py.raise (Py.AttributeError "object has no attribute 'weekday'")
  end.

(** [df.iloc[-k]] for [k >= 1]: the row [k] positions from the end. *)
Definition iloc_from_end (df : list pydict) (k : nat) : Py.result pydict :=
  if (k <=? length df)%nat then
    match df !! (length df - k)%nat with
    | Some row => Py.ret row
    | None => Py.raise (Py.IndexError "single positional indexer is out-of-bounds")
    end
  else Py.raise (Py.IndexError "single positional indexer is out-of-bounds").

Definition int (z : Z) : pyval := VNum (inject_Z z).

(** The four lag entries added to [features]. *)
Definition lag_features (data : pydict) (historical_data : option (list pydict))
    (features : pydict) : Py.result pydict :=
  match historical_data with
  | Some df =>
      if (0 <? length df)%nat then
        let! last := iloc_from_end df 1 in
        let features := <["congestion_lag_1h" := get last "congestion_level" (int 2)]> features in
        let! lag3 :=
          if (3 <=? length df)%nat
          then let! row := iloc_from_end df 3 in Py.ret (get row "congestion_level" (int 2))
          else Py.ret (int 2) in
        let features := <["congestion_lag_3h" := lag3]> features in
        let! lag24 :=
          if (24 <=? length df)%nat
          then let! row := iloc_from_end df 24 in Py.ret (get row "congestion_level" (int 2))
          else Py.ret (int 2) in
        let features := <["congestion_lag_24h" := lag24]> features in
        let! last' := iloc_from_end df 1 in
        Py.ret (<["speed_lag_1h" := get last' "average_speed" (VNum 40)]> features)
      else
        Py.ret (<["speed_lag_1h" := get data "average_speed" (VNum 40)]>
               (<["congestion_lag_24h" := int 2]>
               (<["congestion_lag_3h" := int 2]>
               (<["congestion_lag_1h" := get data "congestion_level" (int 2)]> features))))
  | None =>
      Py.ret (<["speed_lag_1h" := get data "average_speed" (VNum 40)]>
             (<["congestion_lag_24h" := int 2]>
             (<["congestion_lag_3h" := int 2]>
             (<["congestion_lag_1h" := get data "congestion_level" (int 2)]> features))))
  end.

(** [features[col]]. *)
Definition getitem (features : pydict) (col : string) : Py.result pyval :=
  match features !! col with
  | Some v => Py.ret v
  | None => Py.raise (Py.KeyError col)
  end.

(** [[features[col] for col in cols]]. *)
Fixpoint collect (features : pydict) (cols : list string) : Py.result (list pyval) :=
  match cols with
  | [] => Py.ret []
  | col :: cols' =>
      let! v := getitem features col in
      let! vs := collect features cols' in
      Py.ret (v :: vs)
  end.

(** The dict [features] that [prepare_features] fills before it is laid
    out as an array; [now] is what [datetime.utcnow()] reads. *)
Definition features_dict (data : pydict) (historical_data : option (list pydict))
    (now : Z) : Py.result pydict :=
  let features : pydict := ∅ in
  let timestamp := get data "timestamp" (VTime now) in
  let! hour := attr_hour timestamp in
  let features := <["hour_of_day" := int hour]> features in
  let! weekday := attr_weekday timestamp in
  let features := <["day_of_week" := int weekday]> features in
  let features := <["is_weekend" := int (if (5 <=? weekday)%Z then 1 else 0)]> features in
  let features := <["is_holiday" := get data "is_holiday" (int 0)]> features in
  let features := <["temperature" := get data "temperature" (VNum 20)]> features in
  let features := <["precipitation" := get data "precipitation" (VNum 0)]> features in
  let features := <["visibility" := get data "visibility" (VNum 10)]> features in
  let features := <["vehicle_count" := get data "vehicle_count" (int 100)]> features in
  let features := <["average_speed" := get data "average_speed" (VNum 40)]> features in
  let features := <["incident_reported" := get data "incident_reported" (int 0)]> features in
  let features := <["event_nearby" := get data "event_nearby" (int 0)]> features in
  lag_features data historical_data features.

(** [prepare_features(data, historical_data)]: one row of the array. *)
Definition prepare_features (self : MLService) (data : pydict)
    (historical_data : option (list pydict)) (now : Z) : Py.result (list pyval) :=
  let! features := features_dict data historical_data now in
  match feature_columns self with
  | Some cols => collect features cols
  | None => Py.raise (Py.TypeError "'NoneType' object is not iterable")
  end.

(** One entry of the list [predict_congestion_xgboost] returns;
    [target_time] is the instant whose [isoformat()] the dict holds. *)
Record Prediction := {
  forecast_hours : Z;
  target_time : Z;
  predicted_congestion : Q;
  congestion_level : Z;
  confidence : Q;
  model : string
}.

(** Every member of such a dict is an int, a float or a str, so
    [json.dumps] accepts any list of them. *)
#[global] Instance predictions_json : Cache.Json (list Prediction) :=
  {| Cache.serialisable := fun _ => true |}.

(** The confidence computed for a horizon, before it is rounded. *)
Definition horizon_confidence (hours_ahead : Z) : Q :=
  let confidence := (85 # 100) - inject_Z hours_ahead * (2 # 100) in
  Py.max (5 # 10) (Py.min (95 # 100) confidence).

(** The body of the [try] for one horizon; [now] is what
    [datetime.utcnow()] reads. *)
Definition predict_horizon (self : MLService) (booster : Booster)
    (current_data : pydict) (historical_data : option (list pydict))
    (now : Z) (hours_ahead : Z) : Py.result Prediction :=
  let! forecast_time := Datetime.plus_hours now hours_ahead in
  let forecast_data := <["timestamp" := VTime forecast_time]> current_data in
  let! features := prepare_features self forecast_data historical_data now in
  let! prediction := dmatrix_predict booster (feature_columns self) features in
  let confidence := horizon_confidence hours_ahead in
  Py.ret {| forecast_hours := hours_ahead;
            target_time := forecast_time;
            predicted_congestion := Py.round2 prediction;
            congestion_level := Py.round_half_even prediction;
            confidence := Py.round2 confidence;
            model := "xgboost" |}.

(** The [for] loop: a horizon whose body raises is logged and skipped. *)
Fixpoint forecast_loop (self : MLService) (booster : Booster)
    (current_data : pydict) (historical_data : option (list pydict))
    (now : Z) (hours : list Z) (predictions : list Prediction) : list Prediction :=
  match hours with
  | [] => predictions
  | hours_ahead :: rest =>
      match predict_horizon self booster current_data historical_data now hours_ahead with
      | inr p =>
          forecast_loop self booster current_data historical_data now rest
                        (predictions ++ [p])
      | inl _ =>
          forecast_loop self booster current_data historical_data now rest predictions
      end
  end.

Definition not_loaded : Py.exn := Py.ValueError "XGBoost model not loaded".

Definition cache_key (location_id : string) (now : Z) : string :=
  "prediction:xgb:" +:+ location_id +:+ ":" +:+ Datetime.strftime_YmdH now.

(** Truth value of a list: non-empty. *)
Definition truthy {A} (l : list A) : bool :=
  match l with [] => false | _ :: _ => true end.

Abbreviation World := (Cache.World (list Prediction)).

(** [predict_congestion_xgboost], run without interruption from the state
    [w]: every [datetime.utcnow()] of the call reads the clock of [w].
    Returns what the call returns or raises, and the state it leaves. *)
Definition predict_congestion_xgboost (self : MLService) (location_id : string)
    (current_data : pydict) (hours : list Z)
    (historical_data : option (list pydict)) (w : World)
  : Py.result (list Prediction) * World :=
  match xgboost_model self with
  | None => (Py.raise not_loaded, w)
  | Some booster =>
      let key := cache_key location_id (Cache.clock w) in
      match Cache.get_cache key w with
      | Some ((_ :: _) as cached) => (Py.ret cached, w)
      | _ =>
          let predictions :=
            forecast_loop self booster current_data historical_data
                          (Cache.clock w) hours [] in
          if truthy predictions
          then (Py.ret predictions,
                snd (Cache.set_cache key predictions (Some 1800%Z) w))
          else (Py.ret predictions, w)
      end
  end.

(** *** predict_congestion_lstm *)

(** The [sequence_data] array, of rank 2 (timesteps x features) or rank 3
    (batch x timesteps x features). *)
Inductive ndarray : Type :=
| Rank2 (steps : list (list Q))
| Rank3 (batch : list (list (list Q))).

(** [np.expand_dims(a, axis=0)] when [len(a.shape) == 2]. *)
Definition as_batch (a : ndarray) : ndarray :=
  match a with
  | Rank2 steps => Rank3 [steps]
  | Rank3 batch => Rank3 batch
  end.

(** The Keras model: [predict(x, verbose=0)], one output row per batch
    element. *)
Record Lstm := { lstm_predict : ndarray -> Py.result (list (list Q)) }.

Definition lstm_not_loaded : Py.exn := Py.ValueError "LSTM model not loaded".

(** [l[i]] on a list. *)
Definition list_getitem {A} (l : list A) (i : nat) : Py.result A :=
  match l !! i with
  | Some x => Py.ret x
  | None => Py.raise (Py.IndexError "index out of range")
  end.

(** The [for idx, hours_ahead in enumerate(forecast_hours)] loop, from
    index [idx] on.  It runs inside the [try]: when an indexing or the
    computation of the target time raises, the exception is logged, the loop
    is over and the predictions made so far are what is left. *)
Fixpoint lstm_loop (lstm_predictions : list (list Q)) (now : Z) (idx : nat)
    (hours : list Z) (predictions : list Prediction) : list Prediction :=
  match hours with
  | [] => predictions
  | hours_ahead :: rest =>
      match list_getitem lstm_predictions 0 with
      | inl _ => predictions
      | inr first =>
          if (idx <? length first)%nat then
            match Datetime.plus_hours now hours_ahead with
            | inl _ => predictions
            | inr forecast_time =>
                match list_getitem first idx with
                | inl _ => predictions
                | inr prediction_value =>
                    lstm_loop lstm_predictions now (S idx) rest
                      (predictions ++
                       [{| forecast_hours := hours_ahead;
                           target_time := forecast_time;
                           predicted_congestion := Py.round2 prediction_value;
                           congestion_level := Py.round_half_even prediction_value;
                           confidence := 80 # 100;
                           model := "lstm" |}])
                end
            end
          else lstm_loop lstm_predictions now (S idx) rest predictions
      end
  end.

(** The horizons at the head of a request whose target times, counted from
    [now], are datetimes: the ones up to the first that is not. *)
Fixpoint horizons_in_range (now : Z) (hours : list Z) : list Z :=
  match hours with
  | [] => []
  | h :: rest =>
      if Py.returns (Datetime.plus_hours now h)
      then h :: horizons_in_range now rest
      else []
  end.

(** [predict_congestion_lstm]; [lstm_model] is [self.lstm_model] and [now]
    what [datetime.utcnow()] reads. *)
Definition predict_congestion_lstm (lstm_model : option Lstm)
    (location_id : string) (sequence_data : ndarray) (hours : list Z) (now : Z)
  : Py.result (list Prediction) :=
  match lstm_model with
  | None => Py.raise lstm_not_loaded
  | Some m =>
      match lstm_predict m (as_batch sequence_data) with
      | inl _ => Py.ret []
      | inr lstm_predictions => Py.ret (lstm_loop lstm_predictions now 0 hours [])
      end
  end.

(** *** get_feature_importance *)

(** [round(x, 4)] on an exact value. *)
Definition round4 (x : Q) : Q := inject_Z (Py.round_half_even (x * 10000)) / 10000.

(** [sum(d.values())]. *)
Definition sum_values (d : gmap string Q) : Q :=
  foldr Qplus 0 (snd <$> map_to_list d).

(** The dict comprehension [{k: round(v/total, 4) for k, v in ...}];
    dividing by a zero total raises as soon as there is an item. *)
Definition normalized (importance : gmap string Q) : Py.result (gmap string Q) :=
  let total := sum_values importance in
  if decide (importance = ∅) then Py.ret ∅
  else if Qeq_bool total 0 then Py.raise (Py.OtherError "float division by zero")
  else Py.ret ((fun v => round4 (v / total)) <$> importance).

(** [get_feature_importance]; [get_score] is the booster's
    [get_score(importance_type='gain')]. *)
Definition get_feature_importance (get_score : Booster -> Py.result (gmap string Q))
    (self : MLService) : gmap string Q :=
  match xgboost_model self with
  | None => ∅
  | Some booster =>
      match (let! importance := get_score booster in normalized importance) with
      | inr d => d
      | inl _ => ∅
      end
  end.

End MLService.

(** ** Coroutines on the event loop

    [predict_congestion_xgboost] is a coroutine: it runs until it awaits the
    Redis reply inside [get_cache], and again until it awaits the reply
    inside [set_cache]; other coroutines of the same event loop run in
    between.  A reply is taken to arrive when the coroutine is resumed. *)

Module Async.

Import MLService.

Record call := {
  self : MLService;
  location_id : string;
  current_data : pydict;
  hours : list Z;
  historical_data : option (list pydict)
}.

Inductive task : Type :=
| Fresh (c : call)
| AwaitingGet (c : call) (booster : Booster) (key : string)
| AwaitingSet (key : string) (predictions : list Prediction)
| Finished (r : Py.result (list Prediction)).

(** One resumption of a coroutine; the [nat] counts the runs of the
    forecast loop made during it. *)
Definition resume (t : task) (w : World) : task * World * nat :=
  match t with
  | Fresh c =>
      match xgboost_model (self c) with
      | None => (Finished (Py.raise not_loaded), w, 0%nat)
      | Some booster =>
          (AwaitingGet c booster (cache_key (location_id c) (Cache.clock w)), w, 0%nat)
      end
  | AwaitingGet c booster key =>
      match Cache.get_cache key w with
      | Some ((_ :: _) as cached) => (Finished (Py.ret cached), w, 0%nat)
      | _ =>
          let predictions :=
            forecast_loop (self c) booster (current_data c) (historical_data c)
                          (Cache.clock w) (hours c) [] in
          if truthy predictions
          then (AwaitingSet key predictions, w, 1%nat)
          else (Finished (Py.ret predictions), w, 1%nat)
      end
  | AwaitingSet key predictions =>
      (Finished (Py.ret predictions),
       snd (Cache.set_cache key predictions (Some 1800%Z) w), 0%nat)
  | Finished r => (Finished r, w, 0%nat)
  end.

Record system := {
  world : World;
  tasks : list task;
  ensemble_runs : nat   (* runs of the forecast loop so far *)
}.

Inductive event : Type :=
| Run (i : nat)      (* the event loop resumes coroutine [i] *)
| Tick (dt : Z).     (* [dt] seconds pass *)

Definition step (e : event) (s : system) : system :=
  match e with
  | Run i =>
      match tasks s !! i with
      | Some t =>
          let '(t', w', n) := resume t (world s) in
          {| world := w'; tasks := <[i := t']> (tasks s);
             ensemble_runs := (ensemble_runs s + n)%nat |}
      | None => s
      end
  | Tick dt =>
      {| world := Cache.advance dt (world s);
         tasks := tasks s; ensemble_runs := ensemble_runs s |}
  end.

Fixpoint run (schedule : list event) (s : system) : system :=
  match schedule with
  | [] => s
  | e :: rest => run rest (step e s)
  end.

Definition start (w : World) (calls : list call) : system :=
  {| world := w; tasks := Fresh <$> calls; ensemble_runs := 0 |}.

End Async.

(** ** Concrete data used to evaluate the definitions *)

Module Samples.

Import MLService.

(** A regressor pair that disagrees by 30 and a scaler that is the
    identity. *)
Definition rf_const : TrafficModel.Regressor :=
  {| TrafficModel.reg_predict := fun _ => Py.ret 120 |}.
Definition gb_const : TrafficModel.Regressor :=
  {| TrafficModel.reg_predict := fun _ => Py.ret 90 |}.
Definition id_scaler : TrafficModel.Scaler :=
  {| TrafficModel.transform := fun row => Py.ret row |}.
Definition trained : TrafficModel.TrafficPredictionModel :=
  {| TrafficModel.model := Some {| TrafficModel.rf := rf_const; TrafficModel.gb := gb_const |};
     TrafficModel.scaler := id_scaler |}.
Definition untrained : TrafficModel.TrafficPredictionModel :=
  {| TrafficModel.model := None; TrafficModel.scaler := id_scaler |}.

(** A booster that answers with the hour-of-day feature divided by 8 and
    raises when that feature is 6. *)
Definition hour_booster : Booster :=
  {| dmatrix_predict := fun _ row =>
       match row with
       | VNum h :: _ =>
           if Qeq_bool h 6 then Py.raise (Py.ValueError "feature shape mismatch")
           else Py.ret (h / 8)
       | _ => Py.raise (Py.TypeError "not a number")
       end |}.

Definition service : MLService :=
  {| xgboost_model := Some hour_booster;
     feature_columns := Some loaded_feature_columns |}.

Definition no_model : MLService :=
  {| xgboost_model := None; feature_columns := Some loaded_feature_columns |}.

Definition observation : pydict :=
  <["temperature" := VNum 25]> (<["congestion_level" := int 3]> ∅).

Definition row_with (c : Z) : pydict :=
  <["congestion_level" := int c]> (<["average_speed" := VNum 30]> ∅).

(** A window of 24 rows whose congestion levels are 1..24, oldest first. *)
Definition window24 : list pydict := row_with <$> seqZ 1 24.

Definition empty_redis : Cache.Redis (list Prediction) :=
  {| Cache.reachable := true; Cache.db := ∅ |}.

Definition world_at (t : Z) : World :=
  {| Cache.clock := t; Cache.redis_client := Some empty_redis |}.

Definition world_down (t : Z) : World :=
  {| Cache.clock := t;
     Cache.redis_client := Some {| Cache.reachable := false; Cache.db := ∅ |} |}.

Definition call_a : Async.call :=
  {| Async.self := service; Async.location_id := "X";
     Async.current_data := observation; Async.hours := [1%Z];
     Async.historical_data := None |}.

Definition call_b : Async.call :=
  {| Async.self := service; Async.location_id := "X";
     Async.current_data := ∅; Async.hours := [3%Z];
     Async.historical_data := Some window24 |}.

End Samples.

(** ** ml-service/traffic_model.py: save and load

    The files written by [joblib.dump] are represented by the objects they
    hold.  Whether the operating system lets a directory be created or a
    file be written is a parameter. *)

Module ModelFiles.

Import TrafficModel.

(** The column names [__init__] assigns to [self.feature_names]. *)
Definition feature_names : list string :=
  ["hour"; "day_of_week"; "is_weekend"; "is_rush_hour";
   "lat"; "lon"; "free_flow_speed"; "historical_avg_congestion"].

(** What a pickle file of this program holds: the dict of the two
    regressors, or the scaler. *)
Inductive pickled : Type :=
| PickledModel (m : ModelPair)
| PickledScaler (s : Scaler).

Fixpoint ends_with_slash (s : string) : bool :=
  match s with
  | EmptyString => false
  | String c EmptyString => String.eqb (String c EmptyString) "/"
  | String _ rest => ends_with_slash rest
  end.

(** [os.path.join(path, name)] for a relative [name]. *)
Definition path_join (path name : string) : string :=
  match path with
  | EmptyString => name
  | _ => if ends_with_slash path then path +:+ name else path +:+ "/" +:+ name
  end.

Section WithOS.

Variable makedirs_ok : string -> bool.
Variable writable : string -> bool.

Definition joblib_dump (obj : pickled) (file : string) (fs : gmap string pickled)
  : Py.result (gmap string pickled) :=
  if writable file then Py.ret (<[file := obj]> fs)
  else Py.raise (Py.OtherError "cannot write the file").

Definition joblib_load (file : string) (fs : gmap string pickled)
  : Py.result pickled :=
  match fs !! file with
  | Some obj => Py.ret obj
  | None => Py.raise (Py.OtherError "No such file or directory")
  end.

Definition no_model_to_save : Py.exn :=
  Py.ValueError "No model to save. Train the model first.".

(** [save(path)]: what the call returns or raises, and the files it
    leaves. *)
Definition save (self : TrafficPredictionModel) (path : string)
    (fs : gmap string pickled) : Py.result unit * gmap string pickled :=
  if makedirs_ok path then
    match model self with
    | None => (Py.raise no_model_to_save, fs)
    | Some m =>
        match joblib_dump (PickledModel m) (path_join path "traffic_model.pkl") fs with
        | inl e => (inl e, fs)
        | inr fs1 =>
            match joblib_dump (PickledScaler (scaler self))
                              (path_join path "scaler.pkl") fs1 with
            | inl e => (inl e, fs1)
            | inr fs2 => (Py.ret tt, fs2)
            end
        end
    end
  else (Py.raise (Py.OtherError "cannot create the directory"), fs).

(** [load(path)]: what the call returns or raises, and the object it
    leaves.  The two attributes are assigned one after the other.  A file
    that holds an object of the other kind is outside the model. *)
Definition load (self : TrafficPredictionModel) (path : string)
    (fs : gmap string pickled) : Py.result unit * TrafficPredictionModel :=
  match joblib_load (path_join path "traffic_model.pkl") fs with
  | inl e => (inl e, self)
  | inr (PickledScaler _) => (Py.raise (Py.TypeError "not a model"), self)
  | inr (PickledModel m) =>
      let self1 := {| model := Some m; scaler := scaler self |} in
      match joblib_load (path_join path "scaler.pkl") fs with
      | inl e => (inl e, self1)
      | inr (PickledModel _) => (Py.raise (Py.TypeError "not a scaler"), self1)
      | inr (PickledScaler s) => (Py.ret tt, {| model := Some m; scaler := s |})
      end
  end.

End WithOS.

End ModelFiles.

(** ** ml-service/tomtom_api.py

    A TomTom answer is a JSON object; the code reads its
    ['flowSegmentData'] member and the numbers in it. *)

Module TomTom.

Abbreviation flow := (gmap string Q).
Abbreviation answer := (gmap string (gmap string Q)).

(** [calculate_congestion_percentage(traffic_data)]. *)
Definition calculate_congestion_percentage (traffic_data : answer) : Q :=
  match traffic_data !! "flowSegmentData" with
  | None => 0
  | Some flow =>
      let current_speed := default 0 (flow !! "currentSpeed") in
      let free_flow_speed := default 1 (flow !! "freeFlowSpeed") in
      if Qeq_bool free_flow_speed 0 then 0
      else Py.max 0 (Py.min 100 ((1 - current_speed / free_flow_speed) * 100))
  end.

(** One dict of the list [get_route_traffic] returns. *)
Record RoutePoint := {
  lat : Q;
  lon : Q;
  currentSpeed : Q;
  freeFlowSpeed : Q;
  currentTravelTime : Q;
  freeFlowTravelTime : Q;
  confidence : Q;
  timestamp : Z
}.

Section WithNetwork.

(** [get_traffic_flow(lat, lon)]: the HTTP request.  It answers with the
    empty dict when the request fails with a [RequestException]; any other
    exception is raised to the caller. *)
Variable get_traffic_flow : Q -> Q -> Py.result answer.

(** Truth value of a dict: non-empty. *)
Definition nonempty (d : answer) : bool := negb (bool_decide (d = ∅)).

(** The loop of [get_route_traffic]. *)
Fixpoint route_loop (coordinates : list (Q * Q)) (now : Z)
    (traffic_data : list RoutePoint) : Py.result (list RoutePoint) :=
  match coordinates with
  | [] => Py.ret traffic_data
  | (lat, lon) :: rest =>
      let! data := get_traffic_flow lat lon in
      match (if nonempty data then data !! "flowSegmentData" else None) with
      | Some flow_data =>
          route_loop rest now
            (traffic_data ++
             [{| lat := lat; lon := lon;
                 currentSpeed := default 0 (flow_data !! "currentSpeed");
                 freeFlowSpeed := default 0 (flow_data !! "freeFlowSpeed");
                 currentTravelTime := default 0 (flow_data !! "currentTravelTime");
                 freeFlowTravelTime := default 0 (flow_data !! "freeFlowTravelTime");
                 confidence := default 0 (flow_data !! "confidence");
                 timestamp := now |}])
      | None => route_loop rest now traffic_data
      end
  end.

Definition get_route_traffic (coordinates : list (Q * Q)) (now : Z)
  : Py.result (list RoutePoint) :=
  route_loop coordinates now [].

End WithNetwork.

End TomTom.

(** ** ml-service/app.py

    The Flask views, as functions of the parsed JSON body.  A body is read
    as a record of its members.  A member read with [data.get(name)] is
    [None] when it is missing and when it is null, and a number otherwise; a
    member read with [data.get(name, default)] is kept apart as missing,
    null or a number, since the default replaces a missing member only.
    [inl] is a body that cannot be read as an object, with the exception
    that follows. *)

Module FlaskApp.

(** [str(e)]. *)
Definition str (e : Py.exn) : string :=
  match e with
  | Py.KeyError key => "'" +:+ key +:+ "'"
  | Py.ValueError msg | Py.TypeError msg | Py.AttributeError msg
  | Py.IndexError msg | Py.ConnectionError msg | Py.OverflowError msg
  | Py.OtherError msg => msg
  end.

(** A member read with a default. *)
Inductive member : Type :=
| Missing
| Null
| Number (x : Q).

Record PredictBody := {
  hour : option Z;
  day_of_week : option Z;
  lat : option Q;
  lon : option Q;
  free_flow_speed : member
}.

Record RouteBody := {
  coordinates : option (list (list Q));
  route_hour : option Z;
  route_day_of_week : option Z
}.

(** One entry of ['segments']: the coordinates and the members of the
    prediction. *)
Record Segment := {
  seg_lat : Q;
  seg_lon : Q;
  seg_prediction : TrafficModel.Prediction
}.

(** The JSON documents the views answer with. *)
Inductive document : Type :=
| Error (error : string)
| Failure (error : string)
| PredictionOk (prediction : TrafficModel.Prediction) (timestamp : Z)
| RouteOk (segments : list Segment) (avg_congestion : Q) (num_segments : nat)
          (timestamp : Z)
| TrafficOk (traffic_data : TomTom.answer) (congestion : Q) (timestamp : Z).

Record response := { status : Z; json : document }.

(** [model.predict(hour, day_of_week, lat, lon, None)].  After the check
    of the model the feature row holds [None] in place of the speed;
    [on_none_row] is what the scaler and the two regressors make of such a
    row: they raise, or they return their numbers.  When they return,
    [free_flow_speed * (1 - speed_reduction)] multiplies [None] by a number,
    which raises a [TypeError] (its text is the interpreter's). *)
Definition predict_without_speed (model : TrafficModel.TrafficPredictionModel)
    (on_none_row : Py.result unit) : Py.result TrafficModel.Prediction :=
  match TrafficModel.model model with
  | None => Py.raise TrafficModel.not_trained
  | Some _ =>
      let! accepted := on_none_row in
      Py.raise (Py.TypeError
                  "unsupported operand type(s) for *: 'NoneType' and 'float'")
  end.

(** The view of [/predict]. *)
Definition predict_congestion (model : TrafficModel.TrafficPredictionModel)
    (on_none_row : Py.result unit)
    (request_json : Py.result PredictBody) (now : Z) : response :=
  match request_json with
  | inl e => {| status := 500; json := Failure (str e) |}
  | inr data =>
      match hour data, day_of_week data, lat data, lon data with
      | Some hour, Some day_of_week, Some lat, Some lon =>
          let prediction :=
            match free_flow_speed data with
            | Missing => TrafficModel.predict model hour day_of_week lat lon 60
            | Number free_flow_speed =>
                TrafficModel.predict model hour day_of_week lat lon free_flow_speed
            | Null => predict_without_speed model on_none_row
            end in
          match prediction with
          | inr prediction =>
              {| status := 200; json := PredictionOk prediction now |}
          | inl e => {| status := 500; json := Failure (str e) |}
          end
      | _, _, _, _ =>
          {| status := 400;
             json := Error "Missing required fields: hour, day_of_week, lat, lon" |}
      end
  end.

(** The loop of [/predict-route]: the segments and the running total, or
    the exception that ends it. *)
Fixpoint route_loop (model : TrafficModel.TrafficPredictionModel)
    (hour day_of_week : Z) (coordinates : list (list Q))
    (segments : list Segment) (total_congestion : Q)
  : Py.result (list Segment * Q) :=
  match coordinates with
  | [] => Py.ret (segments, total_congestion)
  | coord :: rest =>
      let! lat := MLService.list_getitem coord 0 in
      let! lon := MLService.list_getitem coord 1 in
      let! prediction := TrafficModel.predict model hour day_of_week lat lon 60 in
      route_loop model hour day_of_week rest
        (segments ++ [{| seg_lat := lat; seg_lon := lon; seg_prediction := prediction |}])
        (total_congestion + TrafficModel.congestion prediction)
  end.

(** The view of [/predict-route]. *)
Definition predict_route (model : TrafficModel.TrafficPredictionModel)
    (request_json : Py.result RouteBody) (now : Z) : response :=
  match request_json with
  | inl e => {| status := 500; json := Failure (str e) |}
  | inr data =>
      match default [] (coordinates data), route_hour data, route_day_of_week data with
      | (_ :: _) as coordinates, Some hour, Some day_of_week =>
          match route_loop model hour day_of_week coordinates [] 0 with
          | inr (segments, total_congestion) =>
              let avg_congestion :=
                match segments with
                | [] => 0
                | _ :: _ => total_congestion / inject_Z (Z.of_nat (length segments))
                end in
              {| status := 200;
                 json := RouteOk segments avg_congestion (length segments) now |}
          | inl e => {| status := 500; json := Failure (str e) |}
          end
      | _, _, _ =>
          {| status := 400;
             json := Error "Missing required fields: coordinates, hour, day_of_week" |}
      end
  end.

(** The view of [/tomtom/traffic]; [get_traffic_flow] is the client's
    request. *)
Definition get_tomtom_traffic (get_traffic_flow : Q -> Q -> Py.result TomTom.answer)
    (request_json : Py.result (option Q * option Q)) (now : Z) : response :=
  match request_json with
  | inl e => {| status := 500; json := Failure (str e) |}
  | inr (Some lat, Some lon) =>
      match get_traffic_flow lat lon with
      | inl e => {| status := 500; json := Failure (str e) |}
      | inr traffic_data =>
          if TomTom.nonempty traffic_data then
            {| status := 200;
               json := TrafficOk traffic_data
                         (TomTom.calculate_congestion_percentage traffic_data) now |}
          else {| status := 500; json := Failure "Failed to fetch TomTom data" |}
      end
  | inr _ => {| status := 400; json := Error "Missing required fields: lat, lon" |}
  end.

(** What calling [model.train(df)] raises: [train] takes [X] and [y]
    (wording of CPython 3.10 and later). *)
Definition train_missing_argument : Py.exn :=
  Py.TypeError
    "TrafficPredictionModel.train() missing 1 required positional argument: 'y'".

(** The view of [/retrain]: the answer and the model it leaves.
    [generate_synthetic_training_data] is the model's method, which draws
    random samples; [request_json] is the [n_samples] member of the body,
    if any. *)
Definition retrain_model
    (generate_synthetic_training_data : Z -> Py.result (list (list Q) * list Q))
    (model : TrafficModel.TrafficPredictionModel)
    (request_json : Py.result (option Z))
  : response * TrafficModel.TrafficPredictionModel :=
  match request_json with
  | inl e => ({| status := 500; json := Failure (str e) |}, model)
  | inr n_samples =>
      match generate_synthetic_training_data (default 10000%Z n_samples) with
      | inl e => ({| status := 500; json := Failure (str e) |}, model)
      | inr df =>
          ({| status := 500; json := Failure (str train_missing_argument) |}, model)
      end
  end.

End FlaskApp.

(** ** server/app/api/v1/endpoints/predictions.py

    The view [predict_traffic], as a function of what its three queries
    return: the location, the latest record, and the frame built from the
    history rows. *)

Module PredictionsEndpoint.

(** The nullable columns of [TrafficData] the view reads. *)
Record TrafficData := {
  temperature : option Q;
  precipitation : option Q;
  visibility : option Q;
  vehicle_count : option Z;
  average_speed : option Q;
  incident_reported : option Z;
  event_nearby : option Z;
  congestion_level : option Z;
  is_holiday : option Z
}.

Record Location := {
  name : string;
  latitude : Q;
  longitude : Q
}.

(** [x or dflt] on a nullable number: [None] and zero both give [dflt]. *)
Definition or_default (x : option Q) (dflt : Q) : MLService.pyval :=
  match x with
  | Some v => if Qeq_bool v 0 then MLService.VNum dflt else MLService.VNum v
  | None => MLService.VNum dflt
  end.

(** The dict [current_data]. *)
Definition current_data (latest_data : TrafficData) (now : Z) : MLService.pydict :=
  <["timestamp" := MLService.VTime now]>
  (<["temperature" := or_default (temperature latest_data) 20]>
  (<["precipitation" := or_default (precipitation latest_data) 0]>
  (<["visibility" := or_default (visibility latest_data) 10]>
  (<["vehicle_count" := or_default (inject_Z <$> vehicle_count latest_data) 100]>
  (<["average_speed" := or_default (average_speed latest_data) 40]>
  (<["incident_reported" := or_default (inject_Z <$> incident_reported latest_data) 0]>
  (<["event_nearby" := or_default (inject_Z <$> event_nearby latest_data) 0]>
  (<["congestion_level" := or_default (inject_Z <$> congestion_level latest_data) 2]>
  (<["is_holiday" := or_default (inject_Z <$> is_holiday latest_data) 0]> ∅))))))))).

(** A row added to [traffic_predictions]. *)
Record TrafficPrediction := {
  row_location_id : string;
  row_latitude : Q;
  row_longitude : Q;
  prediction_time : Z;
  target_time : Z;
  forecast_horizon : Z;
  predicted_congestion : Q;
  confidence_score : Q;
  model_type : string;
  model_version : string;
  features : MLService.pydict
}.

Record PredictionResponse := {
  location_id : string;
  location_name : string;
  response_time : Z;
  forecasts : list MLService.Prediction;
  response_model_type : string;
  response_model_version : string;
  feature_importance : option (gmap string Q)
}.

(** The view raises an [HTTPException] or returns the response. *)
Inductive outcome : Type :=
| HTTPException (status_code : Z) (detail : string)
| Returned (response : PredictionResponse).

Section WithDatabase.

(** [db.commit()] of the rows added since the request began. *)
Variable commit : list TrafficPrediction -> Py.result unit.
Variable get_score : MLService.Booster -> Py.result (gmap string Q).

Definition predict_traffic (ml_service : MLService.MLService)
    (location_id : string) (forecast_hours : list Z) (include_features : bool)
    (location : option Location) (latest_data : option TrafficData)
    (historical_df : list MLService.pydict) (w : MLService.World)
  : outcome * MLService.World :=
  match location with
  | None => (HTTPException 404 ("Location " +:+ location_id +:+ " not found"), w)
  | Some location =>
      match latest_data with
      | None =>
          (HTTPException 404
             ("No traffic data found for location " +:+ location_id), w)
      | Some latest_data =>
          let now := Cache.clock w in
          let current_data := current_data latest_data now in
          let historical_data :=
            match historical_df with [] => None | _ :: _ => Some historical_df end in
          match MLService.predict_congestion_xgboost ml_service location_id
                  current_data forecast_hours historical_data w with
          | (inl e, w') =>
              (HTTPException 500 ("Prediction error: " +:+ FlaskApp.str e), w')
          | (inr predictions, w') =>
              let rows :=
                (fun pred =>
                   {| row_location_id := location_id;
                      row_latitude := latitude location;
                      row_longitude := longitude location;
                      prediction_time := now;
                      target_time := MLService.target_time pred;
                      forecast_horizon := MLService.forecast_hours pred;
                      predicted_congestion := MLService.predicted_congestion pred;
                      confidence_score := MLService.confidence pred;
                      model_type := MLService.model pred;
                      model_version := "1.0";
                      features := current_data |}) <$> predictions in
              match commit rows with
              | inl e =>
                  (HTTPException 500 ("Prediction error: " +:+ FlaskApp.str e), w')
              | inr _ =>
                  (Returned
                     {| location_id := location_id;
                        location_name := name location;
                        response_time := now;
                        forecasts := predictions;
                        response_model_type := "xgboost";
                        response_model_version := "1.0";
                        feature_importance :=
                          if include_features
                          then Some (MLService.get_feature_importance get_score ml_service)
                          else None |},
                   w')
              end
          end
      end
  end.

End WithDatabase.

(** [MLService()]: what [__init__] leaves. *)
Definition new_service : MLService.MLService :=
  {| MLService.xgboost_model := None; MLService.feature_columns := None |}.

End PredictionsEndpoint.

(** ** More concrete data *)

Module MoreSamples.

(** Integers as payload: [json.dumps] accepts every int. *)
#[global] Instance int_json : Cache.Json Z :=
  {| Cache.serialisable := fun _ => true |}.

(** A payload type with a value [json.dumps] rejects: a number, or a set of
    numbers. *)
Inductive number_or_set : Type :=
| ANumber (n : Z)
| ASet (members : list Z).

#[global] Instance number_or_set_json : Cache.Json number_or_set :=
  {| Cache.serialisable :=
       fun v => match v with ANumber _ => true | ASet _ => false end |}.


(** A matcher that reads the pattern as a prefix. *)
Definition prefix_glob (pattern key : string) : bool := String.prefix pattern key.

(** A reachable server holding three integer entries that expire at 100,
    100 and 5. *)
Definition three_keys : Cache.World Z :=
  {| Cache.clock := 10;
     Cache.redis_client :=
       Some {| Cache.reachable := true;
               Cache.db := <["ai:a" := (100%Z, 1%Z)]>
                          (<["ai:b" := (5%Z, 2%Z)]>
                          (<["xgb:a" := (100%Z, 3%Z)]> ∅)) |} |}.

(** A TomTom client that has flow data at latitude 1 only. *)
Definition flow_at_one (lat lon : Q) : Py.result TomTom.answer :=
  if Qeq_bool lat 1
  then Py.ret {[ "flowSegmentData" := {[ "currentSpeed" := 30 ]} ]}
  else Py.ret ∅.

End MoreSamples.

(** * Properties *)

(** ** The definitions on concrete inputs *)

Example strftime_epoch : Datetime.strftime_YmdH 0 = "1970010100".
Proof. reflexivity. Qed.

Example strftime_leap_day : Datetime.strftime_YmdH 1709251199 = "2024022923".
Proof. reflexivity. Qed.

Example strftime_after_leap_day : Datetime.strftime_YmdH 1709251200 = "2024030100".
Proof. reflexivity. Qed.

(** 2024-11-04 21:00 UTC was a Monday. *)
(** The first and the last second a datetime can hold. *)
Example datetime_range :
  Datetime.civil_from_days (Datetime.datetime_min / 86400) = (1, 1, 1)%Z
  /\ (Datetime.datetime_min mod 86400 = 0)%Z
  /\ Datetime.civil_from_days (Datetime.datetime_max / 86400) = (9999, 12, 31)%Z
  /\ (Datetime.datetime_max mod 86400 = 86399)%Z.
Proof. repeat split. Qed.

(** From the epoch, 70389527 hours ahead is the last hour of the year
    9999; a week more is out of range. *)
Example plus_hours_at_the_end_of_time :
  Datetime.plus_hours 0 70389527 = inr 253402297200%Z
  /\ Datetime.plus_hours 0 (70389527 + 168)
     = inl (Py.OverflowError "date value out of range").
Proof. split; reflexivity. Qed.

Example hour_and_weekday :
  Datetime.hour 1730754000 = 21%Z /\ Datetime.weekday 1730754000 = 0%Z.
Proof. split; reflexivity. Qed.

Example cache_key_epoch :
  MLService.cache_key "X" 300 = "prediction:xgb:X:1970010100".
Proof. reflexivity. Qed.

Example round_ties_to_even :
  Py.round_half_even (5 # 2) = 2%Z /\ Py.round_half_even (7 # 2) = 4%Z
  /\ Py.round_half_even (- (5 # 2)) = (-2)%Z.
Proof. repeat split; reflexivity. Qed.

Example confidence_values :
  List.map (fun h => Qred (Py.round2 (MLService.horizon_confidence h)))
           [1; 3; 6; 12; 24]%Z
  = [83 # 100; 79 # 100; 73 # 100; 61 # 100; 1 # 2].
Proof. reflexivity. Qed.

(** A window of 24 rows: the lags are the last row, the third from the end
    and the first row; a window of 23 rows has no 24h lag. *)
Example lags_of_full_window :
  MLService.prepare_features Samples.service Samples.observation
    (Some Samples.window24) 0
  = inr [MLService.int 0; MLService.int 3; MLService.int 0; MLService.int 0;
         MLService.VNum 25; MLService.VNum 0; MLService.VNum 10;
         MLService.int 100; MLService.VNum 40; MLService.int 0;
         MLService.int 0; MLService.int 24; MLService.int 22;
         MLService.int 1; MLService.VNum 30].
Proof. reflexivity. Qed.

Example lags_of_short_window :
  MLService.prepare_features Samples.service Samples.observation
    (Some (take 23 Samples.window24)) 0
  = inr [MLService.int 0; MLService.int 3; MLService.int 0; MLService.int 0;
         MLService.VNum 25; MLService.VNum 0; MLService.VNum 10;
         MLService.int 100; MLService.VNum 40; MLService.int 0;
         MLService.int 0; MLService.int 23; MLService.int 21;
         MLService.int 2; MLService.VNum 30].
Proof. reflexivity. Qed.

(** An [iloc] past the start of the frame raises. *)
Example iloc_out_of_bounds :
  Py.returns (MLService.iloc_from_end (take 23 Samples.window24) 24) = false.
Proof. reflexivity. Qed.

Example untrained_predict_raises :
  TrafficModel.predict Samples.untrained 8 1 0 0 60
  = inl (Py.ValueError "Model not trained. Call train() first.").
Proof. reflexivity. Qed.

Example no_model_forecast_raises :
  fst (MLService.predict_congestion_xgboost Samples.no_model "X"
         Samples.observation [1; 3]%Z None (Samples.world_at 0))
  = inl (Py.ValueError "XGBoost model not loaded").
Proof. reflexivity. Qed.

(** ** Order facts about [max], [min], the clip and the clamp *)

Lemma Py_max_spec (a b : Q) :
  (a < b /\ Py.max a b = b) \/ (b <= a /\ Py.max a b = a).
Proof.
  unfold Py.max. destruct (Qle_bool b a) eqn:E.
  - right. split; [now apply Qle_bool_iff | reflexivity].
  - left. split; [| reflexivity].
    apply Qnot_le_lt. intros H. apply Qle_bool_iff in H. congruence.
Qed.

Lemma Py_min_spec (a b : Q) :
  (b < a /\ Py.min a b = b) \/ (a <= b /\ Py.min a b = a).
Proof.
  unfold Py.min. destruct (Qle_bool a b) eqn:E.
  - right. split; [now apply Qle_bool_iff | reflexivity].
  - left. split; [| reflexivity].
    apply Qnot_le_lt. intros H. apply Qle_bool_iff in H. congruence.
Qed.

(** Case analysis on every [Qmax] and [Qmin] in sight, then linear
    arithmetic. *)
Ltac case_max a b :=
  destruct (Q.max_spec a b) as [[? ?] | [? ?]];
  generalize dependent (Qmax a b); intros.

Ltac case_min a b :=
  destruct (Q.min_spec a b) as [[? ?] | [? ?]];
  generalize dependent (Qmin a b); intros.

Ltac split_minmax :=
  repeat match goal with
  | |- context [Qmax ?a ?b] => case_max a b
  | |- context [Qmin ?a ?b] => case_min a b
  | _ : context [Qmax ?a ?b] |- _ => case_max a b
  | _ : context [Qmin ?a ?b] |- _ => case_min a b
  end;
  repeat match goal with |- _ /\ _ => split end.

Ltac solve_minmax := split_minmax; first [lra | apply Qle_antisym; lra].

Lemma np_clip_bounds (x lo hi : Q) :
  lo <= hi -> lo <= Py.np_clip x lo hi /\ Py.np_clip x lo hi <= hi.
Proof. intros Hlh. unfold Py.np_clip. solve_minmax. Qed.

Lemma np_clip_is_clamp (x lo hi : Q) :
  lo <= hi -> Py.np_clip x lo hi == clamp x lo hi.
Proof. intros Hlh. unfold Py.np_clip, clamp. solve_minmax. Qed.

Lemma clamp_bounds (x lo hi : Q) :
  lo <= hi -> lo <= clamp x lo hi /\ clamp x lo hi <= hi.
Proof. intros Hlh. unfold clamp. solve_minmax. Qed.

Lemma max_min_is_clamp (x lo hi : Q) :
  lo <= hi -> Py.max lo (Py.min hi x) == clamp x lo hi.
Proof.
  intros Hlh. unfold clamp.
  destruct (Py_min_spec hi x) as [[? ->] | [? ->]];
    [destruct (Py_max_spec lo x) as [[? ->] | [? ->]]
    | destruct (Py_max_spec lo hi) as [[? ->] | [? ->]]];
    solve_minmax.
Qed.

Lemma clamp_monotone (x y lo hi : Q) :
  x <= y -> clamp x lo hi <= clamp y lo hi.
Proof. intros Hxy. unfold clamp. solve_minmax. Qed.

(** ** Rounding a value that already has two decimals *)

Lemma round_half_even_integer (x : Q) (n : Z) :
  x == inject_Z n -> Py.round_half_even x = n.
Proof.
  intros Hx. unfold Py.round_half_even.
  assert (Hf : Qfloor x = n) by (rewrite Hx; apply Qfloor_Z).
  rewrite Hf.
  assert (Hc : Qcompare (x - inject_Z n) (1 # 2) = Lt).
  { apply (proj1 (Qlt_alt _ _)). lra. }
  now rewrite Hc.
Qed.

Lemma round2_exact (x : Q) (n : Z) :
  x * 100 == inject_Z n -> Py.round2 x == x.
Proof.
  intros Hx. unfold Py.round2.
  rewrite (round_half_even_integer _ _ Hx). rewrite <- Hx. field.
Qed.

(** The unrounded confidence is one of 0.95, 0.5 or 0.85 - 0.02 h, each a
    whole number of hundredths. *)
Lemma horizon_confidence_hundredths (h : Z) :
  exists n : Z, MLService.horizon_confidence h * 100 == inject_Z n.
Proof.
  unfold MLService.horizon_confidence.
  set (c := (85 # 100) - inject_Z h * (2 # 100)).
  destruct (Py_min_spec (95 # 100) c) as [[? ->] | [? ->]].
  - destruct (Py_max_spec (5 # 10) c) as [[? ->] | [? ->]].
    + exists (85 + - (2 * h))%Z. unfold c.
      rewrite inject_Z_plus, inject_Z_opp, inject_Z_mult. field.
    + exists 50%Z. reflexivity.
  - destruct (Py_max_spec (5 # 10) (95 # 100)) as [[? ->] | [? ->]].
    + exists 95%Z. reflexivity.
    + exists 50%Z. reflexivity.
Qed.

Lemma reported_confidence_exact (h : Z) :
  Py.round2 (MLService.horizon_confidence h)
  == clamp ((85 # 100) - (2 # 100) * inject_Z h) (5 # 10) (95 # 100).
Proof.
  destruct (horizon_confidence_hundredths h) as [n Hn].
  rewrite (round2_exact _ _ Hn).
  unfold MLService.horizon_confidence.
  rewrite max_min_is_clamp by lra.
  unfold clamp. solve_minmax.
Qed.

(** The target time of a horizon, when it is a datetime. *)
Lemma plus_hours_returns (now h t : Z) :
  Datetime.plus_hours now h = inr t ->
  t = (now + 3600 * h)%Z
  /\ (Datetime.datetime_min <= t <= Datetime.datetime_max)%Z.
Proof.
  unfold Datetime.plus_hours, Datetime.timedelta, Datetime.add,
    Datetime.timedelta_hours.
  destruct (Z.abs (h / 24) <=? 999999999)%Z; [| discriminate]. cbn [Py.bind Py.ret].
  destruct ((Datetime.datetime_min <=? now + 3600 * h)%Z
            && (now + 3600 * h <=? Datetime.datetime_max)%Z) eqn:E; [| discriminate].
  intros [= <-]. apply andb_true_iff in E as [E1 E2].
  apply Z.leb_le in E1. apply Z.leb_le in E2. auto.
Qed.

(** What a horizon's prediction holds when the body of the [try] returns. *)
Lemma predict_horizon_fields self booster data hist now h p :
  MLService.predict_horizon self booster data hist now h = inr p ->
  MLService.forecast_hours p = h
  /\ MLService.target_time p = (now + 3600 * h)%Z
  /\ MLService.confidence p = Py.round2 (MLService.horizon_confidence h)
  /\ MLService.model p = "xgboost".
Proof.
  unfold MLService.predict_horizon.
  destruct (Datetime.plus_hours now h) as [e | t] eqn:Ht; [discriminate |].
  apply plus_hours_returns in Ht as [-> _]. cbn [Py.bind].
  destruct (MLService.prepare_features _ _ _ _) as [e | row]; [discriminate |].
  cbn [Py.bind].
  destruct (MLService.dmatrix_predict _ _ _) as [e | y]; [discriminate |].
  cbn [Py.bind Py.ret]. intros [= <-]. cbn. auto.
Qed.

(** ** The ensemble of traffic_model.py *)

(** C1: when the model is loaded and the scaler and the two regressors
    return, [predict] returns; its congestion is the mean of the two raw
    outputs clipped to [0, 100], its confidence is
    clamp(95 - |output_A - output_B|, 70, 95), and so the congestion lies in
    [0, 100] and the confidence in [70, 95] whatever the raw outputs are. *)
Theorem predict_ensemble_mean_and_confidence
    (self : TrafficModel.TrafficPredictionModel) (m : TrafficModel.ModelPair)
    (hour day_of_week : Z) (lat lon ffs : Q) (xs : list Q) (a b : Q) :
  TrafficModel.model self = Some m ->
  TrafficModel.transform (TrafficModel.scaler self)
    (TrafficModel.predict_features hour day_of_week lat lon ffs) = inr xs ->
  TrafficModel.reg_predict (TrafficModel.rf m) xs = inr a ->
  TrafficModel.reg_predict (TrafficModel.gb m) xs = inr b ->
  exists r,
    TrafficModel.predict self hour day_of_week lat lon ffs = inr r
    /\ TrafficModel.congestion r == clamp ((a + b) / 2) 0 100
    /\ TrafficModel.confidence r == clamp (95 - Qabs (a - b)) 70 95
    /\ (0 <= TrafficModel.congestion r /\ TrafficModel.congestion r <= 100)
    /\ (70 <= TrafficModel.confidence r /\ TrafficModel.confidence r <= 95).
Proof.
  intros Hm Hs Ha Hb. unfold TrafficModel.predict.
  rewrite Hm, Hs. cbn [Py.bind]. rewrite Ha. cbn [Py.bind]. rewrite Hb.
  cbn [Py.bind Py.ret]. eexists. split; [reflexivity |].
  cbn [TrafficModel.congestion TrafficModel.confidence].
  assert (H100 : 0 <= 100) by lra.
  assert (H95 : 70 <= 95) by lra.
  split; [apply np_clip_is_clamp, H100 |].
  split; [apply max_min_is_clamp, H95 |].
  split; [apply np_clip_bounds, H100 |].
  rewrite (max_min_is_clamp _ _ _ H95). apply clamp_bounds, H95.
Qed.

Lemma predict_ensemble_mean_and_confidence_witness :
  exists r,
    TrafficModel.predict Samples.trained 8 1 0 0 60 = inr r
    /\ TrafficModel.congestion r == clamp ((120 + 90) / 2) 0 100
    /\ TrafficModel.confidence r == clamp (95 - Qabs (120 - 90)) 70 95
    /\ (0 <= TrafficModel.congestion r /\ TrafficModel.congestion r <= 100)
    /\ (70 <= TrafficModel.confidence r /\ TrafficModel.confidence r <= 95).
Proof.
  apply (predict_ensemble_mean_and_confidence Samples.trained
           {| TrafficModel.rf := Samples.rf_const; TrafficModel.gb := Samples.gb_const |}
           8 1 0 0 60
           (TrafficModel.predict_features 8 1 0 0 60) 120 90);
    reflexivity.
Defined.

(** ** The "model not loaded" guard *)

(** C7: with no model loaded, both prediction entry points raise their
    "not loaded" [ValueError] and return nothing; with a model loaded the
    guard does not fire: [predict_congestion_xgboost] returns a list, and
    an exception of [TrafficPredictionModel.predict] can only be one raised
    by the scaler or by a regressor. *)
Theorem model_not_loaded_is_raised_exactly_when_absent
    (tm : TrafficModel.TrafficPredictionModel)
    (hour day_of_week : Z) (lat lon ffs : Q)
    (self : MLService.MLService) (location_id : string)
    (current_data : MLService.pydict) (hours : list Z)
    (historical_data : option (list MLService.pydict)) (w : MLService.World) :
  match TrafficModel.model tm with
  | None =>
      TrafficModel.predict tm hour day_of_week lat lon ffs
      = inl (Py.ValueError "Model not trained. Call train() first.")
  | Some m =>
      let row := TrafficModel.predict_features hour day_of_week lat lon ffs in
      forall e, TrafficModel.predict tm hour day_of_week lat lon ffs = inl e ->
        TrafficModel.transform (TrafficModel.scaler tm) row = inl e
        \/ exists xs, TrafficModel.transform (TrafficModel.scaler tm) row = inr xs
             /\ (TrafficModel.reg_predict (TrafficModel.rf m) xs = inl e
                 \/ TrafficModel.reg_predict (TrafficModel.gb m) xs = inl e)
  end
  /\
  match MLService.xgboost_model self with
  | None =>
      MLService.predict_congestion_xgboost
        self location_id current_data hours historical_data w
      = (inl (Py.ValueError "XGBoost model not loaded"), w)
  | Some _ =>
      exists predictions,
        fst (MLService.predict_congestion_xgboost
               self location_id current_data hours historical_data w)
        = inr predictions
  end.
Proof.
  split.
  - unfold TrafficModel.predict. destruct (TrafficModel.model tm) as [m |].
    + cbv zeta. intros e.
      destruct (TrafficModel.transform _ _) as [e1 | xs]; cbn [Py.bind].
      * intros [= ->]. now left.
      * right. exists xs. split; [reflexivity |].
        destruct (TrafficModel.reg_predict (TrafficModel.rf m) xs) as [e2 | a];
          cbn [Py.bind] in *.
        -- left. congruence.
        -- destruct (TrafficModel.reg_predict (TrafficModel.gb m) xs) as [e3 | b];
             cbn [Py.bind Py.ret] in *; [right; congruence | discriminate].
    + reflexivity.
  - unfold MLService.predict_congestion_xgboost.
    destruct (MLService.xgboost_model self) as [booster |]; [| reflexivity].
    destruct (Cache.get_cache _ w) as [[| p cached] |]; cbn;
      try (destruct (MLService.truthy _)); eexists; reflexivity.
Qed.

(** ** Confidence of a horizon *)

(** C8: the confidence reported for a horizon of [h] hours is
    clamp(0.85 - 0.02 h, 0.5, 0.95); it stays within [0.5, 0.95] and does
    not grow when the horizon grows. *)
Theorem horizon_confidence_is_clamped_decay
    (self : MLService.MLService) (booster : MLService.Booster)
    (current_data : MLService.pydict)
    (historical_data : option (list MLService.pydict))
    (now h h' : Z) (p p' : MLService.Prediction) :
  MLService.predict_horizon self booster current_data historical_data now h = inr p ->
  MLService.predict_horizon self booster current_data historical_data now h' = inr p' ->
  MLService.confidence p
    == clamp ((85 # 100) - (2 # 100) * inject_Z h) (5 # 10) (95 # 100)
  /\ ((5 # 10) <= MLService.confidence p /\ MLService.confidence p <= (95 # 100))
  /\ ((h <= h')%Z -> MLService.confidence p' <= MLService.confidence p).
Proof.
  intros Hp Hp'.
  apply predict_horizon_fields in Hp as (_ & _ & Hc & _).
  apply predict_horizon_fields in Hp' as (_ & _ & Hc' & _).
  rewrite Hc, Hc', !reported_confidence_exact.
  assert (Hb : (5 # 10) <= (95 # 100)) by lra.
  split; [reflexivity |]. split; [apply clamp_bounds, Hb |].
  intros Hh. apply clamp_monotone.
  assert (inject_Z h <= inject_Z h') by (now rewrite <- Zle_Qle). lra.
Qed.

Lemma horizon_confidence_is_clamped_decay_witness :
  exists p p',
    MLService.predict_horizon Samples.service Samples.hour_booster
      Samples.observation None 0 1 = inr p
    /\ MLService.predict_horizon Samples.service Samples.hour_booster
         Samples.observation None 0 3 = inr p'
    /\ MLService.confidence p
         == clamp ((85 # 100) - (2 # 100) * inject_Z 1) (5 # 10) (95 # 100)
    /\ ((5 # 10) <= MLService.confidence p /\ MLService.confidence p <= (95 # 100))
    /\ ((1 <= 3)%Z -> MLService.confidence p' <= MLService.confidence p).
Proof.
  eexists. eexists.
  split; [vm_compute; reflexivity |]. split; [vm_compute; reflexivity |].
  apply (horizon_confidence_is_clamped_decay Samples.service Samples.hour_booster
           Samples.observation None 0 1 3); vm_compute; reflexivity.
Defined.

(** ** The feature vector *)

Section Features.

Import MLService.

Lemma iloc_from_end_returns (df : list pydict) (k : nat) :
  (1 <= k <= length df)%nat ->
  exists row, df !! (length df - k)%nat = Some row
              /\ iloc_from_end df k = inr row.
Proof.
  intros [Hk Hlen]. unfold iloc_from_end.
  destruct (lookup_lt_is_Some_2 df (length df - k)%nat) as [row Hrow]; [lia |].
  exists row. split; [exact Hrow |].
  rewrite (proj2 (Nat.leb_le _ _) Hlen), Hrow. reflexivity.
Qed.

(** The lag block never raises: it adds the four lag entries, in the
    order of the schema, whatever the window is. *)
Lemma lag_features_shape (data : pydict) (hist : option (list pydict))
    (features : pydict) :
  exists l1 l3 l24 s1,
    lag_features data hist features
    = inr (<["speed_lag_1h" := s1]>
          (<["congestion_lag_24h" := l24]>
          (<["congestion_lag_3h" := l3]>
          (<["congestion_lag_1h" := l1]> features))))
    /\ match hist with
       | None => l24 = int 2
       | Some df =>
           ((length df < 24)%nat -> l24 = int 2)
           /\ ((24 <= length df)%nat ->
               exists row, df !! (length df - 24)%nat = Some row
                           /\ l24 = get row "congestion_level" (int 2))
       end.
Proof.
  unfold lag_features. destruct hist as [df |].
  - destruct (0 <? length df)%nat eqn:Hpos.
    + apply Nat.ltb_lt in Hpos.
      destruct (iloc_from_end_returns df 1) as (last & _ & ->); [lia |].
      cbn [Py.bind].
      destruct (3 <=? length df)%nat eqn:H3.
      * apply Nat.leb_le in H3.
        destruct (iloc_from_end_returns df 3) as (r3 & _ & ->); [lia |].
        cbn [Py.bind Py.ret].
        destruct (24 <=? length df)%nat eqn:H24.
        -- apply Nat.leb_le in H24.
           destruct (iloc_from_end_returns df 24) as (r24 & Hr24 & ->); [lia |].
           cbn [Py.bind Py.ret]. do 4 eexists. split; [reflexivity |].
           split; [lia | eauto].
        -- apply Nat.leb_gt in H24. cbn [Py.bind Py.ret].
           do 4 eexists. split; [reflexivity |]. split; [reflexivity | lia].
      * apply Nat.leb_gt in H3.
        assert (H24 : (24 <=? length df)%nat = false) by (apply Nat.leb_gt; lia).
        rewrite H24. cbn [Py.bind Py.ret].
        do 4 eexists. split; [reflexivity |]. split; [reflexivity | lia].
    + apply Nat.ltb_ge in Hpos.
      do 4 eexists. split; [reflexivity |]. split; [reflexivity | lia].
  - do 4 eexists. split; reflexivity.
Qed.

(** Reading the fifteen schema columns out of a dict filled in schema
    order gives the fifteen values in that order. *)
Lemma collect_schema (v0 v1 v2 v3 v4 v5 v6 v7 v8 v9 v10 v11 v12 v13 v14 : pyval) :
  collect
    (<["speed_lag_1h" := v14]> (<["congestion_lag_24h" := v13]>
    (<["congestion_lag_3h" := v12]> (<["congestion_lag_1h" := v11]>
    (<["event_nearby" := v10]> (<["incident_reported" := v9]>
    (<["average_speed" := v8]> (<["vehicle_count" := v7]>
    (<["visibility" := v6]> (<["precipitation" := v5]>
    (<["temperature" := v4]> (<["is_holiday" := v3]>
    (<["is_weekend" := v2]> (<["day_of_week" := v1]>
    (<["hour_of_day" := v0]> ∅)))))))))))))))
    loaded_feature_columns
  = inr [v0; v1; v2; v3; v4; v5; v6; v7; v8; v9; v10; v11; v12; v13; v14].
Proof. vm_compute. reflexivity. Qed.

Lemma schema_lookup (v0 v1 v2 v3 v4 v5 v6 v7 v8 v9 v10 v11 v12 v13 v14 : pyval)
    (i : nat) (col : string) :
  loaded_feature_columns !! i = Some col ->
  exists v,
    [v0; v1; v2; v3; v4; v5; v6; v7; v8; v9; v10; v11; v12; v13; v14] !! i = Some v
    /\ (<["speed_lag_1h" := v14]> (<["congestion_lag_24h" := v13]>
       (<["congestion_lag_3h" := v12]> (<["congestion_lag_1h" := v11]>
       (<["event_nearby" := v10]> (<["incident_reported" := v9]>
       (<["average_speed" := v8]> (<["vehicle_count" := v7]>
       (<["visibility" := v6]> (<["precipitation" := v5]>
       (<["temperature" := v4]> (<["is_holiday" := v3]>
       (<["is_weekend" := v2]> (<["day_of_week" := v1]>
       (<["hour_of_day" := v0]> (∅ : pydict)))))))))))))))) !! col = Some v.
Proof.
  intros Hcol.
  do 15 (destruct i as [| i];
         [injection Hcol as <-; eexists; split; [reflexivity | vm_compute; reflexivity] |]).
  discriminate.
Qed.

End Features.

(** C5: the lag block of [prepare_features] never raises.  With a window of
    fewer than 24 rows (or none) the [congestion_lag_24h] feature is the
    default 2; with 24 rows or more it is the congestion level of the row 24
    positions from the end of the window. *)
Theorem congestion_lag_24h_default_or_row
    (data : MLService.pydict) (historical_data : option (list MLService.pydict))
    (features : MLService.pydict) :
  exists features',
    MLService.lag_features data historical_data features = inr features'
    /\ match historical_data with
       | None => features' !! "congestion_lag_24h" = Some (MLService.int 2)
       | Some df =>
           ((length df < 24)%nat ->
            features' !! "congestion_lag_24h" = Some (MLService.int 2))
           /\ ((24 <= length df)%nat ->
               exists row,
                 df !! (length df - 24)%nat = Some row
                 /\ features' !! "congestion_lag_24h"
                    = Some (MLService.get row "congestion_level" (MLService.int 2))
                 /\ forall c, row !! "congestion_level" = Some c ->
                      features' !! "congestion_lag_24h" = Some c)
       end.
Proof.
  destruct (lag_features_shape data historical_data features)
    as (l1 & l3 & l24 & s1 & -> & Hl24).
  eexists. split; [reflexivity |].
  assert (Hlook : forall m : MLService.pydict,
            (<["speed_lag_1h" := s1]> (<["congestion_lag_24h" := l24]> m))
              !! "congestion_lag_24h" = Some l24).
  { intros m. rewrite lookup_insert_ne by discriminate. apply lookup_insert_eq. }
  rewrite Hlook. destruct historical_data as [df |].
  - destruct Hl24 as [Hshort Hlong]. split.
    + intros H. now rewrite Hshort.
    + intros H. destruct (Hlong H) as (row & Hrow & ->).
      exists row. split; [exact Hrow |]. split; [reflexivity |].
      intros c Hc. unfold MLService.get. now rewrite Hc.
  - now rewrite Hl24.
Qed.

(** C6: when the timestamp of the observation is a datetime,
    [prepare_features] returns a row of exactly 15 entries, and entry [i]
    is the feature named by entry [i] of [feature_columns]: the time
    fields, the weather fields, the traffic fields and the four lags, in
    the order of the schema. *)
Theorem feature_vector_follows_schema
    (self : MLService.MLService) (data : MLService.pydict)
    (historical_data : option (list MLService.pydict)) (now t : Z) :
  MLService.feature_columns self = Some MLService.loaded_feature_columns ->
  MLService.get data "timestamp" (MLService.VTime now) = MLService.VTime t ->
  exists features row,
    MLService.features_dict data historical_data now = inr features
    /\ MLService.prepare_features self data historical_data now = inr row
    /\ length row = 15%nat
    /\ length row = length MLService.loaded_feature_columns
    /\ (forall i col,
          MLService.loaded_feature_columns !! i = Some col ->
          exists v, row !! i = Some v /\ features !! col = Some v)
    /\ firstn 11 row
       = [MLService.int (Datetime.hour t);
          MLService.int (Datetime.weekday t);
          MLService.int (if (5 <=? Datetime.weekday t)%Z then 1 else 0);
          MLService.get data "is_holiday" (MLService.int 0);
          MLService.get data "temperature" (MLService.VNum 20);
          MLService.get data "precipitation" (MLService.VNum 0);
          MLService.get data "visibility" (MLService.VNum 10);
          MLService.get data "vehicle_count" (MLService.int 100);
          MLService.get data "average_speed" (MLService.VNum 40);
          MLService.get data "incident_reported" (MLService.int 0);
          MLService.get data "event_nearby" (MLService.int 0)].
Proof.
  intros Hcols Ht.
  unfold MLService.prepare_features, MLService.features_dict.
  rewrite Ht. cbn [MLService.attr_hour MLService.attr_weekday Py.bind Py.ret].
  match goal with
  | |- context [MLService.lag_features data historical_data ?f] =>
      destruct (lag_features_shape data historical_data f)
        as (l1 & l3 & l24 & s1 & -> & _)
  end.
  cbn [Py.bind]. rewrite Hcols.
  eexists. eexists. split; [reflexivity |].
  split; [apply collect_schema |].
  split; [reflexivity |]. split; [reflexivity |].
  split; [| reflexivity].
  intros i col. apply schema_lookup.
Qed.

Lemma feature_vector_follows_schema_witness :
  exists features row,
    MLService.features_dict Samples.observation (Some Samples.window24) 0
    = inr features
    /\ MLService.prepare_features Samples.service Samples.observation
         (Some Samples.window24) 0 = inr row
    /\ length row = 15%nat
    /\ length row = length MLService.loaded_feature_columns
    /\ (forall i col,
          MLService.loaded_feature_columns !! i = Some col ->
          exists v, row !! i = Some v /\ features !! col = Some v)
    /\ firstn 11 row
       = [MLService.int (Datetime.hour 0);
          MLService.int (Datetime.weekday 0);
          MLService.int (if (5 <=? Datetime.weekday 0)%Z then 1 else 0);
          MLService.get Samples.observation "is_holiday" (MLService.int 0);
          MLService.get Samples.observation "temperature" (MLService.VNum 20);
          MLService.get Samples.observation "precipitation" (MLService.VNum 0);
          MLService.get Samples.observation "visibility" (MLService.VNum 10);
          MLService.get Samples.observation "vehicle_count" (MLService.int 100);
          MLService.get Samples.observation "average_speed" (MLService.VNum 40);
          MLService.get Samples.observation "incident_reported" (MLService.int 0);
          MLService.get Samples.observation "event_nearby" (MLService.int 0)].
Proof.
  apply (feature_vector_follows_schema Samples.service Samples.observation
           (Some Samples.window24) 0 0); reflexivity.
Defined.

(** ** The forecast loop *)

Section Forecast.

Import MLService.

Variables (self : MLService) (booster : Booster) (current_data : pydict)
          (historical_data : option (list pydict)) (now : Z).

Let attempt (h : Z) : Py.result Prediction :=
  predict_horizon self booster current_data historical_data now h.

(** The loop appends, in request order, the predictions of the horizons
    whose body returned. *)
Lemma forecast_loop_spec (hours : list Z) (acc : list Prediction) :
  forecast_loop self booster current_data historical_data now hours acc
  = acc ++ omap (fun h => Py.returned (attempt h)) hours.
Proof.
  revert acc. induction hours as [| h rest IH]; intros acc; cbn.
  - now rewrite app_nil_r.
  - fold (attempt h). destruct (attempt h) as [e | p]; cbn.
    + apply IH.
    + rewrite IH, <- app_assoc. reflexivity.
Qed.

Lemma forecast_loop_horizons (hours : list Z) :
  List.map forecast_hours
    (forecast_loop self booster current_data historical_data now hours [])
  = List.filter (fun h => Py.returns (attempt h)) hours.
Proof.
  rewrite forecast_loop_spec. cbn [app].
  induction hours as [| h rest IH]; cbn; [reflexivity |].
  destruct (attempt h) as [e | p] eqn:Hh; cbn; [exact IH |].
  apply predict_horizon_fields in Hh as (-> & _). now rewrite IH.
Qed.

Lemma forecast_loop_member (hours : list Z) (h : Z) (p : Prediction) :
  In h hours -> attempt h = inr p ->
  In p (forecast_loop self booster current_data historical_data now hours []).
Proof.
  intros Hin Hp. rewrite forecast_loop_spec. cbn [app].
  apply list_elem_of_In, list_elem_of_omap. exists h.
  split; [now apply list_elem_of_In | now rewrite Hp].
Qed.

End Forecast.

Lemma filter_strongly_sorted (f : Z -> bool) (l : list Z) :
  StronglySorted Z.le l -> StronglySorted Z.le (List.filter f l).
Proof.
  induction 1 as [| x l Hs IH Hall]; cbn; [constructor |].
  destruct (f x); [| exact IH]. constructor; [exact IH |].
  rewrite List.Forall_forall in *. intros y Hy.
  apply List.filter_In in Hy as [Hy _]. now apply Hall.
Qed.

Lemma filter_sorted (f : Z -> bool) (l : list Z) :
  Sorted Z.le l -> Sorted Z.le (List.filter f l).
Proof.
  intros Hs. apply StronglySorted_Sorted, filter_strongly_sorted.
  apply Sorted_StronglySorted; [| exact Hs].
  intros x y z. apply Z.le_trans.
Qed.

(** ** Hit and miss in [predict_congestion_xgboost] *)

Section HitMiss.

Import MLService.

Lemma predict_miss (self : MLService) (booster : Booster) (location_id : string)
    (current_data : pydict) (hours : list Z)
    (historical_data : option (list pydict)) (w : World) :
  xgboost_model self = Some booster ->
  default [] (Cache.get_cache (cache_key location_id (Cache.clock w)) w) = [] ->
  let predictions :=
    forecast_loop self booster current_data historical_data (Cache.clock w) hours [] in
  predict_congestion_xgboost self location_id current_data hours historical_data w
  = (inr predictions,
     if truthy predictions
     then snd (Cache.set_cache (cache_key location_id (Cache.clock w))
                               predictions (Some 1800%Z) w)
     else w).
Proof.
  intros Hm Hmiss. unfold predict_congestion_xgboost. rewrite Hm.
  destruct (Cache.get_cache _ w) as [[| p l] |]; cbn in Hmiss;
    try discriminate; cbv zeta; destruct (truthy _); reflexivity.
Qed.

Lemma predict_hit (self : MLService) (booster : Booster) (location_id : string)
    (current_data : pydict) (hours : list Z)
    (historical_data : option (list pydict)) (w : World)
    (p : Prediction) (cached : list Prediction) :
  xgboost_model self = Some booster ->
  Cache.get_cache (cache_key location_id (Cache.clock w)) w = Some (p :: cached) ->
  predict_congestion_xgboost self location_id current_data hours historical_data w
  = (inr (p :: cached), w).
Proof.
  intros Hm Hhit. unfold predict_congestion_xgboost. rewrite Hm.
  cbv zeta. rewrite Hhit. reflexivity.
Qed.

End HitMiss.

(** C3: when the model is loaded and the forecast is computed (the cache
    holds no non-empty list under the key), the call returns, in request
    order, exactly the requested horizons whose computation returned: a
    horizon whose computation raises is absent from the list, and every
    requested horizon whose computation returns has its prediction in it. *)
Theorem failing_horizon_is_omitted
    (self : MLService.MLService) (booster : MLService.Booster)
    (location_id : string) (current_data : MLService.pydict) (hours : list Z)
    (historical_data : option (list MLService.pydict)) (w : MLService.World) :
  MLService.xgboost_model self = Some booster ->
  default [] (Cache.get_cache (MLService.cache_key location_id (Cache.clock w)) w) = [] ->
  exists predictions,
    fst (MLService.predict_congestion_xgboost
           self location_id current_data hours historical_data w) = inr predictions
    /\ List.map MLService.forecast_hours predictions
       = List.filter
           (fun h => Py.returns (MLService.predict_horizon
                                   self booster current_data historical_data
                                   (Cache.clock w) h))
           hours
    /\ (forall h e,
          MLService.predict_horizon self booster current_data historical_data
            (Cache.clock w) h = inl e ->
          ~ In h (List.map MLService.forecast_hours predictions))
    /\ (forall h p,
          In h hours ->
          MLService.predict_horizon self booster current_data historical_data
            (Cache.clock w) h = inr p ->
          In p predictions).
Proof.
  intros Hm Hmiss.
  rewrite (predict_miss _ _ _ _ _ _ _ Hm Hmiss). cbn [fst].
  eexists. split; [reflexivity |].
  split; [apply forecast_loop_horizons |]. split.
  - intros h e He. rewrite forecast_loop_horizons.
    intros Hin. apply List.filter_In in Hin as [_ Hret].
    rewrite He in Hret. discriminate.
  - intros h p. apply forecast_loop_member.
Qed.

Lemma failing_horizon_is_omitted_witness :
  (exists predictions,
     fst (MLService.predict_congestion_xgboost Samples.service "X"
            Samples.observation [1; 3; 6; 12; 24]%Z None (Samples.world_at 0))
     = inr predictions
     /\ List.map MLService.forecast_hours predictions
        = List.filter
            (fun h => Py.returns (MLService.predict_horizon
                                    Samples.service Samples.hour_booster
                                    Samples.observation None 0 h))
            [1; 3; 6; 12; 24]%Z
     /\ (forall h e,
           MLService.predict_horizon Samples.service Samples.hour_booster
             Samples.observation None 0 h = inl e ->
           ~ In h (List.map MLService.forecast_hours predictions))
     /\ (forall h p,
           In h [1; 3; 6; 12; 24]%Z ->
           MLService.predict_horizon Samples.service Samples.hour_booster
             Samples.observation None 0 h = inr p ->
           In p predictions))
  /\ MLService.predict_horizon Samples.service Samples.hour_booster
       Samples.observation None 0 6
     = inl (Py.ValueError "feature shape mismatch")
  /\ List.filter
       (fun h => Py.returns (MLService.predict_horizon
                               Samples.service Samples.hour_booster
                               Samples.observation None 0 h))
       [1; 3; 6; 12; 24]%Z
     = [1; 3; 12; 24]%Z.
Proof.
  split; [| split; vm_compute; reflexivity].
  apply (failing_horizon_is_omitted Samples.service Samples.hour_booster "X"
           Samples.observation [1; 3; 6; 12; 24]%Z None (Samples.world_at 0));
    vm_compute; reflexivity.
Defined.

(** C4, the claim as stated fails: a request for the horizons 3, 1 is
    answered with the predictions for 3 and 1 in that order. *)
Lemma unsorted_request_unsorted_forecast :
  exists predictions,
    fst (MLService.predict_congestion_xgboost Samples.service "X"
           Samples.observation [3; 1]%Z None (Samples.world_at 0))
    = inr predictions
    /\ List.map MLService.forecast_hours predictions = [3; 1]%Z
    /\ ~ Sorted Z.le (List.map MLService.forecast_hours predictions).
Proof.
  eexists. split; [vm_compute; reflexivity |].
  split; [vm_compute; reflexivity |].
  intros Hs. apply Sorted_inv in Hs as [_ Hhd].
  apply HdRel_inv in Hhd. vm_compute in Hhd. now apply Hhd.
Qed.

(** C4, amended: a computed forecast is the request list with the failing
    horizons removed: it holds, in the order in which the horizons were
    requested, the prediction of every requested horizon whose computation
    returned, and nothing else.  Hence it is sorted in ascending order of
    horizon whenever the request is. *)
Theorem forecast_keeps_request_order
    (self : MLService.MLService) (booster : MLService.Booster)
    (location_id : string) (current_data : MLService.pydict) (hours : list Z)
    (historical_data : option (list MLService.pydict)) (w : MLService.World) :
  MLService.xgboost_model self = Some booster ->
  default [] (Cache.get_cache (MLService.cache_key location_id (Cache.clock w)) w) = [] ->
  exists predictions,
    fst (MLService.predict_congestion_xgboost
           self location_id current_data hours historical_data w) = inr predictions
    /\ predictions
       = omap (fun h => Py.returned (MLService.predict_horizon
                                       self booster current_data historical_data
                                       (Cache.clock w) h))
              hours
    /\ List.map MLService.forecast_hours predictions
       = List.filter
           (fun h => Py.returns (MLService.predict_horizon
                                   self booster current_data historical_data
                                   (Cache.clock w) h))
           hours
    /\ sublist (List.map MLService.forecast_hours predictions) hours
    /\ (Sorted Z.le hours ->
        Sorted Z.le (List.map MLService.forecast_hours predictions)).
Proof.
  intros Hm Hmiss.
  rewrite (predict_miss _ _ _ _ _ _ _ Hm Hmiss). cbn [fst].
  eexists. split; [reflexivity |].
  split; [apply forecast_loop_spec |].
  rewrite forecast_loop_horizons. split; [reflexivity |]. split.
  - induction hours as [| h rest IH]; cbn; [constructor |].
    destruct (Py.returns _); [now apply sublist_skip | now apply sublist_cons].
  - apply filter_sorted.
Qed.

Lemma forecast_keeps_request_order_witness :
  exists predictions,
    fst (MLService.predict_congestion_xgboost Samples.service "X"
           Samples.observation [1; 3; 6; 12; 24]%Z None (Samples.world_at 0))
    = inr predictions
    /\ predictions
       = omap (fun h => Py.returned (MLService.predict_horizon
                                       Samples.service Samples.hour_booster
                                       Samples.observation None 0 h))
              [1; 3; 6; 12; 24]%Z
    /\ List.map MLService.forecast_hours predictions
       = List.filter
           (fun h => Py.returns (MLService.predict_horizon
                                   Samples.service Samples.hour_booster
                                   Samples.observation None 0 h))
           [1; 3; 6; 12; 24]%Z
    /\ sublist (List.map MLService.forecast_hours predictions) [1; 3; 6; 12; 24]%Z
    /\ (Sorted Z.le [1; 3; 6; 12; 24]%Z ->
        Sorted Z.le (List.map MLService.forecast_hours predictions)).
Proof.
  apply (forecast_keeps_request_order Samples.service Samples.hour_booster "X"
           Samples.observation [1; 3; 6; 12; 24]%Z None (Samples.world_at 0));
    vm_compute; reflexivity.
Defined.

(** ** The cache *)

Section CacheFacts.

Import MLService.

Lemma get_cache_unavailable {V} (key : string) (w : Cache.World V) :
  Cache.available w = false -> Cache.get_cache key w = None.
Proof.
  unfold Cache.available, Cache.get_cache, Cache.redis_get.
  destruct (Cache.redis_client w) as [r |]; [| reflexivity].
  now intros ->.
Qed.

Lemma set_cache_unavailable {V} {json : Cache.Json V}
    (key : string) (v : V) (ttl : option Z) (w : Cache.World V) :
  Cache.available w = false -> Cache.set_cache key v ttl w = (false, w).
Proof.
  unfold Cache.available, Cache.set_cache, Cache.json_dumps, Cache.redis_setex.
  destruct (Cache.serialisable v); [| reflexivity]. cbn [Py.bind Py.ret].
  destruct (Cache.redis_client w) as [r |]; [| reflexivity].
  now intros ->.
Qed.

(** A value stored with a time-to-live of 1800 seconds is read back during
    the next 1800 seconds. *)
Lemma get_after_set {V} {json : Cache.Json V}
    (key : string) (v : V) (w : Cache.World V) (dt : Z) :
  Cache.serialisable v = true ->
  Cache.available w = true -> (0 <= dt < 1800)%Z ->
  Cache.get_cache key (Cache.advance dt (snd (Cache.set_cache key v (Some 1800%Z) w)))
  = Some v.
Proof.
  unfold Cache.available, Cache.set_cache, Cache.json_dumps, Cache.redis_setex.
  intros ->. cbn [Py.bind Py.ret].
  destruct (Cache.redis_client w) as [r |]; [| discriminate].
  intros -> Hdt. cbn.
  unfold Cache.get_cache, Cache.redis_get. cbn.
  rewrite lookup_insert_eq.
  assert (H : (Cache.clock w + dt <=? Cache.clock w + 1800)%Z = true)
    by (apply Z.leb_le; lia).
  now rewrite H.
Qed.

(** The key depends on the instant only through its hour. *)
Lemma cache_key_hour (location_id : string) (t t' : Z) :
  Datetime.hour_bucket t = Datetime.hour_bucket t' ->
  cache_key location_id t = cache_key location_id t'.
Proof.
  intros H. unfold cache_key, Datetime.strftime_YmdH. now rewrite H.
Qed.

Lemma truthy_cons {A} (l : list A) : l <> [] -> exists x l', l = x :: l'.
Proof. destruct l as [| x l']; [congruence | eauto]. Qed.

End CacheFacts.

(** C9: when the cache layer is unavailable (no client, or a connection
    that raises on every command), [get_cache] returns [None] and
    [set_cache] returns [False] without raising, and the prediction request
    returns the directly computed forecast. *)
Theorem cache_failure_degrades_to_computation
    (self : MLService.MLService) (booster : MLService.Booster)
    (location_id : string) (current_data : MLService.pydict) (hours : list Z)
    (historical_data : option (list MLService.pydict)) (w : MLService.World) :
  Cache.available w = false ->
  MLService.xgboost_model self = Some booster ->
  (forall key, Cache.get_cache key w = None)
  /\ (forall key value ttl, Cache.set_cache key value ttl w = (false, w))
  /\ MLService.predict_congestion_xgboost
       self location_id current_data hours historical_data w
     = (inr (MLService.forecast_loop self booster current_data historical_data
               (Cache.clock w) hours []),
        w).
Proof.
  intros Hdown Hm.
  split; [intros key; now apply get_cache_unavailable |].
  split; [intros key value ttl; now apply set_cache_unavailable |].
  rewrite (predict_miss _ _ _ _ _ _ _ Hm)
    by now rewrite get_cache_unavailable.
  cbv zeta. rewrite set_cache_unavailable by assumption.
  now destruct (MLService.truthy _).
Qed.

Lemma cache_failure_degrades_to_computation_witness :
  (forall key, Cache.get_cache key (Samples.world_down 0) = None)
  /\ (forall key value ttl,
        Cache.set_cache key value ttl (Samples.world_down 0)
        = (false, Samples.world_down 0))
  /\ MLService.predict_congestion_xgboost Samples.service "X"
       Samples.observation [1; 3]%Z None (Samples.world_down 0)
     = (inr (MLService.forecast_loop Samples.service Samples.hour_booster
               Samples.observation None
               (Cache.clock (Samples.world_down 0)) [1; 3]%Z []),
        Samples.world_down 0).
Proof.
  apply (cache_failure_degrades_to_computation Samples.service
           Samples.hour_booster "X" Samples.observation [1; 3]%Z None
           (Samples.world_down 0)); reflexivity.
Defined.

(** C10, the claim as stated fails: two calls for location "X" at 00:05
    and 00:50 of the same hour.  The first stores its non-empty forecast;
    45 minutes later the entry has expired, and the second call, asked for
    another horizon, computes and returns another list. *)
Lemma second_call_after_expiry_recomputes :
  let w := Samples.world_at 300 in
  let first := MLService.predict_congestion_xgboost Samples.service "X"
                 Samples.observation [1]%Z None w in
  let w' := Cache.advance 2700 (snd first) in
  let second := MLService.predict_congestion_xgboost Samples.service "X"
                  Samples.observation [3]%Z None w' in
  Datetime.hour_bucket (Cache.clock w) = Datetime.hour_bucket (Cache.clock w')
  /\ (exists p, fst first = inr [p]
        /\ (r ← Cache.redis_client (snd first);
            Cache.db r !! MLService.cache_key "X" 300) = Some (2100%Z, [p])
        /\ exists p', fst second = inr [p']
             /\ MLService.forecast_hours p = 1%Z
             /\ MLService.forecast_hours p' = 3%Z).
Proof.
  cbv zeta. split; [reflexivity |].
  eexists. split; [vm_compute; reflexivity |].
  split; [vm_compute; reflexivity |].
  eexists. split; [vm_compute; reflexivity |].
  split; reflexivity.
Qed.

(** C10, amended: the cache key is built from the location and the UTC
    hour only, and a call made less than 1800 seconds after a call for the
    same location computed and stored a non-empty forecast, in the same
    UTC hour and with the cache reachable, returns that stored forecast
    unchanged, whatever its own horizons, observation and history are. *)
Theorem cached_forecast_is_returned_within_ttl
    (self : MLService.MLService) (booster : MLService.Booster)
    (location_id : string)
    (data1 data2 : MLService.pydict) (hours1 hours2 : list Z)
    (hist1 hist2 : option (list MLService.pydict))
    (w : MLService.World) (dt : Z) (predictions : list MLService.Prediction) :
  MLService.xgboost_model self = Some booster ->
  Cache.available w = true ->
  default [] (Cache.get_cache (MLService.cache_key location_id (Cache.clock w)) w) = [] ->
  fst (MLService.predict_congestion_xgboost self location_id data1 hours1 hist1 w)
  = inr predictions ->
  predictions <> [] ->
  (0 <= dt < 1800)%Z ->
  Datetime.hour_bucket (Cache.clock w + dt) = Datetime.hour_bucket (Cache.clock w) ->
  let w' :=
    Cache.advance dt
      (snd (MLService.predict_congestion_xgboost self location_id data1 hours1 hist1 w)) in
  (forall t t', Datetime.hour_bucket t = Datetime.hour_bucket t' ->
     MLService.cache_key location_id t = MLService.cache_key location_id t')
  /\ MLService.predict_congestion_xgboost self location_id data2 hours2 hist2 w'
     = (inr predictions, w').
Proof.
  intros Hm Hup Hmiss Hfirst Hne Hdt Hhour w'.
  split; [apply cache_key_hour |].
  pose proof (predict_miss self booster location_id data1 hours1 hist1 w Hm Hmiss)
    as Hcall.
  cbv zeta in Hcall. subst w'. rewrite Hcall in Hfirst |- *.
  cbn [fst snd] in *. injection Hfirst as Hp. rewrite Hp.
  destruct (truthy_cons predictions Hne) as (p & rest & Hcons).
  rewrite Hcons at 1. cbn [MLService.truthy].
  assert (Hget :
    Cache.get_cache
      (MLService.cache_key location_id
         (Cache.clock (Cache.advance dt
            (snd (Cache.set_cache
                    (MLService.cache_key location_id (Cache.clock w))
                    predictions (Some 1800%Z) w)))))
      (Cache.advance dt
         (snd (Cache.set_cache
                 (MLService.cache_key location_id (Cache.clock w))
                 predictions (Some 1800%Z) w)))
    = Some (p :: rest)).
  { rewrite <- Hcons.
    replace (Cache.clock (Cache.advance dt _)) with (Cache.clock w + dt)%Z.
    - rewrite (cache_key_hour location_id _ _ Hhour).
      now apply get_after_set.
    - unfold Cache.advance, Cache.set_cache. cbn.
      now destruct (Cache.redis_setex _ _ _ _ _). }
  rewrite (predict_hit _ _ _ _ _ _ _ _ _ Hm Hget). now rewrite Hcons.
Qed.

Lemma cached_forecast_is_returned_within_ttl_witness :
  let first := MLService.predict_congestion_xgboost Samples.service "X"
                 Samples.observation [1]%Z None (Samples.world_at 300) in
  let w' := Cache.advance 1500 (snd first) in
  (forall t t', Datetime.hour_bucket t = Datetime.hour_bucket t' ->
     MLService.cache_key "X" t = MLService.cache_key "X" t')
  /\ exists predictions,
       fst first = inr predictions
       /\ MLService.predict_congestion_xgboost Samples.service "X"
            ∅ [3]%Z (Some Samples.window24) w'
          = (inr predictions, w').
Proof.
  cbv zeta. split; [apply cache_key_hour |].
  eexists. split; [vm_compute; reflexivity |].
  apply (cached_forecast_is_returned_within_ttl Samples.service
           Samples.hour_booster "X" Samples.observation ∅ [1]%Z [3]%Z
           None (Some Samples.window24) (Samples.world_at 300) 1500);
    solve [vm_compute; reflexivity | discriminate | lia].
Defined.

(** ** Calls that overlap on the event loop *)

(** A call resumed three times with nothing running in between behaves as
    [predict_congestion_xgboost] does. *)
Lemma run_alone (c : Async.call) (w : MLService.World) :
  let s := Async.run [Async.Run 0; Async.Run 0; Async.Run 0]%nat (Async.start w [c]) in
  Async.tasks s
  = [Async.Finished
       (fst (MLService.predict_congestion_xgboost (Async.self c)
               (Async.location_id c) (Async.current_data c) (Async.hours c)
               (Async.historical_data c) w))]
  /\ Async.world s
     = snd (MLService.predict_congestion_xgboost (Async.self c)
              (Async.location_id c) (Async.current_data c) (Async.hours c)
              (Async.historical_data c) w).
Proof.
  unfold MLService.predict_congestion_xgboost. cbn.
  destruct (MLService.xgboost_model (Async.self c)) as [booster |]; cbn;
    [| split; reflexivity].
  destruct (Cache.get_cache _ w) as [[| p cached] |]; cbn;
    try (destruct (MLService.truthy _); cbn); split; reflexivity.
Qed.

(** C2, the claim as stated fails: two calls with the same arguments for
    location "X" in the same hour, both suspended in [get_cache] before
    either has stored its result.  The forecast loop runs twice, and the
    two callers receive lists that differ (the clock moved by one second
    between the two runs). *)
Lemma overlapping_calls_compute_twice :
  let s := Async.run
             [Async.Run 0; Async.Run 1; Async.Run 0; Async.Tick 1;
              Async.Run 1; Async.Run 0; Async.Run 1]%nat
             (Async.start (Samples.world_at 0) [Samples.call_a; Samples.call_a]) in
  Datetime.hour_bucket 0 = Datetime.hour_bucket 1
  /\ Async.ensemble_runs s = 2%nat
  /\ exists r1 r2,
       Async.tasks s = [Async.Finished (inr r1); Async.Finished (inr r2)]
       /\ List.map MLService.target_time r1 = [3600%Z]
       /\ List.map MLService.target_time r2 = [3601%Z].
Proof.
  cbv zeta. split; [reflexivity |]. split; [vm_compute; reflexivity |].
  eexists. eexists. split; [vm_compute; reflexivity |].
  split; reflexivity.
Qed.

(** C2, amended: when the second call for a location starts after the
    first one has returned, less than 1800 seconds later and in the same
    hour, with the cache reachable and holding nothing under the key
    before the first call, and the first forecast is not empty, the
    forecast loop runs exactly once and both callers receive the same
    list. *)
Theorem sequential_calls_compute_once
    (a b : Async.call) (booster_a booster_b : MLService.Booster)
    (w : MLService.World) (dt : Z) :
  MLService.xgboost_model (Async.self a) = Some booster_a ->
  MLService.xgboost_model (Async.self b) = Some booster_b ->
  Async.location_id a = Async.location_id b ->
  Cache.available w = true ->
  default [] (Cache.get_cache
                (MLService.cache_key (Async.location_id a) (Cache.clock w)) w) = [] ->
  (0 <= dt < 1800)%Z ->
  Datetime.hour_bucket (Cache.clock w + dt) = Datetime.hour_bucket (Cache.clock w) ->
  let predictions :=
    MLService.forecast_loop (Async.self a) booster_a (Async.current_data a)
      (Async.historical_data a) (Cache.clock w) (Async.hours a) [] in
  predictions <> [] ->
  let s := Async.run
             [Async.Run 0; Async.Run 0; Async.Run 0; Async.Tick dt;
              Async.Run 1; Async.Run 1]%nat
             (Async.start w [a; b]) in
  Async.ensemble_runs s = 1%nat
  /\ Async.tasks s
     = [Async.Finished (inr predictions); Async.Finished (inr predictions)].
Proof.
  intros Ha Hb Hloc Hup Hmiss Hdt Hhour predictions Hne s.
  destruct (truthy_cons predictions Hne) as (p & rest & Hcons).
  assert (Hget :
    Cache.get_cache
      (MLService.cache_key (Async.location_id b) (Cache.clock w + dt))
      (Cache.advance dt
         (snd (Cache.set_cache
                 (MLService.cache_key (Async.location_id a) (Cache.clock w))
                 predictions (Some 1800%Z) w)))
    = Some (p :: rest)).
  { rewrite <- Hcons, <- Hloc.
    rewrite (cache_key_hour (Async.location_id a) _ _ Hhour).
    now apply get_after_set. }
  assert (Hclock : forall v : list MLService.Prediction,
    Cache.clock (snd (Cache.set_cache
                        (MLService.cache_key (Async.location_id a) (Cache.clock w))
                        v (Some 1800%Z) w)) = Cache.clock w).
  { intros v. unfold Cache.set_cache.
    now destruct (Py.bind _ _). }
  subst s. subst predictions. rewrite Hcons in *.
  cbn. rewrite Ha. cbn.
  destruct (Cache.get_cache _ w) as [[| q l] |]; cbn in Hmiss; try discriminate;
    rewrite Hcons; cbn; rewrite Hb; cbn;
    rewrite Hclock, Hget; cbn; split; reflexivity.
Qed.

Lemma sequential_calls_compute_once_witness :
  let predictions :=
    MLService.forecast_loop Samples.service Samples.hour_booster
      Samples.observation None 300 [1]%Z [] in
  let s := Async.run
             [Async.Run 0; Async.Run 0; Async.Run 0; Async.Tick 900;
              Async.Run 1; Async.Run 1]%nat
             (Async.start (Samples.world_at 300) [Samples.call_a; Samples.call_b]) in
  Async.ensemble_runs s = 1%nat
  /\ Async.tasks s
     = [Async.Finished (inr predictions); Async.Finished (inr predictions)].
Proof.
  cbv zeta.
  apply (sequential_calls_compute_once Samples.call_a Samples.call_b
           Samples.hour_booster Samples.hour_booster (Samples.world_at 300) 900);
    solve [vm_compute; reflexivity | vm_compute; discriminate | lia].
Defined.

(** * Further properties of the code *)

(** ** cache.py: entries, expiry, deletion *)

Section CacheEntries.

Context {V : Type} {json : Cache.Json V}.

Lemma available_client (w : Cache.World V) :
  Cache.available w = true ->
  exists r, Cache.redis_client w = Some r /\ Cache.reachable r = true.
Proof.
  unfold Cache.available. destruct (Cache.redis_client w) as [r |]; [| discriminate].
  intros H. now exists r.
Qed.

(** What [get_cache] reads from a reachable server. *)
Lemma get_cache_reachable (key : string) (w : Cache.World V) (r : Cache.Redis V) :
  Cache.redis_client w = Some r -> Cache.reachable r = true ->
  Cache.get_cache key w
  = match Cache.db r !! key with
    | Some (expiry, v) => if (Cache.clock w <=? expiry)%Z then Some v else None
    | None => None
    end.
Proof.
  intros Hc Hr. unfold Cache.get_cache, Cache.redis_get. rewrite Hc, Hr.
  destruct (Cache.db r !! key) as [[expiry v] |]; [| reflexivity].
  now destruct (Cache.clock w <=? expiry)%Z.
Qed.



Lemma lookup_foldr_delete (m : gmap string (Z * V)) (keys : list string) (k : string) :
  foldr (fun k m => base.delete k m) m keys !! k
  = if decide (k ∈ keys) then None else m !! k.
Proof.
  induction keys as [| k' keys IH]; cbn.
  - rewrite decide_False; [reflexivity | apply not_elem_of_nil].
  - destruct (decide (k' = k)) as [-> | Hne].
    + rewrite lookup_delete_eq, decide_True; [reflexivity | left].
    + rewrite lookup_delete_ne by exact Hne. rewrite IH.
      destruct (decide (k ∈ keys)) as [Hin | Hout].
      * rewrite decide_True; [reflexivity | now right].
      * rewrite decide_False; [reflexivity |].
        intros [Heq | Hin]%elem_of_cons; [congruence | tauto].
Qed.

End CacheEntries.



Lemma set_cache_clock {V : Type} {json : Cache.Json V}
    (key : string) (v : V) (ttl : option Z) (w : Cache.World V) :
  Cache.clock (snd (Cache.set_cache key v ttl w)) = Cache.clock w.
Proof. unfold Cache.set_cache. now destruct (Py.bind _ _). Qed.

(** What is read under another key, at any instant [t], from the server
    [set_cache] leaves. *)
Lemma set_cache_other_key {V : Type} {json : Cache.Json V}
    (key key' : string) (v : V) (ttl : option Z) (w : Cache.World V) (t : Z) :
  key <> key' ->
  Cache.get_cache key'
    {| Cache.clock := t;
       Cache.redis_client := Cache.redis_client (snd (Cache.set_cache key v ttl w)) |}
  = Cache.get_cache key'
      {| Cache.clock := t; Cache.redis_client := Cache.redis_client w |}.
Proof.
  intros Hne. unfold Cache.set_cache, Cache.json_dumps, Cache.redis_setex.
  destruct (Cache.serialisable v); [| reflexivity]. cbn [Py.bind Py.ret].
  destruct (Cache.redis_client w) as [r |] eqn:Hc; cbn; [| now rewrite ?Hc].
  destruct (Cache.reachable r) eqn:Hr; cbn; [| now rewrite ?Hc].
  match goal with |- context [(0 <? ?t)%Z] => destruct (0 <? t)%Z end;
    cbn; [| now rewrite ?Hc].
  unfold Cache.get_cache, Cache.redis_get. cbn.
  rewrite ?Hc, ?Hr. cbn. rewrite ?Hr. now rewrite lookup_insert_ne by exact Hne.
Qed.

(** X2: [set_cache] on one key leaves what [get_cache] reads under every
    other key as it was, whether the call succeeds or not. *)
Theorem set_cache_leaves_other_keys {V : Type} {json : Cache.Json V}
    (key key' : string) (v : V) (ttl : option Z) (w : Cache.World V) (dt : Z) :
  key <> key' ->
  Cache.get_cache key' (Cache.advance dt (snd (Cache.set_cache key v ttl w)))
  = Cache.get_cache key' (Cache.advance dt w).
Proof.
  intros Hne. unfold Cache.advance.
  rewrite set_cache_clock.
  apply set_cache_other_key, Hne.
Qed.

Lemma set_cache_leaves_other_keys_witness :
  Cache.get_cache "ai:a"
    (Cache.advance 5 (snd (Cache.set_cache "ai:c" 7%Z None MoreSamples.three_keys)))
  = Cache.get_cache "ai:a" (Cache.advance 5 MoreSamples.three_keys).
Proof.
  apply (set_cache_leaves_other_keys "ai:c" "ai:a" 7%Z None MoreSamples.three_keys 5).
  discriminate.
Defined.

(** X3: on a reachable server [delete_cache] returns [True], also for a key
    that holds nothing; afterwards [get_cache] finds nothing under the key
    and reads every other key as before.  With the cache unavailable it
    returns [False] and changes nothing. *)
Theorem delete_cache_removes_the_entry {V : Type}
    (key : string) (w : Cache.World V) :
  if Cache.available w then
    fst (Cache.delete_cache key w) = true
    /\ Cache.get_cache key (snd (Cache.delete_cache key w)) = None
    /\ forall key', key' <> key ->
         Cache.get_cache key' (snd (Cache.delete_cache key w))
         = Cache.get_cache key' w
  else Cache.delete_cache key w = (false, w).
Proof.
  unfold Cache.available, Cache.delete_cache, Cache.redis_delete.
  destruct (Cache.redis_client w) as [r |] eqn:Hc; [| reflexivity].
  destruct (Cache.reachable r) eqn:Hr; [| reflexivity].
  cbn. split; [reflexivity |]. split.
  - erewrite get_cache_reachable; [| reflexivity | reflexivity].
    cbn. now rewrite lookup_delete_eq.
  - intros key' Hne.
    erewrite get_cache_reachable; [| reflexivity | reflexivity].
    rewrite (get_cache_reachable key' w r Hc Hr).
    cbn. now rewrite lookup_delete_ne by congruence.
Qed.

Section ClearPattern.

Context {V : Type} (glob : string -> string -> bool).

Lemma get_cache_live (key : string) (w : Cache.World V) (r : Cache.Redis V) :
  Cache.redis_client w = Some r -> Cache.reachable r = true ->
  (is_Some (Cache.get_cache key w) <-> Cache.live (Cache.clock w) r key = true)
  /\ (Cache.live (Cache.clock w) r key = false -> Cache.get_cache key w = None).
Proof.
  intros Hc Hr. rewrite (get_cache_reachable key w r Hc Hr). unfold Cache.live.
  destruct (Cache.db r !! key) as [[expiry v] |].
  - destruct (Cache.clock w <=? expiry)%Z.
    + split; [split; [reflexivity | intros _; now eexists] | discriminate].
    + split; [split; [intros [x Hx]; discriminate | discriminate] | reflexivity].
  - split; [split; [intros [x Hx]; discriminate | discriminate] | reflexivity].
Qed.

Lemma redis_keys_spec (w : Cache.World V) (r : Cache.Redis V) (pattern key : string) :
  Cache.redis_client w = Some r -> Cache.reachable r = true ->
  exists keys,
    Cache.redis_keys glob (Cache.redis_client w) pattern (Cache.clock w) = inr keys
    /\ (key ∈ keys <->
        glob pattern key = true /\ Cache.live (Cache.clock w) r key = true)
    /\ List.filter (Cache.live (Cache.clock w) r) keys = keys.
Proof.
  intros Hc Hr. unfold Cache.redis_keys. rewrite Hc, Hr. eexists.
  split; [reflexivity |]. split.
  - rewrite list_elem_of_In, List.filter_In, <- list_elem_of_In.
    rewrite andb_true_iff. split; [tauto |]. intros [Hg Hl]. split; [| tauto].
    unfold Cache.live in Hl.
    destruct (Cache.db r !! key) as [[expiry v] |] eqn:Hk; [| discriminate].
    apply list_elem_of_fmap. exists (key, (expiry, v)).
    split; [reflexivity | now apply elem_of_map_to_list].
  - induction (fst <$> map_to_list (Cache.db r)) as [| k l IH]; cbn; [reflexivity |].
    destruct (glob pattern k); cbn; [| exact IH].
    destruct (Cache.live (Cache.clock w) r k) eqn:Hl; cbn; [| exact IH].
    rewrite Hl. now rewrite IH.
Qed.

(** X4: on a reachable server [clear_pattern] deletes exactly the live keys
    the pattern matches: afterwards [get_cache] finds nothing under any
    matching key and reads every other key as before, and the number
    returned is the number of matching keys that held a live entry.  With
    the cache unavailable it returns 0 and changes nothing. *)
Theorem clear_pattern_deletes_the_matching_keys
    (pattern : string) (w : Cache.World V) :
  let result := Cache.clear_pattern glob pattern w in
  if Cache.available w then
    (forall key, glob pattern key = true ->
       Cache.get_cache key (snd result) = None)
    /\ (forall key, glob pattern key = false ->
          Cache.get_cache key (snd result) = Cache.get_cache key w)
    /\ exists keys,
         Cache.redis_keys glob (Cache.redis_client w) pattern (Cache.clock w)
         = inr keys
         /\ fst result = Z.of_nat (length keys)
         /\ forall key, key ∈ keys <->
              glob pattern key = true /\ is_Some (Cache.get_cache key w)
  else result = (0%Z, w).
Proof.
  cbv zeta. destruct (Cache.available w) eqn:Hup.
  - destruct (available_client w Hup) as (r & Hc & Hr).
    assert (Hafter : forall key,
      Cache.get_cache key (snd (Cache.clear_pattern glob pattern w))
      = if decide (glob pattern key = true
                   /\ Cache.live (Cache.clock w) r key = true)
        then None else Cache.get_cache key w).
    { intros key.
      destruct (redis_keys_spec w r pattern key Hc Hr) as (keys & Hkeys & Hmem & _).
      unfold Cache.clear_pattern. rewrite Hkeys. cbn [Py.bind].
      destruct keys as [| k0 keys'].
      - cbn. rewrite decide_False; [reflexivity |].
        rewrite <- Hmem. apply not_elem_of_nil.
      - unfold Cache.redis_delete. rewrite Hc, Hr. cbn.
        erewrite get_cache_reachable; [| reflexivity | reflexivity].
        rewrite (get_cache_reachable key w r Hc Hr). cbn.
        pose proof (lookup_foldr_delete (Cache.db r) (k0 :: keys') key) as Hl.
        cbn in Hl. rewrite Hl.
        destruct (decide (key ∈ k0 :: keys')) as [Hin | Hout].
        + rewrite decide_True; [reflexivity | now apply Hmem].
        + rewrite decide_False; [reflexivity | now rewrite <- Hmem]. }
    split; [| split].
    + intros key Hg. rewrite Hafter.
      destruct (decide _) as [_ | Hno]; [reflexivity |].
      apply (get_cache_live key w r Hc Hr).
      destruct (Cache.live (Cache.clock w) r key); [tauto | reflexivity].
    + intros key Hg. rewrite Hafter, decide_False; [reflexivity |].
      rewrite Hg. intros [? _]. discriminate.
    + destruct (redis_keys_spec w r pattern pattern Hc Hr) as (keys & Hkeys & _ & Hall).
      exists keys. split; [exact Hkeys |]. split.
      * unfold Cache.clear_pattern. rewrite Hkeys. cbn [Py.bind].
        destruct keys as [| k0 keys']; [reflexivity |].
        unfold Cache.redis_delete. rewrite Hc, Hr. cbn [Py.bind Py.ret fst snd].
        now rewrite Hall.
      * intros key.
        destruct (redis_keys_spec w r pattern key Hc Hr) as (keys' & Hkeys' & Hmem & _).
        rewrite Hkeys in Hkeys'. injection Hkeys' as <-.
        rewrite Hmem. now rewrite (proj1 (get_cache_live key w r Hc Hr)).
  - unfold Cache.available in Hup. unfold Cache.clear_pattern, Cache.redis_keys.
    destruct (Cache.redis_client w) as [r |]; [| reflexivity].
    now rewrite Hup.
Qed.

End ClearPattern.

(** ** ml_service.py: the feature row *)

Section FeatureRow.

Import MLService.

Lemma get_insert_eq (d : pydict) (key : string) (v dflt : pyval) :
  get (<[key := v]> d) key dflt = v.
Proof. unfold get. now rewrite lookup_insert_eq. Qed.

Lemma get_insert_ne (d : pydict) (key key' : string) (v dflt : pyval) :
  key <> key' -> get (<[key := v]> d) key' dflt = get d key' dflt.
Proof. intros H. unfold get. now rewrite lookup_insert_ne. Qed.

(** The four lag values, read off the window or the observation. *)
Lemma lag_features_values (data : pydict) (hist : option (list pydict))
    (features : pydict) :
  let df := default [] hist in
  let l1 := match last df with
            | Some row => get row "congestion_level" (int 2)
            | None => get data "congestion_level" (int 2)
            end in
  let l3 := match (if (3 <=? length df)%nat then df !! (length df - 3)%nat else None) with
            | Some row => get row "congestion_level" (int 2)
            | None => int 2
            end in
  let l24 := match (if (24 <=? length df)%nat then df !! (length df - 24)%nat else None) with
             | Some row => get row "congestion_level" (int 2)
             | None => int 2
             end in
  let s1 := match last df with
            | Some row => get row "average_speed" (VNum 40)
            | None => get data "average_speed" (VNum 40)
            end in
  lag_features data hist features
  = inr (<["speed_lag_1h" := s1]>
        (<["congestion_lag_24h" := l24]>
        (<["congestion_lag_3h" := l3]>
        (<["congestion_lag_1h" := l1]> features)))).
Proof.
  cbv zeta. unfold lag_features. destruct hist as [df |]; [| reflexivity].
  cbn [from_option]. unfold id. destruct df as [| r0 df']; [reflexivity |].
  set (df := r0 :: df').
  assert (Hlen : (1 <= length df)%nat) by (cbn; lia).
  assert (Hpos : (0 <? length df)%nat = true) by (apply Nat.ltb_lt; lia).
  rewrite Hpos.
  destruct (iloc_from_end_returns df 1) as (lastrow & Hlast & ->); [lia |].
  assert (Hl : last df = Some lastrow).
  { rewrite last_lookup. rewrite <- Hlast. f_equal. lia. }
  rewrite Hl. cbn [Py.bind].
  destruct (3 <=? length df)%nat eqn:H3.
  - apply Nat.leb_le in H3.
    destruct (iloc_from_end_returns df 3) as (r3 & Hr3 & ->); [lia |].
    rewrite Hr3. cbn [Py.bind Py.ret].
    destruct (24 <=? length df)%nat eqn:H24.
    + apply Nat.leb_le in H24.
      destruct (iloc_from_end_returns df 24) as (r24 & Hr24 & ->); [lia |].
      rewrite Hr24. reflexivity.
    + reflexivity.
  - apply Nat.leb_gt in H3.
    assert (H24 : (24 <=? length df)%nat = false) by (apply Nat.leb_gt; lia).
    rewrite H24. reflexivity.
Qed.

(** The row [prepare_features] returns for an observation whose timestamp
    is the datetime [t]. *)
Lemma prepare_features_row (self : MLService) (data : pydict)
    (hist : option (list pydict)) (now t : Z) :
  feature_columns self = Some loaded_feature_columns ->
  get data "timestamp" (VTime now) = VTime t ->
  exists l1 l3 l24 s1,
    lag_features data hist ∅
    = inr (<["speed_lag_1h" := s1]> (<["congestion_lag_24h" := l24]>
          (<["congestion_lag_3h" := l3]> (<["congestion_lag_1h" := l1]> ∅))))
    /\ prepare_features self data hist now
       = inr [int (Datetime.hour t);
              int (Datetime.weekday t);
              int (if (5 <=? Datetime.weekday t)%Z then 1 else 0);
              get data "is_holiday" (int 0);
              get data "temperature" (VNum 20);
              get data "precipitation" (VNum 0);
              get data "visibility" (VNum 10);
              get data "vehicle_count" (int 100);
              get data "average_speed" (VNum 40);
              get data "incident_reported" (int 0);
              get data "event_nearby" (int 0);
              l1; l3; l24; s1].
Proof.
  intros Hcols Ht.
  pose proof (lag_features_values data hist ∅) as Hempty. cbv zeta in Hempty.
  do 4 eexists. split; [exact Hempty |].
  unfold prepare_features, features_dict.
  rewrite Ht. cbn [attr_hour attr_weekday Py.bind Py.ret].
  match goal with
  | |- context [lag_features data hist ?f] =>
      pose proof (lag_features_values data hist f) as Hf
  end.
  cbv zeta in Hf. rewrite Hf. cbn [Py.bind]. rewrite Hcols.
  apply collect_schema.
Qed.

End FeatureRow.

(** X5: the lag features of [prepare_features].  With a non-empty window,
    [congestion_lag_1h] and [speed_lag_1h] are the congestion level and the
    average speed of the last row (2 and 40.0 when the row lacks the
    column) and [congestion_lag_3h] is the congestion level of the third
    row from the end, or 2 when the window has fewer than 3 rows.  With no
    window, or an empty one, the 1h lags are the observation's own
    congestion level and average speed (defaults 2 and 40.0) and the 3h lag
    is 2. *)
Theorem short_lags_read_the_window_from_its_end
    (data : MLService.pydict) (historical_data : option (list MLService.pydict))
    (features : MLService.pydict) :
  exists features',
    MLService.lag_features data historical_data features = inr features'
    /\ match last (default [] historical_data) with
       | Some row =>
           features' !! "congestion_lag_1h"
           = Some (MLService.get row "congestion_level" (MLService.int 2))
           /\ features' !! "speed_lag_1h"
              = Some (MLService.get row "average_speed" (MLService.VNum 40))
       | None =>
           features' !! "congestion_lag_1h"
           = Some (MLService.get data "congestion_level" (MLService.int 2))
           /\ features' !! "speed_lag_1h"
              = Some (MLService.get data "average_speed" (MLService.VNum 40))
       end
    /\ ((length (default [] historical_data) < 3)%nat ->
        features' !! "congestion_lag_3h" = Some (MLService.int 2))
    /\ ((3 <= length (default [] historical_data))%nat ->
        exists row,
          default [] historical_data
            !! (length (default [] historical_data) - 3)%nat = Some row
          /\ features' !! "congestion_lag_3h"
             = Some (MLService.get row "congestion_level" (MLService.int 2))).
Proof.
  pose proof (lag_features_values data historical_data features) as H.
  cbv zeta in H. rewrite H. clear H. eexists. split; [reflexivity |].
  set (df := default [] historical_data).
  assert (H1 : forall (m : MLService.pydict) a b c d,
            (<["speed_lag_1h" := a]> (<["congestion_lag_24h" := b]>
             (<["congestion_lag_3h" := c]> (<["congestion_lag_1h" := d]> m))))
              !! "congestion_lag_1h" = Some d).
  { intros. rewrite !lookup_insert_ne by discriminate. apply lookup_insert_eq. }
  assert (H3 : forall (m : MLService.pydict) a b c,
            (<["speed_lag_1h" := a]> (<["congestion_lag_24h" := b]>
             (<["congestion_lag_3h" := c]> m))) !! "congestion_lag_3h" = Some c).
  { intros. rewrite !lookup_insert_ne by discriminate. apply lookup_insert_eq. }
  rewrite H1, H3, lookup_insert_eq.
  split; [now destruct (last df) |]. split.
  - intros Hlt. assert (E : (3 <=? length df)%nat = false) by (apply Nat.leb_gt; lia).
    now rewrite E.
  - intros Hge. assert (E : (3 <=? length df)%nat = true) by (apply Nat.leb_le; lia).
    rewrite E.
    destruct (lookup_lt_is_Some_2 df (length df - 3)%nat) as [row Hrow]; [lia |].
    exists row. split; [exact Hrow |]. now rewrite Hrow.
Qed.

(** X6: in the row [prepare_features] returns, the first three entries
    are read off the observation's timestamp [t] (the clock reading when the
    observation carries none): the hour of day of [t], within 0..23, the day
    of the week of [t], within 0..6 with Monday as 0, and the weekend flag,
    which is 1 exactly when that day is 5 or 6 and 0 otherwise; this also
    holds for instants before 1970. *)
Theorem time_features_are_in_range
    (self : MLService.MLService) (data : MLService.pydict)
    (historical_data : option (list MLService.pydict)) (now t : Z) :
  MLService.feature_columns self = Some MLService.loaded_feature_columns ->
  MLService.get data "timestamp" (MLService.VTime now) = MLService.VTime t ->
  (data !! "timestamp" = None -> t = now)
  /\ exists row weekend,
       MLService.prepare_features self data historical_data now = inr row
       /\ row !! 0%nat = Some (MLService.int (Datetime.hour t))
       /\ row !! 1%nat = Some (MLService.int (Datetime.weekday t))
       /\ row !! 2%nat = Some (MLService.int weekend)
       /\ Datetime.hour t = ((t mod 86400) / 3600)%Z
       /\ (0 <= Datetime.hour t <= 23)%Z
       /\ Datetime.weekday (t + 86400) = ((Datetime.weekday t + 1) mod 7)%Z
       /\ (0 <= Datetime.weekday t <= 6)%Z
       /\ (weekend = 1%Z <-> Datetime.weekday t = 5%Z \/ Datetime.weekday t = 6%Z)
       /\ (weekend = 0%Z <-> (Datetime.weekday t <= 4)%Z).
Proof.
  intros Hcols Ht. split.
  { intros Hnone. unfold MLService.get in Ht. rewrite Hnone in Ht.
    cbn in Ht. now injection Ht. }
  destruct (prepare_features_row self data historical_data now t Hcols Ht)
    as (l1 & l3 & l24 & s1 & _ & ->).
  eexists. eexists.
  split; [reflexivity |]. split; [reflexivity |].
  split; [reflexivity |]. split; [reflexivity |].
  assert (Hh : (0 <= Datetime.hour t < 24)%Z)
    by (unfold Datetime.hour; apply Z.mod_pos_bound; lia).
  assert (Hw : (0 <= Datetime.weekday t < 7)%Z)
    by (unfold Datetime.weekday; apply Z.mod_pos_bound; lia).
  split.
  { unfold Datetime.hour.
    replace 86400%Z with (3600 * 24)%Z by reflexivity.
    rewrite Z.rem_mul_r by lia.
    rewrite (Z.mul_comm 3600), Z.div_add by lia.
    rewrite (Z.div_small (t mod 3600)) by (apply Z.mod_pos_bound; lia).
    reflexivity. }
  split; [lia |].
  split.
  { unfold Datetime.weekday.
    replace (t + 86400)%Z with (t + 1 * 86400)%Z by lia.
    rewrite Z.div_add by lia.
    replace (t / 86400 + 1 + 3)%Z with (t / 86400 + 3 + 1)%Z by lia.
    rewrite <- (Zplus_mod_idemp_l (t / 86400 + 3)). reflexivity. }
  split; [lia |].
  destruct (5 <=? Datetime.weekday t)%Z eqn:E;
    [apply Z.leb_le in E | apply Z.leb_gt in E]; split; lia.
Qed.

Lemma time_features_are_in_range_witness :
  ((<["timestamp" := MLService.VTime 1730754000]> Samples.observation) !! "timestamp"
   = None -> 1730754000%Z = 0%Z)
  /\ exists row weekend,
       MLService.prepare_features Samples.service
         (<["timestamp" := MLService.VTime 1730754000]> Samples.observation) None 0
       = inr row
       /\ row !! 0%nat = Some (MLService.int (Datetime.hour 1730754000))
       /\ row !! 1%nat = Some (MLService.int (Datetime.weekday 1730754000))
       /\ row !! 2%nat = Some (MLService.int weekend)
       /\ Datetime.hour 1730754000 = ((1730754000 mod 86400) / 3600)%Z
       /\ (0 <= Datetime.hour 1730754000 <= 23)%Z
       /\ Datetime.weekday (1730754000 + 86400)
          = ((Datetime.weekday 1730754000 + 1) mod 7)%Z
       /\ (0 <= Datetime.weekday 1730754000 <= 6)%Z
       /\ (weekend = 1%Z
           <-> Datetime.weekday 1730754000 = 5%Z \/ Datetime.weekday 1730754000 = 6%Z)
       /\ (weekend = 0%Z <-> (Datetime.weekday 1730754000 <= 4)%Z).
Proof.
  apply (time_features_are_in_range Samples.service
           (<["timestamp" := MLService.VTime 1730754000]> Samples.observation)
           None 0 1730754000);
    reflexivity.
Defined.

(** X7: for an observation that holds nothing but its timestamp, and no
    window, every optional feature takes its default: holiday 0,
    temperature 20.0, precipitation 0.0, visibility 10.0, vehicle count 100,
    average speed 40.0, incident 0, event 0, the three congestion lags 2 and
    the speed lag 40.0. *)
Theorem missing_fields_take_their_defaults
    (self : MLService.MLService) (data : MLService.pydict) (now t : Z) :
  MLService.feature_columns self = Some MLService.loaded_feature_columns ->
  MLService.get data "timestamp" (MLService.VTime now) = MLService.VTime t ->
  (forall key, key <> "timestamp" -> data !! key = None) ->
  MLService.prepare_features self data None now
  = inr [MLService.int (Datetime.hour t);
         MLService.int (Datetime.weekday t);
         MLService.int (if (5 <=? Datetime.weekday t)%Z then 1 else 0);
         MLService.int 0; MLService.VNum 20; MLService.VNum 0;
         MLService.VNum 10; MLService.int 100; MLService.VNum 40;
         MLService.int 0; MLService.int 0;
         MLService.int 2; MLService.int 2; MLService.int 2; MLService.VNum 40].
Proof.
  intros Hcols Ht Hnone.
  assert (Hget : forall key dflt, key <> "timestamp" ->
                   MLService.get data key dflt = dflt).
  { intros key dflt Hk. unfold MLService.get. now rewrite (Hnone key Hk). }
  unfold MLService.prepare_features, MLService.features_dict.
  rewrite Ht. cbn [MLService.attr_hour MLService.attr_weekday Py.bind Py.ret].
  match goal with
  | |- context [MLService.lag_features data None ?f] =>
      pose proof (lag_features_values data None f) as Hf
  end.
  cbv zeta in Hf. cbn [from_option last length Nat.leb] in Hf.
  rewrite Hf. cbn [Py.bind]. rewrite Hcols.
  rewrite !Hget by discriminate. apply collect_schema.
Qed.

Lemma missing_fields_take_their_defaults_witness :
  MLService.prepare_features Samples.service
    (<["timestamp" := MLService.VTime 1730754000]> ∅) None 0
  = inr [MLService.int (Datetime.hour 1730754000);
         MLService.int (Datetime.weekday 1730754000);
         MLService.int (if (5 <=? Datetime.weekday 1730754000)%Z then 1 else 0);
         MLService.int 0; MLService.VNum 20; MLService.VNum 0;
         MLService.VNum 10; MLService.int 100; MLService.VNum 40;
         MLService.int 0; MLService.int 0;
         MLService.int 2; MLService.int 2; MLService.int 2; MLService.VNum 40].
Proof.
  apply (missing_fields_take_their_defaults Samples.service
           (<["timestamp" := MLService.VTime 1730754000]> ∅) 0 1730754000);
    [reflexivity | reflexivity |].
  intros key Hkey. rewrite lookup_insert_ne by congruence. apply lookup_empty.
Defined.

(** ** ml_service.py: the forecast *)

Section ForecastFacts.

Import MLService.

Lemma forecast_loop_ext (self : MLService) (booster : Booster)
    (data data' : pydict) (hist : option (list pydict)) (now : Z)
    (hours : list Z) (acc : list Prediction) :
  (forall h, predict_horizon self booster data hist now h
             = predict_horizon self booster data' hist now h) ->
  forecast_loop self booster data hist now hours acc
  = forecast_loop self booster data' hist now hours acc.
Proof.
  intros Hext. revert acc.
  induction hours as [| h rest IH]; intros acc; cbn; [reflexivity |].
  rewrite Hext. destruct (predict_horizon _ _ data' _ _ h); apply IH.
Qed.

Lemma lag_features_ignores_timestamp (data : pydict) (v : pyval)
    (hist : option (list pydict)) (features : pydict) :
  lag_features (<["timestamp" := v]> data) hist features
  = lag_features data hist features.
Proof.
  pose proof (lag_features_values (<["timestamp" := v]> data) hist features) as H1.
  pose proof (lag_features_values data hist features) as H2.
  cbv zeta in H1, H2. rewrite H1, H2.
  now rewrite !get_insert_ne by discriminate.
Qed.

(** The features of an observation stamped [t] depend on [t] through its
    hour and its weekday only, and not on the clock. *)
Lemma features_depend_on_hour_and_weekday (data : pydict)
    (hist : option (list pydict)) (now now' t t' : Z) :
  Datetime.hour t = Datetime.hour t' ->
  Datetime.weekday t = Datetime.weekday t' ->
  features_dict (<["timestamp" := VTime t]> data) hist now
  = features_dict (<["timestamp" := VTime t']> data) hist now'.
Proof.
  intros Hh Hw. unfold features_dict.
  rewrite !get_insert_eq. cbn [attr_hour attr_weekday Py.bind Py.ret].
  rewrite !lag_features_ignores_timestamp.
  rewrite !get_insert_ne by discriminate. now rewrite Hh, Hw.
Qed.

Lemma hour_weeks_later (t k : Z) :
  Datetime.hour (t + 604800 * k) = Datetime.hour t.
Proof.
  unfold Datetime.hour.
  replace (t + 604800 * k)%Z with (t + (168 * k) * 3600)%Z by lia.
  rewrite Z.div_add by lia.
  replace (t / 3600 + 168 * k)%Z with (t / 3600 + (7 * k) * 24)%Z by lia.
  apply Z.mod_add. lia.
Qed.

Lemma weekday_weeks_later (t k : Z) :
  Datetime.weekday (t + 604800 * k) = Datetime.weekday t.
Proof.
  unfold Datetime.weekday.
  replace (t + 604800 * k)%Z with (t + (7 * k) * 86400)%Z by lia.
  rewrite Z.div_add by lia.
  replace (t / 86400 + 7 * k + 3)%Z with (t / 86400 + 3 + k * 7)%Z by lia.
  apply Z.mod_add. lia.
Qed.

(** A target time past [datetime.max] is not computed. *)
Lemma plus_hours_overflow (now h : Z) :
  (Datetime.datetime_max < now + 3600 * h)%Z ->
  exists msg, Datetime.plus_hours now h = inl (Py.OverflowError msg).
Proof.
  intros Hlate.
  unfold Datetime.plus_hours, Datetime.timedelta, Datetime.add,
    Datetime.timedelta_hours.
  destruct (Z.abs (h / 24) <=? 999999999)%Z; [| eexists; reflexivity].
  cbn [Py.bind Py.ret].
  rewrite (proj2 (Z.leb_gt (now + 3600 * h) Datetime.datetime_max)) by lia.
  rewrite andb_false_r. eexists. reflexivity.
Qed.

Lemma round_half_even_close (x : Q) :
  - (1 # 2) <= inject_Z (Py.round_half_even x) - x
  /\ inject_Z (Py.round_half_even x) - x <= 1 # 2.
Proof.
  unfold Py.round_half_even.
  pose proof (Qfloor_le x) as Hlo. pose proof (Qlt_floor x) as Hhi.
  rewrite inject_Z_plus in Hhi. change (inject_Z 1) with 1 in Hhi.
  destruct (Qcompare (x - inject_Z (Qfloor x)) (1 # 2)) eqn:E.
  - apply Qeq_alt in E.
    destruct (Z.even (Qfloor x));
      [| rewrite inject_Z_plus; change (inject_Z 1) with 1]; split; lra.
  - apply Qlt_alt in E. split; lra.
  - apply Qgt_alt in E. rewrite inject_Z_plus. change (inject_Z 1) with 1.
    split; lra.
Qed.

Lemma round2_close (x : Q) :
  - (1 # 200) <= Py.round2 x - x /\ Py.round2 x - x <= 1 # 200.
Proof.
  unfold Py.round2.
  destruct (round_half_even_close (x * 100)) as [Hlo Hhi].
  set (r := inject_Z (Py.round_half_even (x * 100))) in *.
  assert (E : r / 100 == r * (1 # 100)) by (field).
  rewrite E. split; lra.
Qed.

End ForecastFacts.

(** X8: the forecast does not depend on the timestamp the observation
    carries: each horizon overwrites it with its own target time. *)
Theorem forecast_ignores_observation_timestamp
    (self : MLService.MLService) (location_id : string)
    (current_data : MLService.pydict) (v : MLService.pyval) (hours : list Z)
    (historical_data : option (list MLService.pydict)) (w : MLService.World) :
  MLService.predict_congestion_xgboost self location_id
    (<["timestamp" := v]> current_data) hours historical_data w
  = MLService.predict_congestion_xgboost self location_id
      current_data hours historical_data w.
Proof.
  unfold MLService.predict_congestion_xgboost.
  destruct (MLService.xgboost_model self) as [booster |]; [| reflexivity].
  rewrite (forecast_loop_ext self booster (<["timestamp" := v]> current_data)
             current_data); [reflexivity |].
  intros h. unfold MLService.predict_horizon.
  destruct (Datetime.plus_hours (Cache.clock w) h) as [e | t]; [reflexivity |].
  cbn [Py.bind]. now rewrite insert_insert_eq.
Qed.

(** X9: the prediction of a horizon depends on its target time through
    the hour of day and the weekday only, and these repeat every week.  Two
    horizons, each with its own clock reading, whose target times are
    datetimes with the same hour of day and the same weekday either both
    raise the same exception or both return, with the same predicted
    congestion and congestion level.  A horizon whose target time would lie
    past [datetime.max] raises [OverflowError] instead. *)
Theorem forecast_repeats_after_a_week
    (self : MLService.MLService) (booster : MLService.Booster)
    (current_data : MLService.pydict)
    (historical_data : option (list MLService.pydict))
    (now now' h h' t t' : Z) :
  Datetime.plus_hours now h = inr t ->
  Datetime.plus_hours now' h' = inr t' ->
  Datetime.hour t' = Datetime.hour t ->
  Datetime.weekday t' = Datetime.weekday t ->
  (forall k, Datetime.hour (t + 604800 * k) = Datetime.hour t
             /\ Datetime.weekday (t + 604800 * k) = Datetime.weekday t)
  /\ match MLService.predict_horizon self booster current_data historical_data now h,
           MLService.predict_horizon self booster current_data historical_data now' h'
     with
     | inr p, inr p' =>
         MLService.predicted_congestion p' = MLService.predicted_congestion p
         /\ MLService.congestion_level p' = MLService.congestion_level p
         /\ MLService.target_time p = t
         /\ MLService.target_time p' = t'
     | inl e, inl e' => e = e'
     | _, _ => False
     end
  /\ (forall clock late,
        (Datetime.datetime_max < clock + 3600 * late)%Z ->
        exists msg,
          MLService.predict_horizon self booster current_data historical_data
            clock late
          = inl (Py.OverflowError msg)).
Proof.
  intros Ht Ht' Hhour Hweekday.
  split; [intros k; split; [apply hour_weeks_later | apply weekday_weeks_later] |].
  split.
  - unfold MLService.predict_horizon, MLService.prepare_features.
    rewrite Ht, Ht'. cbn [Py.bind].
    rewrite (features_depend_on_hour_and_weekday current_data historical_data
               now' now t' t Hhour Hweekday).
    destruct (MLService.features_dict _ _ _) as [e | features]; cbn [Py.bind];
      [reflexivity |].
    destruct (MLService.feature_columns self) as [cols |]; [| reflexivity].
    destruct (MLService.collect features cols) as [e | row]; cbn [Py.bind];
      [reflexivity |].
    destruct (MLService.dmatrix_predict _ _ _) as [e | y]; cbn; [reflexivity |].
    repeat split; reflexivity.
  - intros clock late Hlate.
    destruct (plus_hours_overflow clock late Hlate) as [msg Hmsg].
    exists msg. unfold MLService.predict_horizon. now rewrite Hmsg.
Qed.

Lemma forecast_repeats_after_a_week_witness :
  (forall k, Datetime.hour (3600 + 604800 * k) = Datetime.hour 3600
             /\ Datetime.weekday (3600 + 604800 * k) = Datetime.weekday 3600)
  /\ match MLService.predict_horizon Samples.service Samples.hour_booster
             Samples.observation None 0 1,
           MLService.predict_horizon Samples.service Samples.hour_booster
             Samples.observation None 1 169
     with
     | inr p, inr p' =>
         MLService.predicted_congestion p' = MLService.predicted_congestion p
         /\ MLService.congestion_level p' = MLService.congestion_level p
         /\ MLService.target_time p = 3600%Z
         /\ MLService.target_time p' = 608401%Z
     | inl e, inl e' => e = e'
     | _, _ => False
     end
  /\ (forall clock late,
        (Datetime.datetime_max < clock + 3600 * late)%Z ->
        exists msg,
          MLService.predict_horizon Samples.service Samples.hour_booster
            Samples.observation None clock late
          = inl (Py.OverflowError msg)).
Proof.
  apply (forecast_repeats_after_a_week Samples.service Samples.hour_booster
           Samples.observation None 0 1 1 169 3600 608401);
    reflexivity.
Defined.

(** X10: when every requested horizon fails (or none is requested), a
    computed forecast is the empty list and nothing is written to the
    cache. *)
Theorem empty_forecast_is_not_cached
    (self : MLService.MLService) (booster : MLService.Booster)
    (location_id : string) (current_data : MLService.pydict) (hours : list Z)
    (historical_data : option (list MLService.pydict)) (w : MLService.World) :
  MLService.xgboost_model self = Some booster ->
  default [] (Cache.get_cache (MLService.cache_key location_id (Cache.clock w)) w) = [] ->
  (forall h, In h hours ->
     Py.returns (MLService.predict_horizon self booster current_data
                   historical_data (Cache.clock w) h) = false) ->
  MLService.predict_congestion_xgboost self location_id current_data hours
    historical_data w
  = (inr [], w).
Proof.
  intros Hm Hmiss Hfail.
  rewrite (predict_miss _ _ _ _ _ _ _ Hm Hmiss). cbv zeta.
  assert (Hnil : MLService.forecast_loop self booster current_data historical_data
                   (Cache.clock w) hours [] = []).
  { pose proof (forecast_loop_horizons self booster current_data historical_data
                  (Cache.clock w) hours) as Hh.
    cbv beta zeta in Hh.
    assert (Hf : List.filter
                   (fun h => Py.returns (MLService.predict_horizon self booster
                                           current_data historical_data
                                           (Cache.clock w) h)) hours = []).
    { clear Hh. induction hours as [| h rest IH]; cbn; [reflexivity |].
      rewrite (Hfail h) by now left. apply IH. intros h' Hin. apply Hfail. now right. }
    rewrite Hf in Hh.
    destruct (MLService.forecast_loop _ _ _ _ _ _ _); [reflexivity | discriminate]. }
  now rewrite Hnil.
Qed.

Lemma empty_forecast_is_not_cached_witness :
  MLService.predict_congestion_xgboost Samples.service "X" Samples.observation
    [6; 30]%Z None (Samples.world_at 0)
  = (inr [], Samples.world_at 0).
Proof.
  apply (empty_forecast_is_not_cached Samples.service Samples.hour_booster "X"
           Samples.observation [6; 30]%Z None (Samples.world_at 0));
    [reflexivity | reflexivity |].
  intros h [<- | [<- | []]]; vm_compute; reflexivity.
Defined.

(** X11: what a returned prediction stores of the booster's output [y]:
    [predicted_congestion] is within 0.005 of [y] and [congestion_level]
    within 0.5 of it. *)
Theorem stored_prediction_is_the_rounded_output
    (self : MLService.MLService) (booster : MLService.Booster)
    (current_data : MLService.pydict)
    (historical_data : option (list MLService.pydict))
    (now h : Z) (p : MLService.Prediction) :
  MLService.predict_horizon self booster current_data historical_data now h = inr p ->
  exists row y,
    MLService.prepare_features self
      (<["timestamp" := MLService.VTime (now + 3600 * h)]> current_data)
      historical_data now = inr row
    /\ MLService.dmatrix_predict booster (MLService.feature_columns self) row = inr y
    /\ (- (1 # 200) <= MLService.predicted_congestion p - y
        /\ MLService.predicted_congestion p - y <= 1 # 200)
    /\ (- (1 # 2) <= inject_Z (MLService.congestion_level p) - y
        /\ inject_Z (MLService.congestion_level p) - y <= 1 # 2).
Proof.
  unfold MLService.predict_horizon.
  destruct (Datetime.plus_hours now h) as [e | t] eqn:Ht; [discriminate |].
  apply plus_hours_returns in Ht as [-> _]. cbn [Py.bind].
  destruct (MLService.prepare_features _ _ _ _) as [e | row] eqn:Hrow;
    [discriminate |].
  cbn [Py.bind].
  destruct (MLService.dmatrix_predict _ _ _) as [e | y] eqn:Hy; [discriminate |].
  cbn [Py.bind Py.ret]. intros [= <-]. exists row, y.
  split; [reflexivity |]. split; [exact Hy |]. cbn.
  split; [apply round2_close | apply round_half_even_close].
Qed.

Lemma stored_prediction_is_the_rounded_output_witness :
  exists p row y,
    MLService.predict_horizon Samples.service Samples.hour_booster
      Samples.observation None 0 1 = inr p
    /\ MLService.prepare_features Samples.service
         (<["timestamp" := MLService.VTime (0 + 3600 * 1)]> Samples.observation)
         None 0 = inr row
    /\ MLService.dmatrix_predict Samples.hour_booster
         (MLService.feature_columns Samples.service) row = inr y
    /\ (- (1 # 200) <= MLService.predicted_congestion p - y
        /\ MLService.predicted_congestion p - y <= 1 # 200)
    /\ (- (1 # 2) <= inject_Z (MLService.congestion_level p) - y
        /\ inject_Z (MLService.congestion_level p) - y <= 1 # 2).
Proof.
  eexists. 
  assert (H := stored_prediction_is_the_rounded_output Samples.service
                 Samples.hour_booster Samples.observation None 0 1 _ eq_refl).
  destruct H as (row & y & H). exists row, y. split; [reflexivity | exact H].
Defined.

(** ** ml_service.py: the cache key *)

Section CacheKey.

Import MLService.

Lemma string_app_length (a b : string) :
  String.length (a +:+ b) = (String.length a + String.length b)%nat.
Proof.
  induction a as [| c a IH]; [reflexivity |].
  change (S (String.length (a +:+ b)) = S (String.length a + String.length b)).
  now rewrite IH.
Qed.

Lemma decimal_length (width : nat) (n : Z) :
  String.length (Datetime.decimal width n) = width.
Proof.
  revert n. induction width as [| w IH]; intros n; cbn [Datetime.decimal];
    [reflexivity |].
  rewrite string_app_length, IH. cbn. lia.
Qed.

Lemma format_hour_length (bucket : Z) :
  String.length (Datetime.format_hour bucket) = 10%nat.
Proof.
  unfold Datetime.format_hour.
  destruct (Datetime.civil_from_days (bucket / 24)) as [[y m] d].
  now rewrite !string_app_length, !decimal_length.
Qed.

(** Two concatenations with tails of the same length agree on their
    heads. *)
Lemma app_same_length_tail (a b c d : string) :
  String.length c = String.length d -> a +:+ c = b +:+ d -> a = b.
Proof.
  revert b. induction a as [| x a IH]; intros [| y b] Hlen Heq.
  - reflexivity.
  - apply (f_equal String.length) in Heq.
    rewrite !string_app_length in Heq. cbn [String.length] in Heq. lia.
  - apply (f_equal String.length) in Heq.
    rewrite !string_app_length in Heq. cbn [String.length] in Heq. lia.
  - change (String x (a +:+ c) = String y (b +:+ d)) in Heq.
    injection Heq as -> Heq. f_equal. now apply IH.
Qed.

Lemma cache_key_location (l1 l2 : string) (t1 t2 : Z) :
  cache_key l1 t1 = cache_key l2 t2 -> l1 = l2.
Proof.
  unfold cache_key, Datetime.strftime_YmdH. intros Heq.
  apply String.app_inj in Heq.
  apply (app_same_length_tail _ _ _ _) in Heq; [exact Heq |].
  rewrite !string_app_length. now rewrite !format_hour_length.
Qed.

End CacheKey.

(** X12: the cache keys of two different locations differ, at whatever
    instants they are built and whatever characters the identifiers hold; so
    a forecast call for one location leaves what the cache returns under
    any key of another location as it was. *)
Theorem forecasts_of_other_locations_are_untouched
    (self : MLService.MLService) (l1 l2 : string)
    (current_data : MLService.pydict) (hours : list Z)
    (historical_data : option (list MLService.pydict))
    (w : MLService.World) (t dt : Z) :
  l1 <> l2 ->
  (forall t1 t2, MLService.cache_key l1 t1 <> MLService.cache_key l2 t2)
  /\ Cache.get_cache (MLService.cache_key l2 t)
       (Cache.advance dt
          (snd (MLService.predict_congestion_xgboost self l1 current_data hours
                  historical_data w)))
     = Cache.get_cache (MLService.cache_key l2 t) (Cache.advance dt w).
Proof.
  intros Hne.
  assert (Hkeys : forall t1 t2, MLService.cache_key l1 t1 <> MLService.cache_key l2 t2).
  { intros t1 t2 Heq. apply Hne. eapply cache_key_location, Heq. }
  split; [exact Hkeys |].
  unfold MLService.predict_congestion_xgboost.
  destruct (MLService.xgboost_model self) as [booster |]; [| reflexivity].
  destruct (Cache.get_cache _ w) as [[| p cached] |]; cbn [snd];
    try reflexivity;
    destruct (MLService.truthy _); cbn [snd]; try reflexivity;
    unfold Cache.advance; rewrite set_cache_clock;
    apply set_cache_other_key, Hkeys.
Qed.

Lemma forecasts_of_other_locations_are_untouched_witness :
  (forall t1 t2, MLService.cache_key "X:1" t1 <> MLService.cache_key "X" t2)
  /\ Cache.get_cache (MLService.cache_key "X" 0)
       (Cache.advance 60
          (snd (MLService.predict_congestion_xgboost Samples.service "X:1"
                  Samples.observation [1]%Z None (Samples.world_at 0))))
     = Cache.get_cache (MLService.cache_key "X" 0)
         (Cache.advance 60 (Samples.world_at 0)).
Proof.
  apply (forecasts_of_other_locations_are_untouched Samples.service "X:1" "X"
           Samples.observation [1]%Z None (Samples.world_at 0) 0 60).
  discriminate.
Defined.

(** ** ml_service.py: the LSTM forecast *)

Section LstmFacts.

Import MLService.

(** The dict built for horizon [h] from the model output [y]. *)
Let lstm_point (now h : Z) (y : Q) : Prediction :=
  {| forecast_hours := h;
     target_time := (now + 3600 * h)%Z;
     predicted_congestion := Py.round2 y;
     congestion_level := Py.round_half_even y;
     confidence := 80 # 100;
     model := "lstm" |}.

(** The horizons in range are a prefix of the request: all of it, or the
    part before the first horizon whose target time is not a datetime. *)
Lemma horizons_in_range_prefix (now : Z) (hours : list Z) :
  exists rest,
    hours = horizons_in_range now hours ++ rest
    /\ Forall (fun h => Datetime.plus_hours now h = inr (now + 3600 * h)%Z)
              (horizons_in_range now hours)
    /\ match rest with
       | [] => True
       | h :: _ => exists e, Datetime.plus_hours now h = inl e
       end.
Proof.
  induction hours as [| h hours IH]; cbn [horizons_in_range].
  - exists []. repeat split. constructor.
  - destruct (Datetime.plus_hours now h) as [e | t] eqn:Ht; cbn [Py.returns].
    + exists (h :: hours). split; [reflexivity |]. split; [constructor |].
      now exists e.
    + destruct IH as (rest & Hrest & Hall & Hstop). exists rest.
      split; [cbn; now rewrite <- Hrest |]. split; [| exact Hstop].
      destruct (plus_hours_returns _ _ _ Ht) as [-> _].
      constructor; [exact Ht | exact Hall].
Qed.

Lemma lstm_loop_zip (first : list Q) (others : list (list Q)) (now : Z)
    (hours : list Z) (idx : nat) (acc : list Prediction) :
  lstm_loop (first :: others) now idx hours acc
  = acc ++ zip_with (lstm_point now) (horizons_in_range now hours) (drop idx first).
Proof.
  revert idx acc. induction hours as [| h rest IH]; intros idx acc.
  - cbn. now rewrite app_nil_r.
  - cbn [lstm_loop horizons_in_range].
    change (list_getitem (first :: others) 0) with (@inr Py.exn _ first).
    cbv iota beta.
    destruct (idx <? length first)%nat eqn:E.
    + apply Nat.ltb_lt in E.
      destruct (Datetime.plus_hours now h) as [e | t] eqn:Ht; cbn [Py.returns].
      * cbn. now rewrite app_nil_r.
      * apply plus_hours_returns in Ht as [-> _].
        destruct (lookup_lt_is_Some_2 first idx E) as [y Hy].
        unfold list_getitem. rewrite Hy. cbn [Py.ret].
        rewrite IH, <- app_assoc.
        rewrite (drop_S first y idx Hy). reflexivity.
    + apply Nat.ltb_ge in E. rewrite IH.
      rewrite (drop_ge first idx E), (drop_ge first (S idx)) by lia.
      destruct (Py.returns _); now destruct (horizons_in_range now rest).
Qed.

(** X13: without an LSTM model [predict_congestion_lstm] raises
    "LSTM model not loaded".  With one it never raises.  It pairs the
    requested horizons with the first output row of the model, in order,
    until the outputs run out or the target time of a horizon is not a
    datetime: that horizon ends the loop, and the predictions made before
    it are returned.  Each prediction has confidence 0.80 and model "lstm";
    when the model raises or returns no row the list is empty. *)
Theorem lstm_forecast_pairs_horizons_with_outputs
    (lstm_model : option Lstm) (location_id : string)
    (sequence_data : ndarray) (hours : list Z) (now : Z) :
  match lstm_model with
  | None =>
      predict_congestion_lstm None location_id sequence_data hours now
      = inl (Py.ValueError "LSTM model not loaded")
  | Some m =>
      exists predictions reached rest,
        predict_congestion_lstm (Some m) location_id sequence_data hours now
        = inr predictions
        /\ (forall p, In p predictions ->
              confidence p == 80 # 100 /\ model p = "lstm")
        /\ hours = reached ++ rest
        /\ Forall (fun h => Datetime.plus_hours now h = inr (now + 3600 * h)%Z) reached
        /\ match rest with
           | [] => True
           | h :: _ => exists e, Datetime.plus_hours now h = inl e
           end
        /\ match lstm_predict m (as_batch sequence_data) with
           | inr (first :: _) =>
               predictions
               = zip_with
                   (fun h y =>
                      {| forecast_hours := h;
                         target_time := (now + 3600 * h)%Z;
                         predicted_congestion := Py.round2 y;
                         congestion_level := Py.round_half_even y;
                         confidence := 80 # 100;
                         model := "lstm" |})
                   reached first
               /\ length predictions = Nat.min (length reached) (length first)
               /\ List.map forecast_hours predictions = take (length first) reached
           | _ => predictions = []
           end
  end.
Proof.
  destruct lstm_model as [m |]; [| reflexivity].
  destruct (horizons_in_range_prefix now hours) as (rest & Hrest & Hall & Hstop).
  unfold predict_congestion_lstm.
  destruct (lstm_predict m (as_batch sequence_data)) as [e | [| first others]].
  - exists [], (horizons_in_range now hours), rest.
    split; [reflexivity |]. split; [intros p [] |]. auto.
  - exists [], (horizons_in_range now hours), rest.
    split; [now destruct hours |]. split; [intros p [] |]. auto.
  - rewrite lstm_loop_zip. cbn [app drop].
    eexists. exists (horizons_in_range now hours), rest.
    split; [reflexivity |].
    fold (lstm_point now). split; [| do 3 (split; [assumption |]); split; [reflexivity | split]].
    + intros p Hin. apply list_elem_of_In, list_elem_of_lookup in Hin as [i Hi].
      apply lookup_zip_with_Some in Hi as (h & y & Hp & _ & _).
      rewrite Hp. split; reflexivity.
    + now rewrite length_zip_with.
    + clear. generalize (horizons_in_range now hours) as reached.
      intros reached. revert first.
      induction reached as [| h reached IH]; intros first.
      * rewrite take_nil. now destruct first.
      * destruct first as [| y first]; cbn; [reflexivity |]. f_equal. apply IH.
Qed.

(** The horizons 1, 70389695 and 3 requested at the epoch, with three
    outputs: the second target time lies past the year 9999, so only the
    prediction for the first horizon is returned. *)
Example lstm_stops_at_the_overflowing_horizon :
  Py.returned
    (predict_congestion_lstm
       (Some {| lstm_predict := fun _ => Py.ret [[1; 2; 3]] |})
       "X" (Rank2 [[0]]) [1; 70389695; 3]%Z 0)
  = Some [lstm_point 0 1 1].
Proof. vm_compute. reflexivity. Qed.

End LstmFacts.

(** ** ml_service.py: feature importance *)

Section Importance.

Import MLService.

Lemma round_half_even_between (x : Q) (lo hi : Z) :
  inject_Z lo <= x -> x <= inject_Z hi ->
  (lo <= Py.round_half_even x <= hi)%Z.
Proof.
  intros Hlo Hhi. destruct (round_half_even_close x) as [Hl Hh].
  set (r := Py.round_half_even x) in *.
  split.
  - assert (H : (lo < r + 1)%Z); [| lia].
    rewrite Zlt_Qlt, inject_Z_plus. change (inject_Z 1) with 1. lra.
  - assert (H : (r < hi + 1)%Z); [| lia].
    rewrite Zlt_Qlt, inject_Z_plus. change (inject_Z 1) with 1. lra.
Qed.

Lemma round4_unit_interval (x : Q) :
  0 <= x -> x <= 1 -> 0 <= round4 x /\ round4 x <= 1.
Proof.
  intros H0 H1. unfold round4.
  destruct (round_half_even_between (x * 10000) 0 10000) as [Hl Hh].
  - change (inject_Z 0) with 0. lra.
  - change (inject_Z 10000) with 10000. lra.
  - set (r := Py.round_half_even (x * 10000)) in *.
    rewrite Zle_Qle in Hl, Hh.
    change (inject_Z 0) with 0 in Hl. change (inject_Z 10000) with 10000 in Hh.
    assert (E : inject_Z r / 10000 == inject_Z r * (1 # 10000)) by field.
    rewrite E. split; lra.
Qed.

Lemma round4_close (x : Q) :
  - (1 # 20000) <= round4 x - x /\ round4 x - x <= 1 # 20000.
Proof.
  unfold round4. destruct (round_half_even_close (x * 10000)) as [Hl Hh].
  set (r := inject_Z (Py.round_half_even (x * 10000))) in *.
  assert (E : r / 10000 == r * (1 # 10000)) by field.
  rewrite E. split; lra.
Qed.

Lemma sum_bounds_member (l : list Q) (v : Q) :
  Forall (fun x => 0 <= x) l -> v ∈ l ->
  0 <= foldr Qplus 0 l /\ v <= foldr Qplus 0 l.
Proof.
  induction 1 as [| x l Hx Hl IH]; intros Hin.
  - now apply not_elem_of_nil in Hin.
  - cbn. assert (Hs : 0 <= foldr Qplus 0 l).
    { clear IH Hin. induction Hl as [| y l Hy Hl IH]; cbn; lra. }
    apply elem_of_cons in Hin as [-> | Hin].
    + split; lra.
    + destruct (IH Hin). split; lra.
Qed.

(** X14: [get_feature_importance] never raises.  It returns the empty dict
    when no XGBoost model is loaded, when [get_score] raises, and when the
    gains sum to zero (in particular when there are none).  Otherwise it
    returns a dict with the same feature names, each gain divided by the
    total and rounded to 4 decimals: within 0.00005 of the exact share and,
    when no gain is negative, within [0, 1]. *)
Theorem feature_importance_is_the_rounded_share
    (get_score : Booster -> Py.result (gmap string Q)) (self : MLService) :
  match xgboost_model self with
  | None => get_feature_importance get_score self = ∅
  | Some booster =>
      match get_score booster with
      | inl _ => get_feature_importance get_score self = ∅
      | inr importance =>
          let total := sum_values importance in
          if Qeq_bool total 0 then get_feature_importance get_score self = ∅
          else
            dom (get_feature_importance get_score self) = dom importance
            /\ forall name gain,
                 importance !! name = Some gain ->
                 get_feature_importance get_score self !! name
                 = Some (round4 (gain / total))
                 /\ (- (1 # 20000) <= round4 (gain / total) - gain / total
                     /\ round4 (gain / total) - gain / total <= 1 # 20000)
                 /\ ((forall name' gain', importance !! name' = Some gain' ->
                        0 <= gain') ->
                     0 <= round4 (gain / total) /\ round4 (gain / total) <= 1)
      end
  end.
Proof.
  unfold get_feature_importance.
  destruct (xgboost_model self) as [booster |]; [| reflexivity].
  destruct (get_score booster) as [e | importance]; [reflexivity |].
  cbn [Py.bind]. unfold normalized. cbv zeta.
  destruct (decide (importance = ∅)) as [-> | Hne].
  - reflexivity.
  - destruct (Qeq_bool (sum_values importance) 0) eqn:Ht; [reflexivity |].
    unfold Py.ret. cbv iota.
    split; [apply dom_fmap_L |].
    intros name gain Hname. split; [now rewrite lookup_fmap, Hname |].
    split; [apply round4_close |].
    intros Hpos.
    assert (Hall : Forall (fun x => 0 <= x) (snd <$> map_to_list importance)).
    { apply Forall_forall. intros x Hx.
      apply list_elem_of_fmap in Hx as [[k v] [-> Hkv]].
      apply elem_of_map_to_list in Hkv. exact (Hpos k v Hkv). }
    assert (Hin : gain ∈ snd <$> map_to_list importance).
    { apply list_elem_of_fmap. exists (name, gain).
      split; [reflexivity | now apply elem_of_map_to_list]. }
    destruct (sum_bounds_member _ gain Hall Hin) as [Hs Hle].
    fold (sum_values importance) in Hs, Hle.
    assert (Hnz : ~ sum_values importance == 0).
    { intros Hz. apply Qeq_bool_iff in Hz. congruence. }
    assert (Hgt : 0 < sum_values importance) by (apply Qle_lt_or_eq in Hs as [? | ?];
                                                 [assumption | exfalso; apply Hnz; lra]).
    pose proof (Hpos name gain Hname) as Hgain.
    apply round4_unit_interval.
    + apply Qle_shift_div_l; [exact Hgt | lra].
    + apply Qle_shift_div_r; [exact Hgt | lra].
Qed.

End Importance.

(** ** traffic_model.py: the rest of [predict], [save] and [load] *)

Section PredictFacts.

Import TrafficModel.

(** What [predict] returns, in terms of the two raw outputs. *)
Lemma predict_returns (self : TrafficPredictionModel)
    (hour day_of_week : Z) (lat lon ffs : Q) (r : Prediction) :
  predict self hour day_of_week lat lon ffs = inr r ->
  exists a b,
    congestion r = Py.np_clip ((a + b) / 2) 0 100
    /\ confidence r = Py.max 70 (Py.min 95 (95 - Qabs (a - b)))
    /\ current_speed r = ffs * (1 - congestion r / 100 * (6 # 10))
    /\ free_flow_speed r = ffs
    /\ speed_reduction_percent r = congestion r / 100 * (6 # 10) * 100.
Proof.
  unfold predict. destruct (model self) as [m |]; [| discriminate].
  destruct (transform _ _) as [e | xs]; [discriminate |]. cbn [Py.bind].
  destruct (reg_predict (rf m) xs) as [e | a]; [discriminate |]. cbn [Py.bind].
  destruct (reg_predict (gb m) xs) as [e | b]; [discriminate |].
  cbn [Py.bind Py.ret]. intros [= <-]. exists a, b. cbn. repeat split.
Qed.

Lemma predict_congestion_bounds (self : TrafficPredictionModel)
    (hour day_of_week : Z) (lat lon ffs : Q) (r : Prediction) :
  predict self hour day_of_week lat lon ffs = inr r ->
  0 <= congestion r /\ congestion r <= 100.
Proof.
  intros H. destruct (predict_returns _ _ _ _ _ _ _ H) as (a & b & -> & _).
  apply np_clip_bounds. lra.
Qed.

End PredictFacts.

(** X15: the speed fields of a prediction.  [speed_reduction_percent] is
    0.6 times the congestion and lies in [0, 60]; [current_speed] is the
    free-flow speed reduced by that percentage, so for a non-negative
    free-flow speed it lies between 40% of it and all of it; and
    [free_flow_speed] is the argument given. *)
Theorem predicted_speed_is_between_40_and_100_percent
    (self : TrafficModel.TrafficPredictionModel)
    (hour day_of_week : Z) (lat lon ffs : Q) (r : TrafficModel.Prediction) :
  TrafficModel.predict self hour day_of_week lat lon ffs = inr r ->
  TrafficModel.free_flow_speed r = ffs
  /\ TrafficModel.speed_reduction_percent r == (6 # 10) * TrafficModel.congestion r
  /\ (0 <= TrafficModel.speed_reduction_percent r
      /\ TrafficModel.speed_reduction_percent r <= 60)
  /\ TrafficModel.current_speed r
     == ffs * (1 - TrafficModel.speed_reduction_percent r / 100)
  /\ (0 <= ffs ->
      (4 # 10) * ffs <= TrafficModel.current_speed r
      /\ TrafficModel.current_speed r <= ffs).
Proof.
  intros H. destruct (predict_congestion_bounds _ _ _ _ _ _ _ H) as [Hlo Hhi].
  destruct (predict_returns _ _ _ _ _ _ _ H) as (a & b & _ & _ & Hs & Hf & Hp).
  rewrite Hs, Hf, Hp. set (c := TrafficModel.congestion r) in *.
  split; [reflexivity |].
  assert (E1 : c / 100 * (6 # 10) * 100 == (6 # 10) * c) by field.
  assert (E2 : ffs * (1 - c / 100 * (6 # 10))
               == ffs * (1 - c / 100 * (6 # 10) * 100 / 100)) by field.
  split; [exact E1 |]. split; [rewrite E1; split; lra |].
  split; [exact E2 |].
  intros Hffs.
  assert (E3 : ffs * (1 - c / 100 * (6 # 10)) == ffs - (6 # 1000) * (ffs * c)) by field.
  rewrite E3.
  assert (H0 : 0 <= ffs * c) by (apply Qmult_le_0_compat; assumption).
  assert (H1 : ffs * c <= ffs * 100).
  { rewrite !(Qmult_comm ffs). apply Qmult_le_compat_r; assumption. }
  split; lra.
Qed.

Lemma predicted_speed_is_between_40_and_100_percent_witness :
  exists r,
    TrafficModel.predict Samples.trained 8 1 0 0 60 = inr r
    /\ TrafficModel.free_flow_speed r = 60
    /\ TrafficModel.speed_reduction_percent r == (6 # 10) * TrafficModel.congestion r
    /\ (0 <= TrafficModel.speed_reduction_percent r
        /\ TrafficModel.speed_reduction_percent r <= 60)
    /\ TrafficModel.current_speed r
       == 60 * (1 - TrafficModel.speed_reduction_percent r / 100)
    /\ (0 <= 60 ->
        (4 # 10) * 60 <= TrafficModel.current_speed r
        /\ TrafficModel.current_speed r <= 60).
Proof.
  eexists. split; [reflexivity |].
  apply (predicted_speed_is_between_40_and_100_percent Samples.trained 8 1 0 0 60).
  reflexivity.
Defined.

(** X16: the feature row [predict] builds has the eight entries named by
    [feature_names], in that order.  The weekend flag is 1 on days 5 and 6
    and 0 on any other number; the rush-hour flag is 1 for the hours 7, 8,
    9, 17, 18, 19 and 0 for any other number; the historical average lies
    between 10.5 and 70, and is 70 in a weekday rush hour. *)
Theorem predict_feature_row
    (hour day_of_week : Z) (lat lon ffs : Q) :
  exists weekend rush historical_avg,
    TrafficModel.predict_features hour day_of_week lat lon ffs
    = [inject_Z hour; inject_Z day_of_week; inject_Z weekend; inject_Z rush;
       lat; lon; ffs; historical_avg]
    /\ length (TrafficModel.predict_features hour day_of_week lat lon ffs)
       = length ModelFiles.feature_names
    /\ (weekend = 1%Z <-> day_of_week = 5%Z \/ day_of_week = 6%Z)
    /\ (weekend = 0%Z \/ weekend = 1%Z)
    /\ (rush = 1%Z <-> In hour [7; 8; 9; 17; 18; 19]%Z)
    /\ (rush = 0%Z \/ rush = 1%Z)
    /\ ((21 # 2) <= historical_avg /\ historical_avg <= 70)
    /\ (weekend = 0%Z -> rush = 1%Z -> historical_avg == 70).
Proof.
  unfold TrafficModel.predict_features. do 3 eexists.
  split; [reflexivity |]. split; [reflexivity |].
  assert (Hin : forall (x : Z) (l : list Z),
            TrafficModel.in_list x l = true <-> In x l).
  { intros x l. unfold TrafficModel.in_list. rewrite existsb_exists. split.
    - intros (y & Hy & E). apply Z.eqb_eq in E. now subst.
    - intros H. exists x. split; [exact H | apply Z.eqb_refl]. }
  assert (Hflag : forall b : bool,
            (TrafficModel.int_of_bool b = 1%Z <-> b = true)
            /\ (TrafficModel.int_of_bool b = 0%Z \/ TrafficModel.int_of_bool b = 1%Z)).
  { intros []; cbn; split; try tauto; split; congruence. }
  split.
  { rewrite (proj1 (Hflag _)), Hin. cbn. intuition lia. }
  split; [apply Hflag |].
  split; [rewrite (proj1 (Hflag _)); apply Hin |].
  split; [apply Hflag |].
  unfold TrafficModel.historical_avg_of.
  destruct (TrafficModel.in_list day_of_week [5; 6]%Z);
    destruct (TrafficModel.in_list hour [7; 8; 9; 17; 18; 19]%Z); cbn;
    repeat match goal with
           | |- context [if ?b then _ else _] => destruct b
           end;
    (split; [split; lra |]); intros; try discriminate; try lra; reflexivity.
Qed.

Section ModelFilesFacts.

Import TrafficModel ModelFiles.

Variable makedirs_ok : string -> bool.
Variable writable : string -> bool.

Lemma path_join_inj (path a b : string) : path_join path a = path_join path b -> a = b.
Proof.
  unfold path_join. destruct path as [| c rest]; [trivial |].
  destruct (ends_with_slash (String c rest)); intros H.
  - now apply String.app_inj in H.
  - apply String.app_inj in H. now apply String.app_inj in H.
Qed.

Lemma model_and_scaler_files_differ (path : string) :
  path_join path "traffic_model.pkl" <> path_join path "scaler.pkl".
Proof. intros H. apply path_join_inj in H. discriminate. Qed.

(** X17: a model saved and loaded again is the model that was saved.  When
    [save] returns, [load] from the same path, into any object, returns and
    leaves that object with the saved regressors and the saved scaler, so
    [predict] gives the same answer before and after; every other file is
    left as it was. *)
Theorem save_then_load_restores_the_model
    (self other : TrafficPredictionModel) (path : string)
    (fs fs' : gmap string pickled) :
  save makedirs_ok writable self path fs = (inr tt, fs') ->
  load other path fs' = (inr tt, self)
  /\ (forall hour day_of_week lat lon ffs,
        predict (snd (load other path fs')) hour day_of_week lat lon ffs
        = predict self hour day_of_week lat lon ffs)
  /\ (forall file,
        file <> path_join path "traffic_model.pkl" ->
        file <> path_join path "scaler.pkl" ->
        fs' !! file = fs !! file).
Proof.
  unfold save, joblib_dump.
  destruct (makedirs_ok path); [| discriminate].
  destruct self as [[m |] sc]; cbn [model scaler]; [| discriminate].
  destruct (writable (path_join path "traffic_model.pkl")); [| discriminate].
  cbn [Py.ret].
  destruct (writable (path_join path "scaler.pkl")); [| discriminate].
  intros [= <-].
  assert (Hload : load other path
                    (<[path_join path "scaler.pkl" := PickledScaler sc]>
                       (<[path_join path "traffic_model.pkl" := PickledModel m]> fs))
                  = (inr tt, {| model := Some m; scaler := sc |})).
  { unfold load, joblib_load.
    rewrite lookup_insert_ne by (apply not_eq_sym, model_and_scaler_files_differ).
    rewrite lookup_insert_eq. cbn [Py.ret]. rewrite lookup_insert_eq. reflexivity. }
  split; [exact Hload |]. split.
  - intros. rewrite Hload. reflexivity.
  - intros file H1 H2. rewrite !lookup_insert_ne by congruence. reflexivity.
Qed.

(** X18: how [save] and [load] fail.  [save] on an object without a model
    raises and writes no file.  [save] that cannot write the scaler file
    raises after the model file has been written.  [load] from a directory
    that has the model file but no scaler file raises and leaves the object
    with the loaded regressors and its old scaler; [load] from a directory
    without the model file raises and leaves the object unchanged. *)
Theorem save_and_load_failures
    (self : TrafficPredictionModel) (path : string) (fs : gmap string pickled) :
  (model self = None ->
   Py.returns (fst (save makedirs_ok writable self path fs)) = false
   /\ snd (save makedirs_ok writable self path fs) = fs
   /\ (makedirs_ok path = true ->
       fst (save makedirs_ok writable self path fs)
       = inl (Py.ValueError "No model to save. Train the model first.")))
  /\ (forall m,
        model self = Some m -> makedirs_ok path = true ->
        writable (path_join path "traffic_model.pkl") = true ->
        writable (path_join path "scaler.pkl") = false ->
        Py.returns (fst (save makedirs_ok writable self path fs)) = false
        /\ snd (save makedirs_ok writable self path fs)
           = <[path_join path "traffic_model.pkl" := PickledModel m]> fs)
  /\ (forall m,
        fs !! path_join path "traffic_model.pkl" = Some (PickledModel m) ->
        fs !! path_join path "scaler.pkl" = None ->
        Py.returns (fst (load self path fs)) = false
        /\ snd (load self path fs) = {| model := Some m; scaler := scaler self |})
  /\ (fs !! path_join path "traffic_model.pkl" = None ->
      Py.returns (fst (load self path fs)) = false
      /\ snd (load self path fs) = self).
Proof.
  split; [| split; [| split]].
  - intros Hm. unfold save. rewrite Hm.
    destruct (makedirs_ok path); cbn; repeat split; try reflexivity; discriminate.
  - intros m Hm Hd H1 H2. unfold save, joblib_dump. rewrite Hd, Hm, H1.
    cbn [Py.ret]. rewrite H2. cbn. auto.
  - intros m H1 H2. unfold load, joblib_load. rewrite H1. cbn [Py.ret].
    rewrite H2. cbn. auto.
  - intros H1. unfold load, joblib_load. rewrite H1. cbn. auto.
Qed.

End ModelFilesFacts.

Lemma save_then_load_restores_the_model_witness :
  let fs' := snd (ModelFiles.save (fun _ => true) (fun _ => true)
                    Samples.trained "./models" ∅) in
  ModelFiles.load Samples.untrained "./models" fs' = (inr tt, Samples.trained)
  /\ (forall hour day_of_week lat lon ffs,
        TrafficModel.predict (snd (ModelFiles.load Samples.untrained "./models" fs'))
          hour day_of_week lat lon ffs
        = TrafficModel.predict Samples.trained hour day_of_week lat lon ffs)
  /\ (forall file,
        file <> ModelFiles.path_join "./models" "traffic_model.pkl" ->
        file <> ModelFiles.path_join "./models" "scaler.pkl" ->
        fs' !! file = (∅ : gmap string ModelFiles.pickled) !! file).
Proof.
  cbv zeta.
  apply (save_then_load_restores_the_model (fun _ => true) (fun _ => true)
           Samples.trained Samples.untrained "./models" ∅).
  reflexivity.
Defined.

(** ** tomtom_api.py *)

Section TomTomFacts.

Import TomTom.

Lemma max_min_bounds (x lo hi : Q) :
  lo <= hi -> lo <= Py.max lo (Py.min hi x) /\ Py.max lo (Py.min hi x) <= hi.
Proof.
  intros H. rewrite (max_min_is_clamp x lo hi H). now apply clamp_bounds.
Qed.

Lemma tomtom_congestion_bounds (traffic_data : answer) :
  0 <= calculate_congestion_percentage traffic_data
  /\ calculate_congestion_percentage traffic_data <= 100.
Proof.
  unfold calculate_congestion_percentage.
  destruct (traffic_data !! "flowSegmentData") as [flow |]; [| lra].
  cbv zeta. destruct (Qeq_bool _ 0); [lra |]. apply max_min_bounds. lra.
Qed.

(** X19: [calculate_congestion_percentage] always answers with a number in
    [0, 100] and never divides by zero.  It is 0 when the answer has no
    ['flowSegmentData'] and when the free-flow speed is 0; otherwise it is
    (1 - current/free_flow) * 100 clamped to [0, 100], with 0 and 1 standing
    in for a missing current and free-flow speed: 0 when the current speed
    reaches a positive free-flow speed, 100 at a standstill. *)
Theorem congestion_percentage_is_clamped (traffic_data : answer) :
  (0 <= calculate_congestion_percentage traffic_data
   /\ calculate_congestion_percentage traffic_data <= 100)
  /\ match traffic_data !! "flowSegmentData" with
     | None => calculate_congestion_percentage traffic_data = 0
     | Some flow =>
         let current_speed := default 0 (flow !! "currentSpeed") in
         let free_flow_speed := default 1 (flow !! "freeFlowSpeed") in
         (free_flow_speed == 0 -> calculate_congestion_percentage traffic_data = 0)
         /\ (~ free_flow_speed == 0 ->
             calculate_congestion_percentage traffic_data
             == clamp ((1 - current_speed / free_flow_speed) * 100) 0 100)
         /\ (0 < free_flow_speed -> free_flow_speed <= current_speed ->
             calculate_congestion_percentage traffic_data == 0)
         /\ (0 < free_flow_speed -> current_speed <= 0 ->
             calculate_congestion_percentage traffic_data == 100)
     end.
Proof.
  unfold calculate_congestion_percentage.
  destruct (traffic_data !! "flowSegmentData") as [flow |]; [| split; [lra | reflexivity]].
  cbv zeta.
  set (cs := default 0 (flow !! "currentSpeed")).
  set (ffs := default 1 (flow !! "freeFlowSpeed")).
  assert (H100 : 0 <= 100) by lra.
  destruct (Qeq_bool ffs 0) eqn:E.
  - apply Qeq_bool_iff in E. split; [lra |].
    split; [reflexivity |]. split; [tauto |]. split; intros; lra.
  - assert (Hnz : ~ ffs == 0) by (intros H; apply Qeq_bool_iff in H; congruence).
    split; [apply max_min_bounds, H100 |].
    split; [tauto |]. split; [intros _; apply max_min_is_clamp, H100 |].
    rewrite (max_min_is_clamp _ 0 100 H100). unfold clamp. split.
    + intros Hpos Hge.
      assert (1 <= cs / ffs) by (apply Qle_shift_div_l; [exact Hpos | lra]).
      solve_minmax.
    + intros Hpos Hle.
      assert (cs / ffs <= 0) by (apply Qle_shift_div_r; [exact Hpos | lra]).
      solve_minmax.
Qed.

(** X20: for one positive free-flow speed, a higher current speed never
    gives a higher congestion percentage. *)
Theorem congestion_percentage_decreases_with_speed
    (low high : answer) (flow_low flow_high : flow) (free_flow_speed : Q) :
  low !! "flowSegmentData" = Some flow_low ->
  high !! "flowSegmentData" = Some flow_high ->
  flow_low !! "freeFlowSpeed" = Some free_flow_speed ->
  flow_high !! "freeFlowSpeed" = Some free_flow_speed ->
  0 < free_flow_speed ->
  default 0 (flow_low !! "currentSpeed") <= default 0 (flow_high !! "currentSpeed") ->
  calculate_congestion_percentage high <= calculate_congestion_percentage low.
Proof.
  intros Hl Hh Hfl Hfh Hpos Hle. unfold calculate_congestion_percentage.
  rewrite Hl, Hh, Hfl, Hfh. cbn [default from_option id].
  set (a := default 0 (flow_low !! "currentSpeed")) in *.
  set (b := default 0 (flow_high !! "currentSpeed")) in *.
  assert (E : Qeq_bool free_flow_speed 0 = false).
  { destruct (Qeq_bool free_flow_speed 0) eqn:E; [| reflexivity].
    apply Qeq_bool_iff in E. lra. }
  rewrite E. assert (H100 : 0 <= 100) by lra.
  rewrite !(max_min_is_clamp _ 0 100 H100). apply clamp_monotone.
  assert (a / free_flow_speed <= b / free_flow_speed).
  { unfold Qdiv. apply Qmult_le_compat_r; [exact Hle |].
    apply Qinv_le_0_compat. lra. }
  lra.
Qed.

Lemma congestion_percentage_decreases_with_speed_witness :
  calculate_congestion_percentage
    {[ "flowSegmentData" := {[ "currentSpeed" := 45; "freeFlowSpeed" := 60 ]} ]}
  <= calculate_congestion_percentage
       {[ "flowSegmentData" := {[ "currentSpeed" := 30; "freeFlowSpeed" := 60 ]} ]}.
Proof.
  apply (congestion_percentage_decreases_with_speed
           {[ "flowSegmentData" := {[ "currentSpeed" := 30; "freeFlowSpeed" := 60 ]} ]}
           {[ "flowSegmentData" := {[ "currentSpeed" := 45; "freeFlowSpeed" := 60 ]} ]}
           {[ "currentSpeed" := 30; "freeFlowSpeed" := 60 ]}
           {[ "currentSpeed" := 45; "freeFlowSpeed" := 60 ]} 60);
    solve [reflexivity | vm_compute; discriminate].
Defined.

End TomTomFacts.

Section RouteTraffic.

Import TomTom.

Variable get_traffic_flow : Q -> Q -> Py.result answer.

(** The point recorded for a coordinate, if its answer has flow data. *)
Let point_of (now : Z) (c : Q * Q) : option RoutePoint :=
  match get_traffic_flow c.1 c.2 with
  | inr data =>
      flow_data ← data !! "flowSegmentData";
      Some {| lat := c.1; lon := c.2;
              currentSpeed := default 0 (flow_data !! "currentSpeed");
              freeFlowSpeed := default 0 (flow_data !! "freeFlowSpeed");
              currentTravelTime := default 0 (flow_data !! "currentTravelTime");
              freeFlowTravelTime := default 0 (flow_data !! "freeFlowTravelTime");
              confidence := default 0 (flow_data !! "confidence");
              timestamp := now |}
  | inl _ => None
  end.

Lemma nonempty_lookup (data : answer) :
  (if nonempty data then data !! "flowSegmentData" else None)
  = data !! "flowSegmentData".
Proof.
  unfold nonempty. destruct (bool_decide (data = ∅)) eqn:E; [| reflexivity].
  apply bool_decide_eq_true in E. subst. now rewrite lookup_empty.
Qed.

Lemma route_loop_spec (coordinates : list (Q * Q)) (now : Z) (acc : list RoutePoint) :
  (forall c, In c coordinates -> Py.returns (get_traffic_flow c.1 c.2) = true) ->
  route_loop get_traffic_flow coordinates now acc
  = inr (acc ++ omap (point_of now) coordinates).
Proof.
  revert acc. induction coordinates as [| [la lo] rest IH]; intros acc Hall.
  - cbn. now rewrite app_nil_r.
  - cbn [route_loop omap list_omap]. unfold point_of at 1. cbn [fst snd].
    pose proof (Hall (la, lo) (or_introl eq_refl)) as Hret. cbn in Hret.
    destruct (get_traffic_flow la lo) as [e | data]; [discriminate |].
    cbn [Py.bind]. rewrite nonempty_lookup.
    assert (Hrest : forall c, In c rest -> Py.returns (get_traffic_flow c.1 c.2) = true)
      by (intros c Hc; apply Hall; now right).
    destruct (data !! "flowSegmentData") as [flow_data |]; cbn.
    + rewrite (IH _ Hrest), <- app_assoc. reflexivity.
    + apply (IH _ Hrest).
Qed.

(** X21: when every request returns, [get_route_traffic] returns one point
    for each coordinate whose answer has ['flowSegmentData'], in the order
    of the coordinates, and skips the others; a speed or travel time the
    flow data lacks is recorded as 0. *)
Theorem route_traffic_keeps_the_answered_coordinates
    (coordinates : list (Q * Q)) (now : Z) :
  (forall c, In c coordinates -> Py.returns (get_traffic_flow c.1 c.2) = true) ->
  exists points,
    get_route_traffic get_traffic_flow coordinates now = inr points
    /\ List.map (fun p => (lat p, lon p)) points
       = List.filter
           (fun c => match get_traffic_flow c.1 c.2 with
                     | inr data => bool_decide (is_Some (data !! "flowSegmentData"))
                     | inl _ => false
                     end)
           coordinates
    /\ (length points <= length coordinates)%nat
    /\ forall p, In p points ->
         exists data flow_data,
           get_traffic_flow (lat p) (lon p) = inr data
           /\ data !! "flowSegmentData" = Some flow_data
           /\ currentSpeed p = default 0 (flow_data !! "currentSpeed")
           /\ freeFlowSpeed p = default 0 (flow_data !! "freeFlowSpeed")
           /\ timestamp p = now.
Proof.
  intros Hall. unfold get_route_traffic. rewrite (route_loop_spec _ _ _ Hall).
  cbn [app]. eexists. split; [reflexivity |]. split; [| split].
  - clear Hall. induction coordinates as [| c rest IH]; cbn; [reflexivity |].
    unfold point_of at 1.
    destruct (get_traffic_flow c.1 c.2) as [e | data]; cbn; [exact IH |].
    destruct (data !! "flowSegmentData") as [flow_data |]; cbn.
    + try rewrite bool_decide_eq_true_2 by (now eexists). cbn.
      rewrite IH. now destruct c.
    + try rewrite bool_decide_eq_false_2 by (intros [x Hx]; discriminate).
      exact IH.
  - clear Hall. induction coordinates as [| c rest IH]; cbn; [lia |].
    destruct (point_of now c); cbn; lia.
  - intros p Hin. apply list_elem_of_In, list_elem_of_omap in Hin as (c & _ & Hc).
    unfold point_of in Hc.
    destruct (get_traffic_flow c.1 c.2) as [e | data] eqn:Hd; [discriminate |].
    destruct (data !! "flowSegmentData") as [flow_data |] eqn:Hf; [| discriminate].
    cbn in Hc. injection Hc as <-. cbn. exists data, flow_data. auto.
Qed.

End RouteTraffic.

Lemma route_traffic_keeps_the_answered_coordinates_witness :
  exists points,
    TomTom.get_route_traffic MoreSamples.flow_at_one [(1, 2); (3, 4)] 0 = inr points
    /\ List.map (fun p => (TomTom.lat p, TomTom.lon p)) points
       = List.filter
           (fun c => match MoreSamples.flow_at_one c.1 c.2 with
                     | inr data => bool_decide (is_Some (data !! "flowSegmentData"))
                     | inl _ => false
                     end)
           [(1, 2); (3, 4)]
    /\ (length points <= length [(1, 2); (3, 4)])%nat
    /\ forall p, In p points ->
         exists data flow_data,
           MoreSamples.flow_at_one (TomTom.lat p) (TomTom.lon p) = inr data
           /\ data !! "flowSegmentData" = Some flow_data
           /\ TomTom.currentSpeed p = default 0 (flow_data !! "currentSpeed")
           /\ TomTom.freeFlowSpeed p = default 0 (flow_data !! "freeFlowSpeed")
           /\ TomTom.timestamp p = 0%Z.
Proof.
  apply (route_traffic_keeps_the_answered_coordinates MoreSamples.flow_at_one
           [(1, 2); (3, 4)] 0).
  intros c [<- | [<- | []]]; reflexivity.
Defined.

(** ** app.py: the views *)

Section Views.

Import FlaskApp.

(** X22: the view of [/predict] never raises and answers 200, 400 or 500.
    It answers 400 exactly when the body is an object in which [hour],
    [day_of_week], [lat] or [lon] is missing or null (a zero counts as
    present).  With the four present and [free_flow_speed] missing it
    answers as [predict] does at a free-flow speed of 60, and with a number
    there as [predict] does at that speed: 200 with the prediction when
    [predict] returns, 500 with the text of the exception when it raises.
    With [free_flow_speed] null it answers 500.  With no trained model the
    answer is 500 with the text "Model not trained. Call train() first."
    whatever [free_flow_speed] is. *)
Theorem predict_view_answers
    (model : TrafficModel.TrafficPredictionModel) (on_none_row : Py.result unit)
    (request_json : Py.result PredictBody) (now : Z) :
  let r := predict_congestion model on_none_row request_json now in
  (status r = 200%Z \/ status r = 400%Z \/ status r = 500%Z)
  /\ (status r = 400%Z <->
      exists data, request_json = inr data
        /\ (hour data = None \/ day_of_week data = None
            \/ lat data = None \/ lon data = None))
  /\ (forall data h d la lo,
        request_json = inr data ->
        hour data = Some h -> day_of_week data = Some d ->
        lat data = Some la -> lon data = Some lo ->
        match free_flow_speed data with
        | Missing =>
            match TrafficModel.predict model h d la lo 60 with
            | inr prediction =>
                r = {| status := 200; json := PredictionOk prediction now |}
            | inl e => r = {| status := 500; json := Failure (str e) |}
            end
        | Number speed =>
            match TrafficModel.predict model h d la lo speed with
            | inr prediction =>
                r = {| status := 200; json := PredictionOk prediction now |}
            | inl e => r = {| status := 500; json := Failure (str e) |}
            end
        | Null => exists text, r = {| status := 500; json := Failure text |}
        end
        /\ (TrafficModel.model model = None ->
            r = {| status := 500;
                   json := Failure "Model not trained. Call train() first." |})).
Proof.
  cbv zeta. unfold predict_congestion.
  destruct request_json as [e | data].
  - cbn. split; [tauto |]. split; [| intros; discriminate].
    split; [discriminate | intros (d & H & _); discriminate].
  - destruct (hour data) as [h |] eqn:Hh; destruct (day_of_week data) as [d |] eqn:Hd;
      destruct (lat data) as [la |] eqn:Hla; destruct (lon data) as [lo |] eqn:Hlo;
      try (cbn; split; [tauto |]; split;
           [split; [intros _; exists data; rewrite ?Hh, ?Hd, ?Hla, ?Hlo; tauto
                   | reflexivity]
           | intros data' ? ? ? ? [= <-]; congruence]).
    cbv zeta.
    assert (Hnot400 : forall code : Z,
              code <> 400%Z ->
              code = 400%Z <->
              exists data', @inr Py.exn _ data = inr data'
                /\ (hour data' = None \/ day_of_week data' = None
                    \/ lat data' = None \/ lon data' = None)).
    { intros code Hr. split; [intros H; now destruct Hr |].
      intros (data' & [= <-] & [H | [H | [H | H]]]); congruence. }
    destruct (free_flow_speed data) as [| | speed] eqn:Hf.
    + destruct (TrafficModel.predict model h d la lo 60) as [e | p] eqn:Hp; cbn.
      * split; [tauto |]. split; [apply Hnot400; discriminate |].
        intros data' h' d' la' lo' [= <-] H1 H2 H3 H4.
        rewrite Hh in H1. rewrite Hd in H2. rewrite Hla in H3. rewrite Hlo in H4.
        injection H1 as <-. injection H2 as <-. injection H3 as <-. injection H4 as <-.
        rewrite Hf, Hp. split; [reflexivity |].
        intros Hnone. unfold TrafficModel.predict in Hp. rewrite Hnone in Hp.
        injection Hp as <-. reflexivity.
      * split; [tauto |]. split; [apply Hnot400; discriminate |].
        intros data' h' d' la' lo' [= <-] H1 H2 H3 H4.
        rewrite Hh in H1. rewrite Hd in H2. rewrite Hla in H3. rewrite Hlo in H4.
        injection H1 as <-. injection H2 as <-. injection H3 as <-. injection H4 as <-.
        rewrite Hf, Hp. split; [reflexivity |].
        intros Hnone. unfold TrafficModel.predict in Hp. rewrite Hnone in Hp.
        discriminate.
    + assert (Hnull : exists e, predict_without_speed model on_none_row = inl e
                /\ (TrafficModel.model model = None -> e = TrafficModel.not_trained)).
      { unfold predict_without_speed.
        destruct (TrafficModel.model model) as [m |].
        - destruct on_none_row as [e | accepted]; cbn; eexists;
            (split; [reflexivity | discriminate]).
        - eexists. split; [reflexivity | reflexivity]. }
      destruct Hnull as (e & -> & Hnone). cbn.
      split; [tauto |]. split; [apply Hnot400; discriminate |].
      intros data' h' d' la' lo' [= <-] H1 H2 H3 H4. rewrite Hf.
      split; [now eexists |].
      intros Hm. now rewrite (Hnone Hm).
    + destruct (TrafficModel.predict model h d la lo speed) as [e | p] eqn:Hp; cbn.
      * split; [tauto |]. split; [apply Hnot400; discriminate |].
        intros data' h' d' la' lo' [= <-] H1 H2 H3 H4.
        rewrite Hh in H1. rewrite Hd in H2. rewrite Hla in H3. rewrite Hlo in H4.
        injection H1 as <-. injection H2 as <-. injection H3 as <-. injection H4 as <-.
        rewrite Hf, Hp. split; [reflexivity |].
        intros Hnone. unfold TrafficModel.predict in Hp. rewrite Hnone in Hp.
        injection Hp as <-. reflexivity.
      * split; [tauto |]. split; [apply Hnot400; discriminate |].
        intros data' h' d' la' lo' [= <-] H1 H2 H3 H4.
        rewrite Hh in H1. rewrite Hd in H2. rewrite Hla in H3. rewrite Hlo in H4.
        injection H1 as <-. injection H2 as <-. injection H3 as <-. injection H4 as <-.
        rewrite Hf, Hp. split; [reflexivity |].
        intros Hnone. unfold TrafficModel.predict in Hp. rewrite Hnone in Hp.
        discriminate.
Qed.

(** A body whose [free_flow_speed] is null, sent to a trained model whose
    scaler and regressors take the row: the answer is 500. *)
Example null_speed_is_answered_with_500 :
  status (predict_congestion Samples.trained (Py.ret tt)
            (Py.ret {| hour := Some 8%Z; day_of_week := Some 1%Z;
                       lat := Some 37; lon := Some (-122);
                       free_flow_speed := Null |}) 0)
  = 500%Z.
Proof. reflexivity. Qed.

End Views.

Section RouteView.

Import FlaskApp.

Variables (model : TrafficModel.TrafficPredictionModel) (hour day_of_week : Z).

(** A coordinate pair for which [predict] returns segment [seg]. *)
Let served (coord : list Q) (seg : Segment) : Prop :=
  coord !! 0%nat = Some (seg_lat seg)
  /\ coord !! 1%nat = Some (seg_lon seg)
  /\ TrafficModel.predict model hour day_of_week (seg_lat seg) (seg_lon seg) 60
     = inr (seg_prediction seg).

Let total_of (segments : list Segment) : Q :=
  foldr (fun seg acc => TrafficModel.congestion (seg_prediction seg) + acc) 0 segments.

Lemma view_route_loop_returns (coordinates : list (list Q))
    (segments segments' : list Segment) (total total' : Q) :
  route_loop model hour day_of_week coordinates segments total
  = inr (segments', total') ->
  exists new,
    segments' = segments ++ new
    /\ Forall2 served coordinates new
    /\ total' == total + total_of new.
Proof.
  revert segments total.
  induction coordinates as [| coord rest IH]; intros segments total; cbn.
  - intros [= <- <-]. exists []. rewrite app_nil_r. cbn.
    split; [reflexivity |]. split; [constructor | ring].
  - unfold MLService.list_getitem.
    destruct (coord !! 0%nat) as [la |] eqn:H0; [| discriminate]. cbn [Py.bind Py.ret].
    destruct (coord !! 1%nat) as [lo |] eqn:H1; [| discriminate]. cbn [Py.bind Py.ret].
    destruct (TrafficModel.predict model hour day_of_week la lo 60) as [e | p] eqn:Hp;
      [discriminate |].
    cbn [Py.bind]. intros Hloop.
    destruct (IH _ _ Hloop) as (new & -> & Hall & Htot).
    exists ({| seg_lat := la; seg_lon := lo; seg_prediction := p |} :: new).
    rewrite <- app_assoc. split; [reflexivity |]. split.
    + constructor; [| exact Hall]. unfold served. cbn. auto.
    + rewrite Htot. unfold total_of. cbn. ring.
Qed.

Lemma view_route_loop_served (coordinates : list (list Q))
    (segments : list Segment) (total : Q) :
  Forall (fun coord => exists seg, served coord seg) coordinates ->
  exists r, route_loop model hour day_of_week coordinates segments total = inr r.
Proof.
  intros Hall. revert segments total.
  induction Hall as [| coord rest (seg & H0 & H1 & Hp) _ IH]; intros segments total; cbn.
  - eexists. reflexivity.
  - unfold MLService.list_getitem. rewrite H0, H1. cbn [Py.bind Py.ret].
    rewrite Hp. cbn [Py.bind]. apply IH.
Qed.

Lemma total_of_bounds (segments : list Segment) (coordinates : list (list Q)) :
  Forall2 served coordinates segments ->
  0 <= total_of segments
  /\ total_of segments <= 100 * inject_Z (Z.of_nat (length segments)).
Proof.
  induction 1 as [| coord seg rest segs (_ & _ & Hp) _ IH].
  - unfold total_of. cbn. change (inject_Z (Z.of_nat 0)) with 0. split; lra.
  - destruct (predict_congestion_bounds _ _ _ _ _ _ _ Hp) as [Hlo Hhi].
    unfold total_of. cbn [length foldr]. fold (total_of segs).
    rewrite Nat2Z.inj_succ. unfold Z.succ.
    rewrite inject_Z_plus. change (inject_Z 1) with 1.
    destruct IH. split; lra.
Qed.

(** X23: the view of [/predict-route], for a body with a non-empty list of
    coordinates, an hour and a day, is all or nothing.  When [predict]
    returns for every coordinate pair it answers 200 with one segment per
    pair, in order, and the mean of their congestions, which lies in
    [0, 100]; as soon as one pair is too short or makes [predict] raise it
    answers 500 and no segment at all. *)
Theorem route_view_is_all_or_nothing
    (coordinates : list (list Q)) (now : Z) :
  coordinates <> [] ->
  let r := predict_route model
             (inr {| FlaskApp.coordinates := Some coordinates;
                     route_hour := Some hour;
                     route_day_of_week := Some day_of_week |}) now in
  (Forall (fun coord => exists seg, served coord seg) coordinates ->
   exists segments avg,
     r = {| status := 200;
            json := RouteOk segments avg (length coordinates) now |}
     /\ Forall2 served coordinates segments
     /\ avg * inject_Z (Z.of_nat (length coordinates)) == total_of segments
     /\ (0 <= avg /\ avg <= 100))
  /\ (~ Forall (fun coord => exists seg, served coord seg) coordinates ->
      exists msg, r = {| status := 500; json := Failure msg |}).
Proof.
  intros Hne. cbv zeta. unfold predict_route.
  cbn [FlaskApp.coordinates route_hour route_day_of_week from_option]. unfold id.
  destruct coordinates as [| c0 rest] eqn:Hc; [congruence |]. rewrite <- Hc.
  assert (Hlen : (0 < length coordinates)%nat) by (rewrite Hc; cbn; lia).
  clear Hne. split.
  - intros Hall. destruct (view_route_loop_served _ [] 0 Hall) as [[segs total] Hloop].
    rewrite Hloop.
    destruct (view_route_loop_returns _ _ _ _ _ Hloop) as (new & Hnew & Hserved & Htot).
    cbn [app] in Hnew. subst new.
    pose proof (Forall2_length _ _ _ Hserved) as Hl.
    destruct (total_of_bounds _ _ Hserved) as [Hlo Hhi].
    destruct segs as [| s0 segs']; [cbn in Hl; lia |].
    set (segs := s0 :: segs') in *. rewrite <- Hl.
    set (n := inject_Z (Z.of_nat (length coordinates))) in *.
    assert (Hn : 0 < n).
    { unfold n. change 0 with (inject_Z 0). rewrite <- Zlt_Qlt. lia. }
    rewrite <- Hl in Hhi. fold n in Hhi.
    assert (Htotal : total == total_of segs) by (rewrite Htot; ring).
    exists segs, (total / n). split; [reflexivity |]. split; [exact Hserved |].
    split; [rewrite Htotal; field; lra |].
    split.
    + apply Qle_shift_div_l; [exact Hn | lra].
    + apply Qle_shift_div_r; [exact Hn | lra].
  - intros Hnot.
    destruct (route_loop model hour day_of_week coordinates [] 0)
      as [e | [segs total]] eqn:Hloop.
    + eexists. reflexivity.
    + exfalso. apply Hnot.
      destruct (view_route_loop_returns _ _ _ _ _ Hloop) as (new & _ & Hserved & _).
      clear -Hserved. induction Hserved; constructor; eauto.
Qed.

End RouteView.

Lemma route_view_is_all_or_nothing_witness :
  exists segments avg,
    FlaskApp.predict_route Samples.trained
      (inr {| FlaskApp.coordinates := Some [[1; 2]; [3; 4]];
              FlaskApp.route_hour := Some 8%Z;
              FlaskApp.route_day_of_week := Some 1%Z |}) 0
    = {| FlaskApp.status := 200;
         FlaskApp.json := FlaskApp.RouteOk segments avg 2 0 |}
    /\ (0 <= avg /\ avg <= 100).
Proof.
  assert (Hne : [[1; 2]; [3; 4]] <> ([] : list (list Q))) by discriminate.
  destruct (proj1 (route_view_is_all_or_nothing Samples.trained 8 1
                     [[1; 2]; [3; 4]] 0 Hne))
    as (segments & avg & Hr & _ & _ & Havg).
  - repeat constructor.
    + exists {| FlaskApp.seg_lat := 1; FlaskApp.seg_lon := 2;
                FlaskApp.seg_prediction :=
                  {| TrafficModel.congestion := Py.np_clip ((120 + 90) / 2) 0 100;
                     TrafficModel.confidence :=
                       Py.max 70 (Py.min 95 (95 - Qabs (120 - 90)));
                     TrafficModel.current_speed :=
                       60 * (1 - Py.np_clip ((120 + 90) / 2) 0 100 / 100 * (6 # 10));
                     TrafficModel.free_flow_speed := 60;
                     TrafficModel.speed_reduction_percent :=
                       Py.np_clip ((120 + 90) / 2) 0 100 / 100 * (6 # 10) * 100 |} |}.
      repeat split.
    + exists {| FlaskApp.seg_lat := 3; FlaskApp.seg_lon := 4;
                FlaskApp.seg_prediction :=
                  {| TrafficModel.congestion := Py.np_clip ((120 + 90) / 2) 0 100;
                     TrafficModel.confidence :=
                       Py.max 70 (Py.min 95 (95 - Qabs (120 - 90)));
                     TrafficModel.current_speed :=
                       60 * (1 - Py.np_clip ((120 + 90) / 2) 0 100 / 100 * (6 # 10));
                     TrafficModel.free_flow_speed := 60;
                     TrafficModel.speed_reduction_percent :=
                       Py.np_clip ((120 + 90) / 2) 0 100 / 100 * (6 # 10) * 100 |} |}.
      repeat split.
  - exists segments, avg. split; [exact Hr | exact Havg].
Defined.

Section OtherViews.

Import FlaskApp.

(** X24: the view of [/retrain] never retrains: [model.train] is called
    with one argument where it takes two, so whatever the body is and
    whatever data is generated, the view answers 500 and the model in
    service stays as it was. *)
Theorem retrain_view_always_fails
    (generate_synthetic_training_data : Z -> Py.result (list (list Q) * list Q))
    (model : TrafficModel.TrafficPredictionModel)
    (request_json : Py.result (option Z)) :
  let r := retrain_model generate_synthetic_training_data model request_json in
  status (fst r) = 500%Z
  /\ (exists msg, json (fst r) = Failure msg)
  /\ snd r = model
  /\ (forall n df,
        request_json = inr n ->
        generate_synthetic_training_data (default 10000%Z n) = inr df ->
        json (fst r)
        = Failure "TrafficPredictionModel.train() missing 1 required positional argument: 'y'").
Proof.
  cbv zeta. unfold retrain_model.
  destruct request_json as [e | n].
  - cbn. repeat split; eauto. intros; discriminate.
  - destruct (generate_synthetic_training_data (default 10000%Z n)) as [e | df] eqn:Hg;
      cbn; repeat split; eauto.
    + intros n' df' [= <-] H. rewrite Hg in H. discriminate.
Qed.

(** X25: the view of [/tomtom/traffic] answers 400 exactly when the body is
    an object without [lat] or [lon].  Otherwise it answers 500, with
    "Failed to fetch TomTom data", when the client comes back with the
    empty dict, and 200 when it comes back with anything else, with a
    congestion percentage in [0, 100]. *)
Theorem tomtom_view_answers
    (get_traffic_flow : Q -> Q -> Py.result TomTom.answer)
    (request_json : Py.result (option Q * option Q)) (now : Z) :
  let r := get_tomtom_traffic get_traffic_flow request_json now in
  (status r = 400%Z <->
   exists lat lon, request_json = inr (lat, lon) /\ (lat = None \/ lon = None))
  /\ (forall lat lon,
        request_json = inr (Some lat, Some lon) ->
        match get_traffic_flow lat lon with
        | inl e => r = {| status := 500; json := Failure (str e) |}
        | inr traffic_data =>
            if decide (traffic_data = ∅)
            then r = {| status := 500; json := Failure "Failed to fetch TomTom data" |}
            else exists congestion,
                   r = {| status := 200;
                          json := TrafficOk traffic_data congestion now |}
                   /\ congestion = TomTom.calculate_congestion_percentage traffic_data
                   /\ (0 <= congestion /\ congestion <= 100)
        end).
Proof.
  cbv zeta. unfold get_tomtom_traffic.
  destruct request_json as [e | [[lat |] [lon |]]].
  - split; [split; [discriminate | intros (? & ? & ? & _); discriminate] |].
    intros; discriminate.
  - split.
    + split.
      * destruct (get_traffic_flow lat lon) as [e | td]; [discriminate |].
        destruct (TomTom.nonempty td); discriminate.
      * intros (la & lo & [= <- <-] & [H | H]); discriminate.
    + intros la lo [= <- <-].
      destruct (get_traffic_flow lat lon) as [e | td]; [reflexivity |].
      unfold TomTom.nonempty.
      destruct (decide (td = ∅)) as [-> | Hne].
      * rewrite bool_decide_eq_true_2 by reflexivity. reflexivity.
      * rewrite bool_decide_eq_false_2 by exact Hne. cbn.
        eexists. split; [reflexivity |]. split; [reflexivity |].
        apply tomtom_congestion_bounds.
  - split; [split; [intros _; do 2 eexists; split; [reflexivity | tauto] | reflexivity] |].
    intros; discriminate.
  - split; [split; [intros _; do 2 eexists; split; [reflexivity | tauto] | reflexivity] |].
    intros; discriminate.
  - split; [split; [intros _; do 2 eexists; split; [reflexivity | tauto] | reflexivity] |].
    intros; discriminate.
Qed.

End OtherViews.

Lemma model_loaded_returns (self : MLService.MLService) (booster : MLService.Booster)
    (location_id : string) (current_data : MLService.pydict) (hours : list Z)
    (historical_data : option (list MLService.pydict)) (w : MLService.World) :
  MLService.xgboost_model self = Some booster ->
  exists predictions w',
    MLService.predict_congestion_xgboost self location_id current_data hours
      historical_data w = (inr predictions, w').
Proof.
  intros Hm. unfold MLService.predict_congestion_xgboost. rewrite Hm.
  destruct (Cache.get_cache _ w) as [[| p cached] |]; cbn;
    try (destruct (MLService.truthy _)); do 2 eexists; reflexivity.
Qed.

(** ** predictions.py: the view [predict_traffic] *)

Section EndpointFacts.

Import PredictionsEndpoint.

Lemma or_default_spec (x : option Q) (dflt : Q) :
  exists q,
    or_default x dflt = MLService.VNum q
    /\ (~ dflt == 0 -> ~ q == 0)
    /\ (x = None -> q = dflt)
    /\ (forall v, x = Some v -> v == 0 -> q = dflt)
    /\ (forall v, x = Some v -> ~ v == 0 -> q = v).
Proof.
  unfold or_default. destruct x as [v |].
  - destruct (Qeq_bool v 0) eqn:E.
    + apply Qeq_bool_iff in E. exists dflt. split; [reflexivity |].
      split; [tauto |]. split; [discriminate |].
      split; [reflexivity |]. intros v' [= <-] H. tauto.
    + assert (Hnz : ~ v == 0) by (intros H; apply Qeq_bool_iff in H; congruence).
      exists v. split; [reflexivity |]. split; [tauto |]. split; [discriminate |].
      split; intros v' [= <-]; tauto.
  - exists dflt. split; [reflexivity |]. split; [tauto |].
    split; [reflexivity |]. split; intros; discriminate.
Qed.

(** X26: the observation the view hands to the forecast.  It holds the
    current instant as timestamp and a number under each of the nine
    optional keys, so the defaults of [prepare_features] never apply; a
    column that is NULL or zero is replaced by the view's default, so the
    temperature, the visibility, the vehicle count, the average speed and
    the congestion level it holds are never 0: a recorded average speed of
    0 is passed on as 40. *)
Theorem view_observation_has_no_missing_or_zero_field
    (latest_data : TrafficData) (now : Z) :
  let data := current_data latest_data now in
  data !! "timestamp" = Some (MLService.VTime now)
  /\ (forall key,
        In key ["temperature"; "precipitation"; "visibility"; "vehicle_count";
                "average_speed"; "incident_reported"; "event_nearby";
                "congestion_level"; "is_holiday"] ->
        exists q, data !! key = Some (MLService.VNum q))
  /\ (forall key,
        In key ["temperature"; "visibility"; "vehicle_count"; "average_speed";
                "congestion_level"] ->
        exists q, data !! key = Some (MLService.VNum q) /\ ~ q == 0)
  /\ (forall v, average_speed latest_data = Some v -> v == 0 ->
        data !! "average_speed" = Some (MLService.VNum 40))
  /\ (forall v, average_speed latest_data = Some v -> ~ v == 0 ->
        data !! "average_speed" = Some (MLService.VNum v)).
Proof.
  cbv zeta. unfold current_data.
  destruct (or_default_spec (temperature latest_data) 20) as (q1 & E1 & N1 & _).
  destruct (or_default_spec (precipitation latest_data) 0) as (q2 & E2 & _).
  destruct (or_default_spec (visibility latest_data) 10) as (q3 & E3 & N3 & _).
  destruct (or_default_spec (inject_Z <$> vehicle_count latest_data) 100)
    as (q4 & E4 & N4 & _).
  destruct (or_default_spec (average_speed latest_data) 40)
    as (q5 & E5 & N5 & _ & Z5 & V5).
  destruct (or_default_spec (inject_Z <$> incident_reported latest_data) 0)
    as (q6 & E6 & _).
  destruct (or_default_spec (inject_Z <$> event_nearby latest_data) 0)
    as (q7 & E7 & _).
  destruct (or_default_spec (inject_Z <$> congestion_level latest_data) 2)
    as (q8 & E8 & N8 & _).
  destruct (or_default_spec (inject_Z <$> is_holiday latest_data) 0)
    as (q9 & E9 & _).
  rewrite E1, E2, E3, E4, E5, E6, E7, E8, E9.
  assert (H20 : ~ 20 == 0) by (intros H; discriminate H).
  assert (H10 : ~ 10 == 0) by (intros H; discriminate H).
  assert (H100 : ~ 100 == 0) by (intros H; discriminate H).
  assert (H40 : ~ 40 == 0) by (intros H; discriminate H).
  assert (H2 : ~ 2 == 0) by (intros H; discriminate H).
  split; [reflexivity |]. split; [| split; [| split]].
  - intros key Hkey. cbn in Hkey.
    repeat (destruct Hkey as [<- | Hkey]; [eexists; reflexivity |]). destruct Hkey.
  - intros key Hkey. cbn in Hkey.
    repeat (destruct Hkey as [<- | Hkey];
            [eexists; split; [reflexivity | auto] |]).
    destruct Hkey.
  - intros v Hv Hz. rewrite (Z5 v Hv Hz). reflexivity.
  - intros v Hv Hnz. rewrite (V5 v Hv Hnz). reflexivity.
Qed.

Variable commit : list TrafficPrediction -> Py.result unit.
Variable get_score : MLService.Booster -> Py.result (gmap string Q).

(** X27: how the view ends.  An unknown location, or one without any
    record, is answered with 404 before the forecast is asked for.  A
    service without a loaded model, which is what [MLService()] gives, is
    answered with 500 "Prediction error: XGBoost model not loaded".  With a
    loaded model the forecast is computed from the view's observation, with
    no window when the frame is empty; the response carries it when the
    commit succeeds, and a failing commit is answered with 500 while the
    cache keeps what the forecast stored. *)
Theorem predict_traffic_outcomes
    (ml_service : MLService.MLService) (location_id : string)
    (forecast_hours : list Z) (include_features : bool)
    (location : option Location) (latest_data : option TrafficData)
    (historical_df : list MLService.pydict) (w : MLService.World) :
  let view := predict_traffic commit get_score in
  match location, latest_data with
  | None, _ =>
      view ml_service location_id forecast_hours include_features
        location latest_data historical_df w
      = (HTTPException 404 ("Location " +:+ location_id +:+ " not found"), w)
  | Some _, None =>
      view ml_service location_id forecast_hours include_features
        location latest_data historical_df w
      = (HTTPException 404 ("No traffic data found for location " +:+ location_id), w)
  | Some place, Some latest =>
      view new_service location_id forecast_hours include_features
        location latest_data historical_df w
      = (HTTPException 500 "Prediction error: XGBoost model not loaded", w)
      /\ match MLService.xgboost_model ml_service with
         | None =>
             view ml_service location_id forecast_hours include_features
               location latest_data historical_df w
             = (HTTPException 500 "Prediction error: XGBoost model not loaded", w)
         | Some _ =>
             exists predictions w' rows,
               MLService.predict_congestion_xgboost ml_service location_id
                 (current_data latest (Cache.clock w)) forecast_hours
                 (match historical_df with [] => None | _ :: _ => Some historical_df end)
                 w
               = (inr predictions, w')
               /\ List.map forecast_horizon rows
                  = List.map MLService.forecast_hours predictions
               /\ match commit rows with
                  | inl e =>
                      view ml_service location_id forecast_hours include_features
                        location latest_data historical_df w
                      = (HTTPException 500 ("Prediction error: " +:+ FlaskApp.str e), w')
                  | inr _ =>
                      exists response,
                        view ml_service location_id forecast_hours include_features
                          location latest_data historical_df w
                        = (Returned response, w')
                        /\ forecasts response = predictions
                        /\ location_name response = name place
                  end
         end
  end.
Proof.
  cbv zeta. destruct location as [place |]; [| reflexivity].
  destruct latest_data as [latest |]; [| reflexivity].
  split; [reflexivity |].
  unfold predict_traffic.
  destruct (MLService.xgboost_model ml_service) as [booster |] eqn:Hm.
  - pose proof (model_loaded_returns ml_service booster location_id
                  (current_data latest (Cache.clock w)) forecast_hours
                  (match historical_df with [] => None | _ :: _ => Some historical_df end)
                  w Hm) as (predictions & w' & Hcall).
    cbv zeta. rewrite Hcall.
    match goal with |- context [commit ?r] => exists predictions, w', r end.
    split; [reflexivity |]. split; cycle 1.
    + destruct (commit _) as [e | []]; [reflexivity |].
      eexists. split; [reflexivity |]. split; reflexivity.
    + clear. induction predictions as [| p rest IH]; cbn; [reflexivity |].
      f_equal. exact IH.
  - cbv zeta. unfold MLService.predict_congestion_xgboost. rewrite Hm. reflexivity.
Qed.

End EndpointFacts.
